(** * ELEANOR orchestrator V7: deliberation core

    A shallow embedding of the router, the critic fan-out, the fusion
    pipeline, the mode gate, the runtime shell and the event bus of
    [V7/orchestrator] and [V7/commons], together with the properties the
    specification states about them and further properties of the code.

    Conventions of the embedding.
    - A Python float is a rational ([Qc], whose equality is Leibniz
      equality).  The arithmetic on floats is exact, except in the module
      [Double], which gives the uncertainty engine the arithmetic of IEEE
      754 doubles: every operation rounds to the nearest double, ties to
      even.  Infinities and NaN are not modelled.
    - A coroutine is a function of an optional cancellation deadline and of
      the state of the process; it yields an outcome and the new state.
      Time is a logical clock that only the opaque collaborators (backend
      runner, critics, precedent storage) advance.
    - A call that can wait for ever ([EleanorRuntime.decide], on its
      semaphore) either returns or blocks in the state it has reached.  The
      runtime serves one request at a time, so its semaphore holds on every
      call the permits it was built with.
    - Exceptions are the subclasses of [Exception]; [asyncio.CancelledError]
      is the separate outcome [Cancelled].
    - The collaborators are opaque: a listener, a hook, a critic, the
      backend runner and the storage return or raise, and touch neither
      the request nor the state of the process.
    - The built-ins [repr] and [str.lower] are parameters of the
      definitions that call them.
    - [logging] calls do not influence control flow and are left out. *)

From Stdlib Require Import QArith Qcanon.
From stdpp Require Import gmap strings list fin_maps pretty numbers.

Open Scope string_scope.
Open Scope list_scope.
Open Scope Qc_scope.

(* ===================================================================== *)
(** ** Python values *)
(* ===================================================================== *)

#[warnings="-register-all"]
Inductive Value :=
| VNone
| VBool (b : bool)
| VInt (n : Z)
| VFloat (q : Qc)
| VStr (s : string)
| VList (l : list Value)
| VDict (d : list (string * Value)).

(** A dict literal: its items in the order they are written. *)
Abbreviation PyDict := (list (string * Value)).

(** [d.get(k)] on a dict literal; [None] stands for an absent key. *)
Fixpoint dict_get {A : Type} (k : string) (d : list (string * A)) : option A :=
  match d with
  | [] => None
  | (k', v) :: d' => if bool_decide (k' = k) then Some v else dict_get k d'
  end.

(** The numeric tower: [True == 1 == 1.0]. *)
Definition as_number (v : Value) : option Qc :=
  match v with
  | VBool b => Some (if b then 1 else 0)
  | VInt n => Some (Qc_of_Z n)
  | VFloat q => Some q
  | _ => None
  end.

(** Python's [==] on values. *)
Fixpoint py_eq (a b : Value) {struct a} : bool :=
  match a, b with
  | VNone, VNone => true
  | VStr s, VStr t => bool_decide (s = t)
  | VList l, VList l' =>
      (fix go (l l' : list Value) {struct l} : bool :=
         match l, l' with
         | [], [] => true
         | x :: l, y :: l' => py_eq x y && go l l'
         | _, _ => false
         end) l l'
  | VDict d, VDict d' =>
      bool_decide (length d = length d') &&
      (fix go (d : list (string * Value)) {struct d} : bool :=
         match d with
         | [] => true
         | (k, x) :: d =>
             match dict_get k d' with
             | Some y => py_eq x y
             | None => false
             end && go d
         end) d
  | _, _ =>
      match as_number a, as_number b with
      | Some x, Some y => bool_decide (x = y)
      | _, _ => false
      end
  end.

(** Truth value testing. *)
Definition truthy (v : Value) : bool :=
  match v with
  | VNone => false
  | VBool b => b
  | VInt n => negb (bool_decide (n = 0%Z))
  | VFloat q => negb (bool_decide (q = 0))
  | VStr s => negb (bool_decide (s = ""))
  | VList [] => false
  | VList (_ :: _) => true
  | VDict [] => false
  | VDict (_ :: _) => true
  end.

(** A request is a mapping from keys to values. *)
Abbreviation Request := (gmap string Value).

(** [request.get(key)]: [None] when the key is absent. *)
Definition request_get (request : Request) (key : string) : Value :=
  default VNone (request !! key).

Definition request_value (request : Request) : Value :=
  VDict (map_to_list request).

(* ===================================================================== *)
(** ** Exceptions *)
(* ===================================================================== *)

(** The exception classes the core raises or names in an [except] clause.
    [Exception] also stands for every class not listed. *)
Inductive ExnClass :=
| Exception
| KeyError
| ValueError
| TimeoutError
| NotImplementedError
| RouterError
| NoModelAvailable
| RoutingRuleError
| HybridCoreError
| EscalationRequired
| ModeError.

#[global] Instance ExnClass_eq_dec : EqDecision ExnClass.
Proof. solve_decision. Defined.

(** [issubclass c d] (router_exceptions.py, hybrid_exceptions.py). *)
Definition issubclass (c d : ExnClass) : bool :=
  match d with
  | Exception => true
  | RouterError =>
      match c with
      | RouterError | NoModelAvailable | RoutingRuleError => true
      | _ => false
      end
  | HybridCoreError =>
      match c with
      | HybridCoreError | EscalationRequired | ModeError => true
      | _ => false
      end
  | _ => bool_decide (c = d)
  end.

(** An exception object: its class and the text [str(exc)]. *)
Record Exn := mkExn { exn_class : ExnClass; exn_msg : string }.

Definition isinstance (e : Exn) (c : ExnClass) : bool :=
  issubclass (exn_class e) c.

(* ===================================================================== *)
(** ** Events, listeners and the state of the process *)
(* ===================================================================== *)

(** commons/events.py, [class Event]. *)
Record Event := mkEvent {
  ev_id : string;
  ev_name : string;
  ev_timestamp : Qc;
  ev_payload : PyDict;
  ev_metadata : PyDict
}.

(** A listener either completes ([None]) or raises. *)
Definition Listener := Event -> option Exn.

(** A hook receives the context map. *)
Definition Hook := PyDict -> option Exn.

(** runtime_state.py, [class RuntimeState]. *)
Record RuntimeState := mkRuntimeState {
  boot_time : Qc;
  active_tasks : Z;
  completed_tasks : Z;
  failed_tasks : Z;
  last_healthcheck : Qc;
  request_log : gmap string PyDict
}.

(** One invocation of the backend runner. *)
Record RunnerCall := mkRunnerCall {
  call_model : string;
  call_request : Request;
  call_start : Qc;
  call_end : Qc
}.

Record World := mkWorld {
  w_now : Qc;                                 (* time.time() *)
  w_uuids : nat -> string;                    (* what uuid.uuid4() draws *)
  w_drawn : nat;                              (* how many were drawn *)
  w_listeners : gmap string (list Listener);  (* EventBus._listeners *)
  w_hooks : gmap string (list Hook);          (* HookManager._hooks *)
  w_emitted : list Event;                     (* events constructed by emit *)
  w_delivered : list (Listener * Event);      (* listener invocations *)
  w_fired : list (Hook * PyDict);             (* hook invocations *)
  w_calls : list RunnerCall;                  (* backend runner invocations *)
  w_state : RuntimeState                      (* EleanorRuntime.state *)
}.

Definition set_now (t : Qc) (w : World) : World :=
  mkWorld t (w_uuids w) (w_drawn w) (w_listeners w) (w_hooks w) (w_emitted w)
          (w_delivered w) (w_fired w) (w_calls w) (w_state w).

Definition set_drawn (n : nat) (w : World) : World :=
  mkWorld (w_now w) (w_uuids w) n (w_listeners w) (w_hooks w) (w_emitted w)
          (w_delivered w) (w_fired w) (w_calls w) (w_state w).

Definition set_listeners (t : gmap string (list Listener)) (w : World) : World :=
  mkWorld (w_now w) (w_uuids w) (w_drawn w) t (w_hooks w) (w_emitted w)
          (w_delivered w) (w_fired w) (w_calls w) (w_state w).

Definition set_hooks (t : gmap string (list Hook)) (w : World) : World :=
  mkWorld (w_now w) (w_uuids w) (w_drawn w) (w_listeners w) t (w_emitted w)
          (w_delivered w) (w_fired w) (w_calls w) (w_state w).

Definition set_emitted (l : list Event) (w : World) : World :=
  mkWorld (w_now w) (w_uuids w) (w_drawn w) (w_listeners w) (w_hooks w) l
          (w_delivered w) (w_fired w) (w_calls w) (w_state w).

Definition set_delivered (l : list (Listener * Event)) (w : World) : World :=
  mkWorld (w_now w) (w_uuids w) (w_drawn w) (w_listeners w) (w_hooks w)
          (w_emitted w) l (w_fired w) (w_calls w) (w_state w).

Definition set_fired (l : list (Hook * PyDict)) (w : World) : World :=
  mkWorld (w_now w) (w_uuids w) (w_drawn w) (w_listeners w) (w_hooks w)
          (w_emitted w) (w_delivered w) l (w_calls w) (w_state w).

Definition set_calls (l : list RunnerCall) (w : World) : World :=
  mkWorld (w_now w) (w_uuids w) (w_drawn w) (w_listeners w) (w_hooks w)
          (w_emitted w) (w_delivered w) (w_fired w) l (w_state w).

Definition set_state (s : RuntimeState) (w : World) : World :=
  mkWorld (w_now w) (w_uuids w) (w_drawn w) (w_listeners w) (w_hooks w)
          (w_emitted w) (w_delivered w) (w_fired w) (w_calls w) s.

(* ===================================================================== *)
(** ** Coroutines *)
(* ===================================================================== *)

Inductive Outcome (A : Type) :=
| Ok (a : A)
| Raise (e : Exn)
| Cancelled.

Arguments Ok {A} a.
Arguments Raise {A} e.
Arguments Cancelled {A}.

(** The instant at which the enclosing [asyncio.wait_for] cancels. *)
Definition Deadline := option Qc.

Definition M (A : Type) : Type := Deadline -> World -> Outcome A * World.

Definition ret {A} (a : A) : M A := fun _ w => (Ok a, w).

Definition bind {A B} (m : M A) (k : A -> M B) : M B :=
  fun dl w =>
    match m dl w with
    | (Ok a, w') => k a dl w'
    | (Raise e, w') => (Raise e, w')
    | (Cancelled, w') => (Cancelled, w')
    end.

Definition raise {A} (e : Exn) : M A := fun _ w => (Raise e, w).

Definition get_world : M World := fun _ w => (Ok w, w).

Definition modify (f : World -> World) : M unit := fun _ w => (Ok tt, f w).

Declare Scope coro_scope.
Delimit Scope coro_scope with coro.
Notation "x <- c1 ;; c2" := (bind c1 (fun x => c2))
  (at level 100, c1 at next level, right associativity) : coro_scope.
Notation "c1 ;;; c2" := (bind c1 (fun _ => c2))
  (at level 100, right associativity) : coro_scope.
Open Scope coro_scope.

(** [try: m except C1 as exc: h1 ... except Cn as exc: hn]: the first
    clause whose class the exception is an instance of handles it.
    A cancellation is not an [Exception] and passes through. *)
Fixpoint find_handler {A} (e : Exn) (hs : list (ExnClass * (Exn -> M A)))
  : option (Exn -> M A) :=
  match hs with
  | [] => None
  | (c, h) :: hs' => if isinstance e c then Some h else find_handler e hs'
  end.

Definition try_except {A} (m : M A) (hs : list (ExnClass * (Exn -> M A))) : M A :=
  fun dl w =>
    match m dl w with
    | (Raise e, w') =>
        match find_handler e hs with
        | Some h => h e dl w'
        | None => (Raise e, w')
        end
    | r => r
    end.

(** [try: m finally: f], for a clean-up [f] that only updates the state. *)
Definition try_finally {A} (m : M A) (f : World -> World) : M A :=
  fun dl w => let '(r, w') := m dl w in (r, f w').

(** The result of awaiting an opaque collaborator: how long it runs and
    what it then returns or raises. *)
Record Attempt (A : Type) := mkAttempt {
  att_secs : Qc;
  att_result : Exn + A
}.

Arguments mkAttempt {A} _ _.
Arguments att_secs {A} _.
Arguments att_result {A} _.

Definition of_result {A} (r : Exn + A) : Outcome A :=
  match r with
  | inl e => Raise e
  | inr a => Ok a
  end.

Definition later (a b : Qc) : Qc := if bool_decide (a < b) then b else a.

(** Awaiting something that started at [start]: it completes at
    [start + att_secs] unless the deadline comes first. *)
Definition await_from {A} (start : Qc) (att : Attempt A) : M A :=
  fun dl w =>
    let finish := later (w_now w) (start + att_secs att) in
    match dl with
    | Some d =>
        if bool_decide (finish < d)
        then (of_result (att_result att), set_now finish w)
        else (Cancelled, set_now d w)
    | None => (of_result (att_result att), set_now finish w)
    end.

(** Awaiting a collaborator that is started by the [await] itself. *)
Definition await {A} (att : Attempt A) : M A :=
  fun dl w => await_from (w_now w) att dl w.

(** [asyncio.wait_for(m, timeout)]. A non-positive timeout raises before
    the awaited coroutine has run at all; otherwise the coroutine runs under
    the earlier of its own and the enclosing deadline, and a cancellation
    caused by its own deadline becomes [TimeoutError]. *)
Definition wait_for {A} (timeout : Qc) (m : M A) : M A :=
  fun dl w =>
    if bool_decide (timeout <= 0) then (Raise (mkExn TimeoutError ""), w)
    else
      let own := w_now w + timeout in
      let own_first :=
        match dl with
        | Some d => bool_decide (own <= d)
        | None => true
        end in
      match m (if own_first then Some own else dl) w with
      | (Cancelled, w') =>
          if own_first then (Raise (mkExn TimeoutError ""), w')
          else (Cancelled, w')
      | r => r
      end.

(** A call that may also wait for ever: it returns, with an outcome, or
    it blocks in the state it has reached. *)
Inductive Run (A : Type) :=
| Returns (r : Outcome A) (w : World)
| Blocks (w : World).

Arguments Returns {A} _ _.
Arguments Blocks {A} _.

Definition Blocking (A : Type) : Type := Deadline -> World -> Run A.

(** [async with semaphore: body] for an [asyncio.Semaphore] that holds
    [value] permits on entry and that no other task releases meanwhile:
    with a permit the body runs at once, and the permit is given back
    however the body ends; without one the caller waits, until its deadline
    if it has one and for ever otherwise. *)
Definition async_with_semaphore {A} (value : Z) (body : M A) : Blocking A :=
  fun dl w =>
    if bool_decide (0 < value)%Z
    then let '(r, w') := body dl w in Returns r w'
    else match dl with
         | Some d => Returns Cancelled (set_now d w)
         | None => Blocks w
         end.

(** A coroutine followed by a block that may wait. *)
Definition then_block {A C} (m : M A) (k : A -> Blocking C) : Blocking C :=
  fun dl w =>
    match m dl w with
    | (Ok a, w') => k a dl w'
    | (Raise e, w') => Returns (Raise e) w'
    | (Cancelled, w') => Returns Cancelled w'
    end.

(** [asyncio.gather] over the tasks with [return_exceptions=True]. *)
Fixpoint gather_return_exceptions {A} (tasks : list (M A)) : M (list (Exn + A)) :=
  match tasks with
  | [] => ret []
  | t :: ts =>
      fun dl w =>
        match t dl w with
        | (Ok a, w') =>
            (rs <- gather_return_exceptions ts;; ret (inr a :: rs)) dl w'
        | (Raise e, w') =>
            (rs <- gather_return_exceptions ts;; ret (inl e :: rs)) dl w'
        | (Cancelled, w') => (Cancelled, w')
        end
  end.

Definition uuid4 : M string :=
  fun _ w => (Ok (w_uuids w (w_drawn w)), set_drawn (S (w_drawn w)) w).

Definition time_time : M Qc := fun _ w => (Ok (w_now w), w).

(** [x or {}] for an optional dict. *)
Definition or_empty (d : option PyDict) : PyDict := default [] d.

(* ===================================================================== *)
(** ** Configuration and data records *)
(* ===================================================================== *)

(** commons/telemetry.py: what [start_span] returns. *)
Record Span := mkSpan {
  span_id : string;
  span_name : string;
  span_start : Qc;
  span_context : PyDict
}.

(** router_config.py, [class ModelBackendConfig]. *)
Record ModelBackendConfig := mkBackend {
  mb_name : string;
  mb_endpoint : string;
  mb_timeout : Qc;
  mb_max_retries : Z;
  mb_enabled : bool
}.

(** A routing rule [{"if": {...}, "use_model": ...}]; either key may be
    missing. *)
Record Rule := mkRule {
  rule_if : option (gmap string Value);
  rule_use_model : option string
}.

(** router_config.py, [class RouterConfig]. *)
Record RouterConfig := mkRouterConfig {
  default_model : string;
  models : gmap string ModelBackendConfig;
  routing_rules : list Rule
}.

(** The backend runner [(model_name, request) -> response]: an opaque
    collaborator whose behaviour may differ from one invocation to the
    next; the last argument counts the invocations made before. *)
Definition Runner := string -> Request -> nat -> Attempt PyDict.

(** A number as a critic writes it: [0] or [0.0]. *)
Inductive Num :=
| NInt (n : Z)
| NFloat (q : Qc).

(** [float(x)]. *)
Definition float (x : Num) : Qc :=
  match x with
  | NInt n => Qc_of_Z n
  | NFloat q => q
  end.

Definition num_value (x : Num) : Value :=
  match x with
  | NInt n => VInt n
  | NFloat q => VFloat q
  end.

(** A critic's output [{"score", "confidence", "violation", "rationale"}];
    every key may be missing. *)
Record Judgment := mkJudgment {
  score : option Num;
  confidence : option Num;
  violation : option bool;
  rationale : option string
}.

Definition judgment_value (j : Judgment) : Value :=
  VDict (omap id
    [ (fun x => ("score", num_value x)) <$> score j;
      (fun x => ("confidence", num_value x)) <$> confidence j;
      (fun b => ("violation", VBool b)) <$> violation j;
      (fun s => ("rationale", VStr s)) <$> rationale j ]).

Definition critics_value (critics : gmap string Judgment) : Value :=
  VDict (map (fun '(name, out) => (name, judgment_value out)) (map_to_list critics)).

(** A critic [evaluate(request, backend_result)]: an opaque collaborator. *)
Definition Critic := Request -> PyDict -> Attempt Judgment.

(** The storage backend [search_embeddings(vector, top_k)]. *)
Definition Storage := Value -> Z -> Attempt (list Value).

(** hybrid_modes.py, [class HybridModeConfig]. *)
Record HybridModeConfig := mkMode {
  mode_name : string;
  enforce_lex : bool;
  allow_override : bool;
  auto_escalate : bool;
  uncertainty_threshold : Qc;
  block_on_violation : bool;
  advisory_only : bool
}.

Module HybridMode.
Definition STRICT := mkMode "strict" true false true (Q2Qc (25 # 100)) true false.
Definition BALANCED := mkMode "balanced" true false true (Q2Qc (35 # 100)) true false.
Definition PERMISSIVE := mkMode "permissive" false true false (Q2Qc (50 # 100)) false false.
Definition ADVISORY := mkMode "advisory" false true false 1 false true.
Definition APPLIANCE := mkMode "appliance" true false true (Q2Qc (30 # 100)) true false.
Definition DISTRIBUTED := mkMode "distributed" true false true (Q2Qc (30 # 100)) true false.

Section WithLower.

(** Python's [str.lower]. *)
Variable py_lower : string -> string.

(** [HybridMode.get]; [inl] stands for the [ValueError] it raises. *)
Definition get (mode : string) : Exn + HybridModeConfig :=
  let mode := py_lower mode in
  if decide (mode = "strict") then inr STRICT
  else if decide (mode = "balanced") then inr BALANCED
  else if decide (mode = "permissive") then inr PERMISSIVE
  else if decide (mode = "advisory") then inr ADVISORY
  else if decide (mode = "appliance") then inr APPLIANCE
  else if decide (mode = "distributed") then inr DISTRIBUTED
  else inl (mkExn ValueError ("Unknown hybrid mode '" +:+ mode +:+ "'")).

End WithLower.
End HybridMode.

(** consensus_fusion.py, [class ConsensusFusion]: the weights of its
    [CriticFusion], the threshold of its [UncertaintyEngine] and the
    storage of its optional [PrecedentEngine]. *)
Record ConsensusFusion := mkConsensus {
  critic_fusion : gmap string Qc;
  uncertainty : Qc;
  precedent : option Storage
}.

(** hybrid_core.py, [class HybridCore]. *)
Record HybridCore := mkHybridCore {
  router : RouterConfig;
  critics : gmap string Critic;
  fusion : ConsensusFusion;
  mode : HybridModeConfig;
  backend_runner : Runner
}.

(** runtime_config.py, [class RuntimeConfig]. *)
Record RuntimeConfig := mkRuntimeConfig {
  rc_mode : string;
  max_concurrent_tasks : Z;
  decision_timeout : Qc;
  healthcheck_interval : Qc;
  enable_precedent : bool;
  enable_telemetry : bool;
  enable_events : bool;
  log_level : string
}.

(** [RuntimeConfig()]: the defaults of the fields. *)
Definition default_config : RuntimeConfig :=
  mkRuntimeConfig "balanced" 10 (Q2Qc 20) (Q2Qc 30) true true true "INFO".

(** runtime.py, [class EleanorRuntime]; its [state] is [w_state], and
    [semaphore] is the value of its [asyncio.Semaphore] while no request is
    in flight: [decide] takes one permit and gives it back. *)
Record EleanorRuntime := mkRuntime {
  hybrid : HybridCore;
  config : RuntimeConfig;
  semaphore : Z
}.


(* ===================================================================== *)
(** ** commons/events.py: the event bus *)
(* ===================================================================== *)

Module EventBus.

Definition subscribe (event_name : string) (listener : Listener) : M unit :=
  modify (fun w =>
    set_listeners
      (<[event_name := default [] (w_listeners w !! event_name) ++ [listener]]>
         (w_listeners w)) w).

(** [await listener(event)]. *)
Definition call_listener (listener : Listener) (event : Event) : M unit :=
  fun _ w =>
    let w' := set_delivered (w_delivered w ++ [(listener, event)]) w in
    match listener event with
    | None => (Ok tt, w')
    | Some e => (Raise e, w')
    end.

Definition _safe_invoke (listener : Listener) (event : Event) : M unit :=
  try_except (call_listener listener event)
             [(Exception, fun exc => ret tt)].

Definition broadcast (event : Event) : M unit :=
  w <- get_world;;
  let listeners := default [] (w_listeners w !! ev_name event) in
  match listeners with
  | [] => ret tt
  | _ :: _ =>
      let tasks := map (fun listener => _safe_invoke listener event) listeners in
      _ <- gather_return_exceptions tasks;;
      ret tt
  end.

Definition emit (event_name : string) (payload metadata : option PyDict) : M Event :=
  id <- uuid4;;
  timestamp <- time_time;;
  let event :=
    mkEvent id event_name timestamp (or_empty payload) (or_empty metadata) in
  modify (fun w => set_emitted (w_emitted w ++ [event]) w);;;
  broadcast event;;;
  ret event.

End EventBus.

(* ===================================================================== *)
(** ** commons/hooks.py: the hook manager *)
(* ===================================================================== *)

Module HookManager.

Definition hook_points : list string :=
  ["before_router"; "after_router"; "before_critic"; "after_critic";
   "before_fusion"; "after_fusion"; "before_runtime_step"; "after_runtime_step"].

(** [__init__]: every hook point starts with no hook. *)
Definition init : gmap string (list Hook) :=
  list_to_map (map (fun name => (name, [])) hook_points).

Definition register (hook_name : string) (fn : Hook) : M unit :=
  w <- get_world;;
  match w_hooks w !! hook_name with
  | None => raise (mkExn ValueError ("Unknown hook: " +:+ hook_name))
  | Some hooks => modify (set_hooks (<[hook_name := hooks ++ [fn]]> (w_hooks w)))
  end.

(** [await fn(ctx)]. *)
Definition call_hook (fn : Hook) (ctx : PyDict) : M unit :=
  fun _ w =>
    let w' := set_fired (w_fired w ++ [(fn, ctx)]) w in
    match fn ctx with
    | None => (Ok tt, w')
    | Some e => (Raise e, w')
    end.

Definition _safe (fn : Hook) (ctx : PyDict) : M unit :=
  try_except (call_hook fn ctx) [(Exception, fun exc => ret tt)].

Definition fire (hook_name : string) (context : PyDict) : M unit :=
  w <- get_world;;
  let hooks := default [] (w_hooks w !! hook_name) in
  match hooks with
  | [] => ret tt
  | _ :: _ =>
      _ <- gather_return_exceptions (map (fun fn => _safe fn context) hooks);;
      ret tt
  end.

End HookManager.

(* ===================================================================== *)
(** ** commons/telemetry.py *)
(* ===================================================================== *)

Module telemetry.
Section WithRepr.

(** Python's [repr]; [str] agrees with it on everything but a string. *)
Variable py_repr : Value -> string.

Definition py_str (v : Value) : string :=
  match v with
  | VStr s => s
  | _ => py_repr v
  end.

(** [d[k]]: a missing key raises [KeyError]. *)
Definition getitem (d : PyDict) (k : string) : M Value :=
  match dict_get k d with
  | Some v => ret v
  | None => raise (mkExn KeyError (py_repr (VStr k)))
  end.

Definition start_span (name : string) (context : option PyDict) : M Span :=
  span_id <- uuid4;;
  start_time <- time_time;;
  _ <- EventBus.emit "telemetry.span.start"
         (Some [("span_id", VStr span_id);
                ("name", VStr name);
                ("context", VDict (or_empty context));
                ("timestamp", VFloat start_time)]) None;;
  ret (mkSpan span_id name start_time (or_empty context)).

Definition end_span (span : Span) (result : Value) : M unit :=
  now <- time_time;;
  let duration := now - span_start span in
  _ <- EventBus.emit "telemetry.span.end"
         (Some [("span_id", VStr (span_id span));
                ("name", VStr (span_name span));
                ("duration", VFloat duration);
                ("result_summary",
                  if truthy result
                  then VStr (String.substring 0 500 (py_str result))
                  else VNone)]) None;;
  ret tt.

Definition emit_metric (name : string) (value : Qc) (tags : option PyDict) : M unit :=
  _ <- EventBus.emit "telemetry.metric"
         (Some [("name", VStr name);
                ("value", VFloat value);
                ("tags", VDict (or_empty tags))]) None;;
  ret tt.

Definition emit_trace (message : string) (details : option PyDict) : M unit :=
  _ <- EventBus.emit "telemetry.trace"
         (Some [("message", VStr message);
                ("details", VDict (or_empty details))]) None;;
  ret tt.

End WithRepr.
End telemetry.

(* ===================================================================== *)
(** ** orchestrator/router *)
(* ===================================================================== *)

Module router_rules.

Definition rule_matches (rule : Rule) (request : Request) : bool :=
  match rule_if rule with
  | None => false
  | Some cond =>
      match map_to_list cond with
      | [] => false
      | items =>
          forallb (fun '(key, value) => py_eq (request_get request key) value) items
      end
  end.

Fixpoint evaluate_rules (rules : list Rule) (request : Request) : option string :=
  match rules with
  | [] => None
  | rule :: rest =>
      if rule_matches rule request then rule_use_model rule
      else evaluate_rules rest request
  end.

End router_rules.

Module Router.
Section WithRepr.

Variable py_repr : Value -> string.
Local Abbreviation start_span := (telemetry.start_span).
Local Abbreviation end_span := (telemetry.end_span py_repr).
Local Abbreviation emit_trace := (telemetry.emit_trace).

(** router_config.py, [RouterConfig.get_backend]. *)
Definition get_backend (config : RouterConfig) (name : string) : M ModelBackendConfig :=
  match models config !! name with
  | None =>
      raise (mkExn KeyError (py_repr (VStr ("Unknown model backend: " +:+ name))))
  | Some cfg => ret cfg
  end.

(** [Router.route]: a model name that is missing or empty is falsy and
    falls through to the default. *)
Definition route (config : RouterConfig) (request : Request) : string :=
  match router_rules.evaluate_rules (routing_rules config) request with
  | Some model => if bool_decide (model = "") then default_model config else model
  | None => default_model config
  end.

(** [await runner(cfg.name, request)], recorded in [w_calls]. *)
Definition invoke_runner (runner : Runner) (model_name : string) (request : Request)
  : M PyDict :=
  fun dl w =>
    let att := runner model_name request (length (w_calls w)) in
    let '(r, w') := await att dl w in
    (r, set_calls
          (w_calls w' ++ [mkRunnerCall model_name request (w_now w) (w_now w')]) w').

(** The [for _ in range(cfg.max_retries + 1)] loop of [_run_backend] with
    [n] iterations left. *)
Fixpoint run_backend_loop (n : nat) (cfg : ModelBackendConfig) (runner : Runner)
    (request : Request) (last_exc : option Exn) : M PyDict :=
  match n with
  | O =>
      raise (mkExn RouterError
        ("Backend '" +:+ mb_name cfg +:+ "' failed after " +:+
         pretty (mb_max_retries cfg) +:+ " retries: " +:+
         match last_exc with
         | Some exc => exn_msg exc
         | None => "None"
         end))
  | S n' =>
      try_except
        (wait_for (mb_timeout cfg) (invoke_runner runner (mb_name cfg) request))
        [(Exception, fun exc =>
            emit_trace "router.backend_retry"
              (Some [("backend", VStr (mb_name cfg)); ("error", VStr (exn_msg exc))]);;;
            run_backend_loop n' cfg runner request (Some exc))]
  end.

Definition _run_backend (cfg : ModelBackendConfig) (runner : Runner)
    (request : Request) : M PyDict :=
  run_backend_loop (Z.to_nat (mb_max_retries cfg + 1)) cfg runner request None.

Definition execute (config : RouterConfig) (request : Request) (runner : Runner)
    (context : option PyDict) : M PyDict :=
  span <- start_span "router.execute" context;;
  try_except
    (let model := route config request in
     cfg <- get_backend config model;;
     (if mb_enabled cfg then ret tt
      else raise (mkExn NoModelAvailable ("Model '" +:+ model +:+ "' is disabled")));;;
     response <- _run_backend cfg runner request;;
     end_span span (VDict response);;;
     ret response)
    [(NoModelAvailable, fun exc =>
        emit_trace "router.no_model_available"
          (Some [("request", request_value request)]);;;
        end_span span (VStr "fallback_no_model");;;
        raise exc);
     (Exception, fun exc =>
        emit_trace "router.error" (Some [("error", VStr (exn_msg exc))]);;;
        end_span span (VStr "error");;;
        raise (mkExn RouterError (exn_msg exc)))].

End WithRepr.
End Router.

(* ===================================================================== *)
(** ** orchestrator/fusion *)
(* ===================================================================== *)

Module CriticFusion.

Definition RIGHTS_CRITICS : gset string := {["rights"]}.

Definition DEFAULT_WEIGHTS : gmap string Qc :=
  list_to_map
    [("rights", 0);
     ("risk", Q2Qc (25 # 100));
     ("fairness", Q2Qc (25 # 100));
     ("truth", Q2Qc (25 # 100));
     ("pragmatics", Q2Qc (25 # 100))].

(** [__init__]: [self.weights = weights or self.DEFAULT_WEIGHTS]. *)
Definition init (weights : option (gmap string Qc)) : gmap string Qc :=
  match weights with
  | None => DEFAULT_WEIGHTS
  | Some w =>
      match map_to_list w with
      | [] => DEFAULT_WEIGHTS
      | _ :: _ => w
      end
  end.

Section WithRepr.

Variable py_repr : Value -> string.
Local Abbreviation start_span := (telemetry.start_span).
Local Abbreviation end_span := (telemetry.end_span py_repr).

Definition fuse (weights : gmap string Qc) (critics : gmap string Judgment)
  : M PyDict :=
  span <- start_span "fusion.critics" None;;
  let lex_violations :=
    map fst
      (List.filter
         (fun '(name, out) =>
            bool_decide (name ∈ RIGHTS_CRITICS) && default false (violation out))
         (map_to_list critics)) in
  match lex_violations with
  | _ :: _ =>
      let result :=
        [("aggregate_score", VFloat 0);
         ("violations", VList (map VStr lex_violations));
         ("lex_block", VBool true);
         ("details", VDict [("critic_outputs", critics_value critics)])] in
      end_span span (VDict result);;;
      ret result
  | [] =>
      let total :=
        fold_left
          (fun total '(name, out) =>
             let w := default 0 (weights !! name) in
             let score := float (default (NFloat 0) (score out)) in
             total + w * score)
          (map_to_list critics) 0 in
      let result :=
        [("aggregate_score", VFloat total);
         ("violations", VList []);
         ("lex_block", VBool false);
         ("details", VDict [("critic_outputs", critics_value critics)])] in
      end_span span (VDict result);;;
      ret result
  end.

End WithRepr.
End CriticFusion.

Module UncertaintyEngine.

(** [statistics.pvariance] on at least one data point, computed as CPython
    does over exact fractions: [(n * sum(x*x) - sum(x)**2) / n / n]. *)
Definition pvariance (data : list Qc) : Qc :=
  let n := Qc_of_Z (Z.of_nat (length data)) in
  let sx := fold_left Qcplus data 0 in
  let sxx := fold_left (fun acc x => acc + x * x) data 0 in
  (n * sxx - sx * sx) / n / n.

(** [__init__(self, threshold: float = 0.35)]. *)
Definition init (threshold : option Qc) : Qc := default (Q2Qc (35 # 100)) threshold.

(** [min(a, b)]: the first argument unless the second is smaller. *)
Definition min2 (a b : Qc) : Qc := if bool_decide (b < a) then b else a.

(** [min(xs)]; [None] stands for the [ValueError] on an empty sequence. *)
Definition py_min (xs : list Qc) : option Qc :=
  match xs with
  | [] => None
  | x :: rest => Some (fold_left min2 rest x)
  end.

Definition compute (threshold : Qc) (critics : gmap string Judgment) : M PyDict :=
  let values := map snd (map_to_list critics) in
  let scores := map (fun c => float (default (NFloat 0) (score c))) values in
  let confidences := map (fun c => float (default (NFloat 0) (confidence c))) values in
  let dispersion :=
    if bool_decide (1 < length scores)%nat then pvariance scores else 0 in
  match py_min confidences with
  | None => raise (mkExn ValueError "min() arg is an empty sequence")
  | Some min_confidence =>
      let low_conf := bool_decide (min_confidence < Q2Qc (3 # 10)) in
      let raw_uncertainty :=
        min2 1 (dispersion * Q2Qc (25 # 10)
                + (if low_conf then Q2Qc (3 # 10) else 0)) in
      let escalate := bool_decide (threshold <= raw_uncertainty) in
      telemetry.emit_metric "uncertainty.score" raw_uncertainty None;;;
      ret [("uncertainty", VFloat raw_uncertainty);
           ("escalate", VBool escalate);
           ("dispersion", VFloat dispersion);
           ("min_confidence", VFloat min_confidence)]
  end.

End UncertaintyEngine.

(** The same engine over IEEE 754 doubles (CPython 3.11 and later): a
    double is the rational it stands for, and every operation is the exact
    one followed by rounding to the nearest double, ties to even.  Infinities
    and NaN are not modelled; no operation of [compute] leaves the finite
    doubles when the scores and confidences are in the documented range
    [[0, 1]]. *)
Module Double.

(** [floor (log2 (n / d))] for positive [n] and [d]. *)
Definition ilog2 (n d : Z) : Z :=
  let e := (Z.log2 n - Z.log2 d)%Z in
  if (0 <=? e)%Z
  then (if (d * 2 ^ e <=? n)%Z then e else e - 1)%Z
  else (if (d <=? n * 2 ^ (- e))%Z then e else e - 1)%Z.

(** The integer nearest to [n / d], ties to even, for [0 <= n] and
    [0 < d]. *)
Definition round_half_even (n d : Z) : Z :=
  let q := (n / d)%Z in
  match (2 * (n mod d) ?= d)%Z with
  | Lt => q
  | Gt => (q + 1)%Z
  | Eq => if Z.even q then q else (q + 1)%Z
  end.

(** The double nearest to [n / d] for positive [n] and [d]: 53 bits of
    precision, the least exponent that of the subnormal numbers. *)
Definition round_pos (n d : Z) : Qc :=
  let ex := Z.max (ilog2 n d - 52) (-1074) in
  if (0 <=? ex)%Z
  then Qc_of_Z (round_half_even n (d * 2 ^ ex) * 2 ^ ex)
  else Q2Qc (round_half_even (n * 2 ^ (- ex)) d # Z.to_pos (2 ^ (- ex))).

Definition round64 (q : Qc) : Qc :=
  match Qnum q with
  | Z0 => 0
  | Zpos n => round_pos (Zpos n) (Zpos (Qden q))
  | Zneg n => - round_pos (Zpos n) (Zpos (Qden q))
  end.

(** [a + b] and [a * b] on doubles. *)
Definition fadd (a b : Qc) : Qc := round64 (a + b).
Definition fmul (a b : Qc) : Qc := round64 (a * b).

(** [float(x)]: an [int] is rounded, a [float] is a double already. *)
Definition float (x : Num) : Qc :=
  match x with
  | NInt n => round64 (Qc_of_Z n)
  | NFloat q => q
  end.

(** [statistics.pvariance]: the exact value over fractions, converted to
    [float] at the end. *)
Definition pvariance (data : list Qc) : Qc := round64 (UncertaintyEngine.pvariance data).

(** [__init__(self, threshold: float = 0.35)]. *)
Definition init (threshold : option Qc) : Qc :=
  default (round64 (Q2Qc (35 # 100))) threshold.

Definition compute (threshold : Qc) (critics : gmap string Judgment) : M PyDict :=
  let values := map snd (map_to_list critics) in
  let scores := map (fun c => float (default (NFloat 0) (score c))) values in
  let confidences := map (fun c => float (default (NFloat 0) (confidence c))) values in
  let dispersion :=
    if bool_decide (1 < length scores)%nat then pvariance scores else 0 in
  match UncertaintyEngine.py_min confidences with
  | None => raise (mkExn ValueError "min() arg is an empty sequence")
  | Some min_confidence =>
      let low_conf := bool_decide (min_confidence < round64 (Q2Qc (3 # 10))) in
      let raw_uncertainty :=
        UncertaintyEngine.min2 1
          (fadd (fmul dispersion (Q2Qc (25 # 10)))
                (if low_conf then round64 (Q2Qc (3 # 10)) else 0)) in
      let escalate := bool_decide (threshold <= raw_uncertainty) in
      telemetry.emit_metric "uncertainty.score" raw_uncertainty None;;;
      ret [("uncertainty", VFloat raw_uncertainty);
           ("escalate", VBool escalate);
           ("dispersion", VFloat dispersion);
           ("min_confidence", VFloat min_confidence)]
  end.

End Double.

Module PrecedentEngine.
Section WithRepr.

Variable py_repr : Value -> string.
Local Abbreviation start_span := (telemetry.start_span).
Local Abbreviation end_span := (telemetry.end_span py_repr).
Local Abbreviation emit_trace := (telemetry.emit_trace).

Definition fetch_relevant (storage : Storage) (vector : Value) (top_k : Z)
  : M (list Value) :=
  span <- start_span "precedent.fetch" (Some [("top_k", VInt top_k)]);;
  try_except
    (results <- await (storage vector top_k);;
     end_span span (VDict [("count", VInt (Z.of_nat (length results)))]);;;
     ret results)
    [(Exception, fun exc =>
        emit_trace "precedent.error" (Some [("error", VStr (exn_msg exc))]);;;
        end_span span (VStr "error");;;
        ret [])].

End WithRepr.
End PrecedentEngine.

Module ConsensusFusion.
Section WithRepr.

Variable py_repr : Value -> string.
Local Abbreviation start_span := (telemetry.start_span).
Local Abbreviation end_span := (telemetry.end_span py_repr).
Local Abbreviation emit_trace := (telemetry.emit_trace).
Local Abbreviation getitem := (telemetry.getitem py_repr).

Definition decide (self : ConsensusFusion) (critics : gmap string Judgment)
    (vector : Value) : M PyDict :=
  span <- start_span "fusion.consensus" None;;
  critic_out <- CriticFusion.fuse py_repr (critic_fusion self) critics;;
  lex_block <- getitem critic_out "lex_block";;
  if truthy lex_block then
    let decision :=
      [("action", VStr "reject");
       ("confidence", VFloat 1);
       ("uncertainty", VFloat 0);
       ("lex_block", VBool true);
       ("rationale", VStr "Rights-critical violation detected.");
       ("precedent", VList [])] in
    end_span span (VDict decision);;;
    ret decision
  else
    precedents <-
      match precedent self, vector with
      | None, _ => ret []
      | Some _, VNone => ret []
      | Some storage, _ => PrecedentEngine.fetch_relevant py_repr storage vector 5
      end;;
    unc <- UncertaintyEngine.compute (uncertainty self) critics;;
    unc_escalate <- getitem unc "escalate";;
    aggregate_score <- getitem critic_out "aggregate_score";;
    unc_uncertainty <- getitem unc "uncertainty";;
    let decision :=
      [("action", VStr (if truthy unc_escalate then "escalate" else "proceed"));
       ("confidence", aggregate_score);
       ("uncertainty", unc_uncertainty);
       ("lex_block", VBool false);
       ("rationale",
         VStr "Decision derived from Eleanor's multi-critic fusion logic.");
       ("precedent", VList precedents)] in
    (if truthy unc_escalate
     then emit_trace "fusion.escalate" (Some [("score", unc_uncertainty)])
     else ret tt);;;
    end_span span (VDict decision);;;
    ret decision.

End WithRepr.
End ConsensusFusion.

(* ===================================================================== *)
(** ** orchestrator/hybrid_core *)
(* ===================================================================== *)

Module HybridCore.

(** [_backend_runner]: the placeholder that a backend driver replaces. *)
Definition _backend_runner : Runner :=
  fun _ _ _ =>
    mkAttempt 0
      (inl (mkExn NotImplementedError "Attach your backend LLM driver here.")).

(** What the fan-out records for a critic that raised [exc]. *)
Definition critic_error (exc : Exn) : Judgment :=
  mkJudgment (Some (NInt 0)) (Some (NInt 0)) (Some false)
             (Some ("Critic error: " +:+ exn_msg exc)).

(** The loop of [_evaluate_critics] over the tasks, which were all created
    at [start]. *)
Fixpoint await_tasks (start : Qc) (tasks : list (string * Attempt Judgment))
    (results : gmap string Judgment) : M (gmap string Judgment) :=
  match tasks with
  | [] => ret results
  | (name, task) :: rest =>
      out <- try_except (await_from start task)
               [(Exception, fun exc => ret (critic_error exc))];;
      await_tasks start rest (<[name := out]> results)
  end.

Definition _evaluate_critics (self : HybridCore) (request : Request)
    (backend_response : PyDict) : M (gmap string Judgment) :=
  start <- time_time;;
  let tasks :=
    map (fun '(name, critic) => (name, critic request backend_response))
        (map_to_list (critics self)) in
  await_tasks start tasks ∅.

Section WithRepr.

Variable py_repr : Value -> string.
Local Abbreviation start_span := (telemetry.start_span).
Local Abbreviation end_span := (telemetry.end_span py_repr).
Local Abbreviation emit_trace := (telemetry.emit_trace).
Local Abbreviation getitem := (telemetry.getitem py_repr).

Definition _apply_mode (self : HybridCore) (fusion_out : PyDict) : M PyDict :=
  if truthy (default (VBool false) (dict_get "lex_block" fusion_out))
     && enforce_lex (mode self)
  then ret [("action", VStr "reject");
            ("reason", VStr "rights_violation");
            ("fusion", VDict fusion_out)]
  else if advisory_only (mode self)
  then ret [("action", VStr "advice");
            ("fusion", VDict fusion_out)]
  else
    action <- getitem fusion_out "action";;
    if py_eq action (VStr "escalate") && auto_escalate (mode self)
    then raise (mkExn EscalationRequired "Uncertainty threshold exceeded.")
    else ret fusion_out.

Definition deliberate (self : HybridCore) (request : Request) : M PyDict :=
  span <- start_span "hybrid.deliberate" None;;
  try_except
    (backend_result <- Router.execute py_repr (router self) request
                         (backend_runner self) (Some (map_to_list request));;
     critics_out <- _evaluate_critics self request backend_result;;
     let vector := default VNone (dict_get "embedding" backend_result) in
     fusion_out <- ConsensusFusion.decide py_repr (fusion self) critics_out vector;;
     decision <- _apply_mode self fusion_out;;
     end_span span (VDict decision);;;
     ret decision)
    [(EscalationRequired, fun exc =>
        emit_trace "hybrid.escalation_forced"
          (Some [("request", request_value request)]);;;
        end_span span (VStr "escalation_required");;;
        raise exc);
     (Exception, fun exc =>
        emit_trace "hybrid.error" (Some [("error", VStr (exn_msg exc))]);;;
        end_span span (VStr "error");;;
        raise (mkExn HybridCoreError (exn_msg exc)))].

End WithRepr.
End HybridCore.

(* ===================================================================== *)
(** ** orchestrator/runtime *)
(* ===================================================================== *)

Module RuntimeState.

Definition update (f : RuntimeState -> RuntimeState) : M unit :=
  modify (fun w => set_state (f (w_state w)) w).

Definition new_request_id : M string := uuid4.

Definition log_request (req_id : string) (payload : Value) : M unit :=
  timestamp <- time_time;;
  update (fun s =>
    mkRuntimeState (boot_time s) (active_tasks s) (completed_tasks s)
      (failed_tasks s) (last_healthcheck s)
      (<[req_id := [("payload", payload); ("timestamp", VFloat timestamp)]]>
         (request_log s))).

Definition increment_active (s : RuntimeState) : RuntimeState :=
  mkRuntimeState (boot_time s) (active_tasks s + 1)%Z (completed_tasks s)
    (failed_tasks s) (last_healthcheck s) (request_log s).

Definition decrement_active (s : RuntimeState) : RuntimeState :=
  mkRuntimeState (boot_time s) (Z.max 0 (active_tasks s - 1)) (completed_tasks s)
    (failed_tasks s) (last_healthcheck s) (request_log s).

Definition complete (s : RuntimeState) : RuntimeState :=
  mkRuntimeState (boot_time s) (active_tasks s) (completed_tasks s + 1)%Z
    (failed_tasks s) (last_healthcheck s) (request_log s).

Definition fail (s : RuntimeState) : RuntimeState :=
  mkRuntimeState (boot_time s) (active_tasks s) (completed_tasks s)
    (failed_tasks s + 1)%Z (last_healthcheck s) (request_log s).

End RuntimeState.

Module EleanorRuntime.

(** [__init__]: [asyncio.Semaphore(n)] raises [ValueError], here [inl],
    for a negative [n]. *)
Definition init (hybrid : HybridCore) (config : RuntimeConfig) : Exn + EleanorRuntime :=
  if bool_decide (max_concurrent_tasks config < 0)%Z
  then inl (mkExn ValueError "Semaphore initial value must be >= 0")
  else inr (mkRuntime hybrid config (max_concurrent_tasks config)).

Section WithRepr.

Variable py_repr : Value -> string.
Local Abbreviation start_span := (telemetry.start_span).
Local Abbreviation end_span := (telemetry.end_span py_repr).
Local Abbreviation emit_trace := (telemetry.emit_trace).

Definition decide (self : EleanorRuntime) (request : Request) : Blocking PyDict :=
  then_block
    (req_id <- RuntimeState.new_request_id;;
     RuntimeState.log_request req_id (request_value request);;;
     EventBus.emit "runtime.request.received"
       (Some [("id", VStr req_id); ("request", request_value request)]) None;;;
     HookManager.fire "before_runtime_step"
       [("id", VStr req_id); ("request", request_value request)];;;
     span <- start_span "runtime.decide" (Some [("req_id", VStr req_id)]);;
     ret (req_id, span))
    (fun '(req_id, span) =>
       async_with_semaphore (semaphore self)
         (try_finally
            (try_except
               (RuntimeState.update RuntimeState.increment_active;;;
                result <- wait_for (decision_timeout (config self))
                            (HybridCore.deliberate py_repr (hybrid self) request);;
                RuntimeState.update RuntimeState.complete;;;
                HookManager.fire "after_runtime_step"
                  [("id", VStr req_id); ("result", VDict result)];;;
                EventBus.emit "runtime.request.completed"
                  (Some [("id", VStr req_id); ("result", VDict result)]) None;;;
                end_span span (VDict result);;;
                ret result)
               [(EscalationRequired, fun exc =>
                   RuntimeState.update RuntimeState.fail;;;
                   emit_trace "runtime.escalation" (Some [("id", VStr req_id)]);;;
                   EventBus.emit "runtime.request.escalation"
                     (Some [("id", VStr req_id)]) None;;;
                   end_span span (VStr "escalation_required");;;
                   ret [("action", VStr "escalate");
                        ("reason", VStr (exn_msg exc));
                        ("id", VStr req_id)]);
                (Exception, fun exc =>
                   RuntimeState.update RuntimeState.fail;;;
                   emit_trace "runtime.error"
                     (Some [("id", VStr req_id); ("error", VStr (exn_msg exc))]);;;
                   EventBus.emit "runtime.request.error"
                     (Some [("id", VStr req_id); ("error", VStr (exn_msg exc))]) None;;;
                   end_span span (VStr "error");;;
                   ret [("action", VStr "error");
                        ("error", VStr (exn_msg exc));
                        ("id", VStr req_id)])])
            (fun w => set_state (RuntimeState.decrement_active (w_state w)) w))).

End WithRepr.
End EleanorRuntime.

Module runtime_bootstrap.
Section WithLower.

Variable py_lower : string -> string.

(** [bootstrap_runtime]; [inl] stands for the [ValueError] of
    [HybridMode.get] or of [EleanorRuntime.__init__].  The core it builds
    runs the placeholder [_backend_runner]. *)
Definition bootstrap_runtime (router : RouterConfig) (critics : gmap string Critic)
    (storage_backend : option Storage) (config : option RuntimeConfig)
  : Exn + EleanorRuntime :=
  let config := default default_config config in
  let critic_fusion := CriticFusion.init None in
  let uncertainty :=
    UncertaintyEngine.init (Some (decision_timeout config / Q2Qc 60)) in
  let precedent := storage_backend in
  let fusion := mkConsensus critic_fusion uncertainty precedent in
  match HybridMode.get py_lower (rc_mode config) with
  | inl exc => inl exc
  | inr mode =>
      EleanorRuntime.init
        (mkHybridCore router critics fusion mode HybridCore._backend_runner)
        config
  end.

End WithLower.
End runtime_bootstrap.

(* ===================================================================== *)
(** ** Vocabulary of the specification *)
(* ===================================================================== *)

(** The event that [emit] constructs in state [w]. *)
Definition emitted_event (event_name : string) (payload metadata : option PyDict)
    (w : World) : Event :=
  mkEvent (w_uuids w (w_drawn w)) event_name (w_now w)
          (or_empty payload) (or_empty metadata).

(** The listeners registered for an event name. *)
Definition listeners_of (w : World) (event_name : string) : list Listener :=
  default [] (w_listeners w !! event_name).

(** The state after [event] has been emitted in state [w]. *)
Definition after_emit (event : Event) (w : World) : World :=
  mkWorld (w_now w) (w_uuids w) (S (w_drawn w)) (w_listeners w) (w_hooks w)
          (w_emitted w ++ [event])
          (w_delivered w ++ map (fun l => (l, event)) (listeners_of w (ev_name event)))
          (w_fired w) (w_calls w) (w_state w).

(** The state after the hooks of [hook_name] were fired on [context]. *)
Definition after_fire (hook_name : string) (context : PyDict) (w : World) : World :=
  set_fired (w_fired w ++ map (fun fn => (fn, context))
                              (default [] (w_hooks w !! hook_name))) w.

(** [emit_trace message ...] shows as a [telemetry.trace] event that
    carries [message]. *)
Definition is_trace (message : string) (e : Event) : bool :=
  bool_decide (ev_name e = "telemetry.trace") &&
  match dict_get "message" (ev_payload e) with
  | Some (VStr m) => bool_decide (m = message)
  | _ => false
  end.

(** How many times [message] was traced so far. *)
Definition trace_count (message : string) (w : World) : nat :=
  length (List.filter (is_trace message) (w_emitted w)).

(** Weakest precondition of a coroutine started in [w] under [dl]. *)
Definition wp {A} (m : M A) (dl : Deadline) (w : World)
    (Q : Outcome A -> World -> Prop) : Prop :=
  Q (m dl w).1 (m dl w).2.

(** [w'] differs from [w] by telemetry alone: events were emitted and
    delivered and identifiers drawn, nothing else. *)
Record quiet (w w' : World) : Prop := mkQuiet {
  quiet_now : w_now w' = w_now w;
  quiet_uuids : w_uuids w' = w_uuids w;
  quiet_listeners : w_listeners w' = w_listeners w;
  quiet_hooks : w_hooks w' = w_hooks w;
  quiet_fired : w_fired w' = w_fired w;
  quiet_calls : w_calls w' = w_calls w;
  quiet_state : w_state w' = w_state w
}.

(** The events that the telemetry functions emit, and the states they
    leave. *)
Definition span_start_event (span_id name : string) (context : option PyDict)
    (w : World) : Event :=
  emitted_event "telemetry.span.start"
    (Some [("span_id", VStr span_id);
           ("name", VStr name);
           ("context", VDict (or_empty context));
           ("timestamp", VFloat (w_now w))]) None w.

Definition after_start_span (name : string) (context : option PyDict) (w : World)
  : World :=
  let w1 := set_drawn (S (w_drawn w)) w in
  after_emit (span_start_event (w_uuids w (w_drawn w)) name context w1) w1.

Definition span_end_event (py_repr : Value -> string) (span : Span) (result : Value)
    (w : World) : Event :=
  emitted_event "telemetry.span.end"
    (Some [("span_id", VStr (span_id span));
           ("name", VStr (span_name span));
           ("duration", VFloat (w_now w - span_start span));
           ("result_summary",
             if truthy result
             then VStr (String.substring 0 500 (telemetry.py_str py_repr result))
             else VNone)]) None w.

Definition metric_event (name : string) (value : Qc) (tags : option PyDict)
    (w : World) : Event :=
  emitted_event "telemetry.metric"
    (Some [("name", VStr name); ("value", VFloat value);
           ("tags", VDict (or_empty tags))]) None w.

Definition trace_event (message : string) (details : option PyDict) (w : World)
  : Event :=
  emitted_event "telemetry.trace"
    (Some [("message", VStr message); ("details", VDict (or_empty details))]) None w.

(** The rights critics that report a violation, in the order of the map. *)
Definition lex_violations (critics : gmap string Judgment) : list string :=
  map fst
    (List.filter
       (fun '(name, out) =>
          bool_decide (name ∈ CriticFusion.RIGHTS_CRITICS) && default false (violation out))
       (map_to_list critics)).

(** The weighted sum of the scores. *)
Definition weighted_total (weights : gmap string Qc) (critics : gmap string Judgment)
  : Qc :=
  fold_left
    (fun total '(name, out) =>
       let w := default 0 (weights !! name) in
       let score := float (default (NFloat 0) (score out)) in
       total + w * score)
    (map_to_list critics) 0.

(** What [fuse] returns on a lexicographic block, and otherwise. *)
Definition lex_block_result (critics : gmap string Judgment) : PyDict :=
  [("aggregate_score", VFloat 0);
   ("violations", VList (map VStr (lex_violations critics)));
   ("lex_block", VBool true);
   ("details", VDict [("critic_outputs", critics_value critics)])].

Definition weighted_result (weights : gmap string Qc) (critics : gmap string Judgment)
  : PyDict :=
  [("aggregate_score", VFloat (weighted_total weights critics));
   ("violations", VList []);
   ("lex_block", VBool false);
   ("details", VDict [("critic_outputs", critics_value critics)])].

(** The decision of [ConsensusFusion.decide] on a lexicographic block. *)
Definition reject_decision : PyDict :=
  [("action", VStr "reject");
   ("confidence", VFloat 1);
   ("uncertainty", VFloat 0);
   ("lex_block", VBool true);
   ("rationale", VStr "Rights-critical violation detected.");
   ("precedent", VList [])].

(** The sequences that [compute] collects from the judgments. *)
Definition scores_of (critics : gmap string Judgment) : list Qc :=
  map (fun c => float (default (NFloat 0) (score c))) (map snd (map_to_list critics)).

Definition confidences_of (critics : gmap string Judgment) : list Qc :=
  map (fun c => float (default (NFloat 0) (confidence c))) (map snd (map_to_list critics)).

(** The sum and the mean of a sequence. *)
Definition sumQ (xs : list Qc) : Qc := fold_right Qcplus 0 xs.

Definition mean (xs : list Qc) : Qc := sumQ xs / Qc_of_Z (Z.of_nat (length xs)).

(** Population variance as the specification means it: the mean of the
    squared deviations from the mean. *)
Definition population_variance (xs : list Qc) : Qc :=
  sumQ (map (fun x => (x - mean xs) * (x - mean xs)) xs)
  / Qc_of_Z (Z.of_nat (length xs)).

(** [m] is the least element of [xs]. *)
Definition is_minimum (m : Qc) (xs : list Qc) : Prop :=
  m ∈ xs /\ forall x, x ∈ xs -> m <= x.

(** [u] is the smaller of [a] and [b]. *)
Definition is_min_of (u a b : Qc) : Prop :=
  u <= a /\ u <= b /\ (u = a \/ u = b).

(** The uncertainty of the specification for a dispersion and a least
    confidence, as the code computes it. *)
Definition raw_uncertainty (dispersion min_confidence : Qc) : Qc :=
  UncertaintyEngine.min2 1
    (dispersion * Q2Qc (25 # 10)
     + (if bool_decide (min_confidence < Q2Qc (3 # 10)) then Q2Qc (3 # 10) else 0)).

Definition dispersion_of (critics : gmap string Judgment) : Qc :=
  if bool_decide (1 < length (scores_of critics))%nat
  then UncertaintyEngine.pvariance (scores_of critics)
  else 0.

(** What [compute] returns when the least confidence is [min_confidence]. *)
Definition uncertainty_result (threshold : Qc) (critics : gmap string Judgment)
    (min_confidence : Qc) : PyDict :=
  let u := raw_uncertainty (dispersion_of critics) min_confidence in
  [("uncertainty", VFloat u);
   ("escalate", VBool (bool_decide (threshold <= u)));
   ("dispersion", VFloat (dispersion_of critics));
   ("min_confidence", VFloat min_confidence)].

(** The precedent step of [ConsensusFusion.decide]. *)
Definition precedents_step (py_repr : Value -> string) (self : ConsensusFusion)
    (vector : Value) : M (list Value) :=
  match precedent self, vector with
  | None, _ => ret []
  | Some _, VNone => ret []
  | Some storage, _ => PrecedentEngine.fetch_relevant py_repr storage vector 5
  end.

(** The decision of [ConsensusFusion.decide] when nothing blocks, for a
    least confidence [m] and the retrieved [precedents]. *)
Definition fused_decision (self : ConsensusFusion) (critics : gmap string Judgment)
    (m : Qc) (precedents : list Value) : PyDict :=
  let u := raw_uncertainty (dispersion_of critics) m in
  [("action", VStr (if bool_decide (uncertainty self <= u) then "escalate" else "proceed"));
   ("confidence", VFloat (weighted_total (critic_fusion self) critics));
   ("uncertainty", VFloat u);
   ("lex_block", VBool false);
   ("rationale", VStr "Decision derived from Eleanor's multi-critic fusion logic.");
   ("precedent", VList precedents)].

(** What [ConsensusFusion.decide] can end with. *)
Definition decide_post (self : ConsensusFusion) (critics : gmap string Judgment)
    (vector : Value) (dl : Deadline) (r : Outcome PyDict) : Prop :=
  match r with
  | Ok decision =>
      (lex_violations critics <> [] /\ decision = reject_decision) \/
      (lex_violations critics = [] /\
       exists m precedents,
         UncertaintyEngine.py_min (confidences_of critics) = Some m /\
         decision = fused_decision self critics m precedents)
  | Raise e =>
      lex_violations critics = [] /\ critics = ∅ /\
      e = mkExn ValueError "min() arg is an empty sequence"
  | Cancelled => dl <> None /\ precedent self <> None /\ vector <> VNone
  end.

(** Scenario S2 of the specification: the five default critics agree. *)
Definition S2_judgment : Judgment :=
  mkJudgment (Some (NFloat (Q2Qc (9 # 10)))) (Some (NFloat (Q2Qc (9 # 10))))
             (Some false) None.

Definition S2_critics : gmap string Judgment :=
  list_to_map
    [("rights", S2_judgment); ("risk", S2_judgment); ("fairness", S2_judgment);
     ("truth", S2_judgment); ("pragmatics", S2_judgment)].

(** The fusion stack with its defaults. *)
Definition default_fusion (storage : option Storage) : ConsensusFusion :=
  mkConsensus (CriticFusion.init None) (UncertaintyEngine.init None) storage.

(** A process that has just started: no listener, no hook, nothing emitted. *)
Definition boot : World :=
  mkWorld 0 (fun n => "uuid-" +:+ pretty n) 0 ∅ HookManager.init [] [] [] []
          (mkRuntimeState 0 0 0 0 0 ∅).

(** A stand-in for [repr] on the sample inputs. *)
Definition sample_repr (v : Value) : string :=
  match v with
  | VNone => "None"
  | VBool true => "True"
  | VBool false => "False"
  | VInt n => pretty n
  | VStr s => "'" +:+ s +:+ "'"
  | _ => "<object>"
  end.

(** Scenario S1 of the specification: a single rights violation in
    balanced mode. *)
Definition S1_rights : Judgment :=
  mkJudgment (Some (NFloat 0)) (Some (NFloat (Q2Qc (9 # 10)))) (Some true) None.

Definition S1_other : Judgment :=
  mkJudgment (Some (NFloat (Q2Qc (8 # 10)))) (Some (NFloat (Q2Qc (9 # 10))))
             (Some false) None.

Definition S1_critics : gmap string Judgment :=
  list_to_map
    [("rights", S1_rights); ("risk", S1_other); ("fairness", S1_other);
     ("truth", S1_other); ("pragmatics", S1_other)].

(** A router with one enabled backend and the defaults of
    [ModelBackendConfig]. *)
Definition sample_backend : ModelBackendConfig :=
  mkBackend "local" "http://localhost:11434" (Q2Qc 10) 1 true.

Definition sample_router : RouterConfig :=
  mkRouterConfig "local" {["local" := sample_backend]} [].

(** A hybrid core in balanced mode with the placeholder backend runner and
    critics that answer at once with [judgments]. *)
Definition sample_core (judgments : gmap string Judgment) : HybridCore :=
  mkHybridCore sample_router
    ((fun j => (fun _ _ => mkAttempt 0 (inr j)) : Critic) <$> judgments)
    (default_fusion None) HybridMode.BALANCED HybridCore._backend_runner.

(** The condition map is a subset of the request: each of its keys is in
    the request with an equal value. *)
Definition cond_subset (cond : gmap string Value) (request : Request) : Prop :=
  forall key value,
    cond !! key = Some value ->
    exists v, request !! key = Some v /\ py_eq v value = true.

(** A rule applies to a request when its condition map is not empty and is
    a subset of the request. *)
Definition rule_applies (rule : Rule) (request : Request) : Prop :=
  exists cond, rule_if rule = Some cond /\ cond <> ∅ /\ cond_subset cond request.

(** No condition of the rule expects [None]. *)
Definition expects_values (rule : Rule) : Prop :=
  forall cond key value,
    rule_if rule = Some cond -> cond !! key = Some value -> value <> VNone.

(** The model a rule selects: its [use_model] when that is a non-empty
    name, the default otherwise. *)
Definition selected_model (config : RouterConfig) (rule : Rule) : string :=
  match rule_use_model rule with
  | Some model => if decide (model = "") then default_model config else model
  | None => default_model config
  end.

(** Sample rules: one that names no model, one that expects [None]. *)
Definition rule_without_model : Rule :=
  mkRule (Some {["task" := VStr "summarize"]}) (Some "").

Definition rule_expecting_none : Rule :=
  mkRule (Some {["lang" := VNone]}) (Some "special").

(** What the fan-out records for one critic task. *)
Definition recorded (task : Attempt Judgment) : Judgment :=
  match att_result task with
  | inl exc => HybridCore.critic_error exc
  | inr out => out
  end.

(** The results map after the tasks were awaited in order. *)
Definition record_all (tasks : list (string * Attempt Judgment))
    (results : gmap string Judgment) : gmap string Judgment :=
  fold_left (fun acc '(name, task) => <[name := recorded task]> acc) tasks results.

(** The same hybrid core with the critic [name] taken out. *)
Definition without_critic (name : string) (self : HybridCore) : HybridCore :=
  mkHybridCore (router self) (delete name (critics self)) (fusion self) (mode self)
               (backend_runner self).

(** What one attempt of [_run_backend] ends with under a positive timeout:
    the runner's result when it comes before the timeout, [TimeoutError]
    otherwise. *)
Definition attempt_result (cfg : ModelBackendConfig) (att : Attempt PyDict)
  : Exn + PyDict :=
  if bool_decide (att_secs att < mb_timeout cfg) then att_result att
  else inl (mkExn TimeoutError "").

(** The instant at which an attempt that started at [now] ends. *)
Definition attempt_end (cfg : ModelBackendConfig) (att : Attempt PyDict) (now : Qc) : Qc :=
  if bool_decide (att_secs att < mb_timeout cfg) then later now (now + att_secs att)
  else now + mb_timeout cfg.

(** The state after one attempt. *)
Definition after_attempt (cfg : ModelBackendConfig) (request : Request)
    (att : Attempt PyDict) (w : World) : World :=
  set_calls
    (w_calls w ++ [mkRunnerCall (mb_name cfg) request (w_now w)
                                (attempt_end cfg att (w_now w))])
    (set_now (attempt_end cfg att (w_now w)) w).

(** A runner invocation made for [cfg] and [request] within the timeout. *)
Definition call_ok (cfg : ModelBackendConfig) (request : Request) (c : RunnerCall) : Prop :=
  call_model c = mb_name cfg /\ call_request c = request /\
  call_end c - call_start c <= mb_timeout cfg.

(** The text of the [RouterError] that [_run_backend] raises. *)
Definition exhausted_message (cfg : ModelBackendConfig) (last_exc : option Exn) : string :=
  "Backend '" +:+ mb_name cfg +:+ "' failed after " +:+
  pretty (mb_max_retries cfg) +:+ " retries: " +:+
  match last_exc with
  | Some exc => exn_msg exc
  | None => "None"
  end.

(** What a run of the retry loop leaves behind: [calls] runner invocations,
    [retries] traces of ["router.backend_retry"], no other trace and no
    change of the runtime counters. *)
Definition retry_effects (cfg : ModelBackendConfig) (request : Request)
    (calls retries : nat) (w w' : World) : Prop :=
  (exists new, w_calls w' = w_calls w ++ new /\ length new = calls /\
               Forall (call_ok cfg request) new) /\
  trace_count "router.backend_retry" w' = (trace_count "router.backend_retry" w + retries)%nat /\
  (forall message, message <> "router.backend_retry" ->
                   trace_count message w' = trace_count message w) /\
  w_state w' = w_state w.

(** The traces a run of the router left behind, by message. *)
Definition router_traces (retries errors no_model : nat) (w w' : World) : Prop :=
  trace_count "router.backend_retry" w' = (trace_count "router.backend_retry" w + retries)%nat /\
  trace_count "router.error" w' = (trace_count "router.error" w + errors)%nat /\
  trace_count "router.no_model_available" w'
  = (trace_count "router.no_model_available" w + no_model)%nat.

(** The runner invocations a run of the router made. *)
Definition router_calls (cfg : ModelBackendConfig) (request : Request) (calls : nat)
    (w w' : World) : Prop :=
  exists new, w_calls w' = w_calls w ++ new /\ length new = calls /\
              Forall (call_ok cfg request) new.

(** Scenario S5 of the specification: a backend with two retries whose
    runner fails twice and then answers. *)
Definition S5_backend : ModelBackendConfig :=
  mkBackend "local" "http://localhost:11434" (Q2Qc 10) 2 true.

Definition S5_router : RouterConfig :=
  mkRouterConfig "local" {["local" := S5_backend]} [].

Definition S5_response : PyDict := [("message", VDict [("content", VStr "ok")])].

Definition S5_runner : Runner :=
  fun _ _ invoked =>
    if (invoked <? 2)%nat
    then mkAttempt 0 (inl (mkExn Exception "connection reset"))
    else mkAttempt 1 (inr S5_response).

(** A backend whose retry count is negative, one that is disabled, and a
    router whose default model has no backend. *)
Definition negative_backend : ModelBackendConfig :=
  mkBackend "local" "http://localhost:11434" (Q2Qc 10) (-1) true.

Definition disabled_backend : ModelBackendConfig :=
  mkBackend "local" "http://localhost:11434" (Q2Qc 10) 1 false.

Definition disabled_router : RouterConfig :=
  mkRouterConfig "local" {["local" := disabled_backend]} [].

Definition dangling_router : RouterConfig :=
  mkRouterConfig "remote" {["local" := sample_backend]} [].

(** Sample listeners and hooks: one that completes and one that raises. *)
Definition quiet_listener : Listener := fun _ => None.

Definition failing_listener : Listener :=
  fun _ => Some (mkExn Exception "listener failed").

Definition quiet_hook : Hook := fun _ => None.

Definition failing_hook : Hook := fun _ => Some (mkExn Exception "hook failed").

(** What one critic adds to the aggregate score. *)
Definition contribution (weights : gmap string Qc) (item : string * Judgment) : Qc :=
  default 0 (weights !! item.1) * float (default (NFloat 0) (score item.2)).

(** The judgment with its score multiplied by [k]. *)
Definition scale_score (k : Qc) (out : Judgment) : Judgment :=
  mkJudgment (Some (NFloat (k * float (default (NFloat 0) (score out)))))
             (confidence out) (violation out) (rationale out).

(** Judgments in which a critic outside the rights set reports a violation. *)
Definition risk_violation_critics : gmap string Judgment :=
  list_to_map
    [("rights", S1_other);
     ("risk", mkJudgment (Some (NFloat (Q2Qc (2 # 10)))) (Some (NFloat (Q2Qc (9 # 10))))
                         (Some true) None)].

(** The events of the runtime itself, as opposed to telemetry. *)
Definition is_telemetry (e : Event) : bool := String.prefix "telemetry." (ev_name e).

Definition runtime_events (w : World) : list Event :=
  List.filter (fun e => negb (is_telemetry e)) (w_emitted w).

(** [w'] differs from [w] by the clock, by telemetry and by backend calls
    alone: the runtime counters, the hooks, the listeners and the events of
    the runtime are as they were. *)
Record untouched (w w' : World) : Prop := mkUntouched {
  un_state : w_state w' = w_state w;
  un_uuids : w_uuids w' = w_uuids w;
  un_listeners : w_listeners w' = w_listeners w;
  un_hooks : w_hooks w' = w_hooks w;
  un_fired : w_fired w' = w_fired w;
  un_events : runtime_events w' = runtime_events w
}.

(** A coroutine that leaves all of that alone, however it ends. *)
Definition keeps {A} (m : M A) : Prop := forall dl w, untouched w (m dl w).2.

(** The core with another mode. *)
Definition with_mode (m : HybridModeConfig) (self : HybridCore) : HybridCore :=
  mkHybridCore (router self) (critics self) (fusion self) m (backend_runner self).


(** What the body of [deliberate] and [deliberate] itself can end with. *)
Definition has_action (self : HybridCore) (decision : PyDict) : Prop :=
  exists action,
    dict_get "action" decision = Some (VStr action) /\
    (action = "reject" \/ action = "advice" \/ action = "proceed" \/
     (action = "escalate" /\ auto_escalate (mode self) = false)).

Definition escalation_forced (self : HybridCore) (e : Exn) : Prop :=
  e = mkExn EscalationRequired "Uncertainty threshold exceeded." /\
  auto_escalate (mode self) = true /\ advisory_only (mode self) = false.

Definition body_post (self : HybridCore) (dl : Deadline) (r : Outcome PyDict) : Prop :=
  match r with
  | Ok decision => has_action self decision
  | Raise e => escalation_forced self e \/ isinstance e EscalationRequired = false
  | Cancelled => dl <> None
  end.

Definition deliberate_post (self : HybridCore) (dl : Deadline) (r : Outcome PyDict)
  : Prop :=
  match r with
  | Ok decision => has_action self decision
  | Raise e => escalation_forced self e \/ exn_class e = HybridCoreError
  | Cancelled => dl <> None
  end.


(** The invocations of the [before_runtime_step] hooks for a request
    that arrives in state [w]. *)
Definition fired_before (request : Request) (w : World) : list (Hook * PyDict) :=
  map (fun fn => (fn, [("id", VStr (w_uuids w (w_drawn w)));
                       ("request", request_value request)]))
      (default [] (w_hooks w !! "before_runtime_step")).

(** What [EleanorRuntime.decide], started in [w] without a deadline, ends
    with: the envelope, the counters, the request log and the events. *)
Definition accounted (py_repr : Value -> string) (self : EleanorRuntime)
    (request : Request) (w : World) (r : Outcome PyDict) (w' : World) : Prop :=
  match r with
  | Ok decision =>
      exists terminal,
        active_tasks (w_state w') = Z.max 0 (active_tasks (w_state w)) /\
        request_log (w_state w')
        = <[w_uuids w (w_drawn w) :=
              [("payload", request_value request); ("timestamp", VFloat (w_now w))]]>
            (request_log (w_state w)) /\
        map ev_name (runtime_events w')
        = map ev_name (runtime_events w) ++ ["runtime.request.received"; terminal] /\
        w_hooks w' = w_hooks w /\
        ((terminal = "runtime.request.completed" /\
          completed_tasks (w_state w') = (completed_tasks (w_state w) + 1)%Z /\
          failed_tasks (w_state w') = failed_tasks (w_state w) /\
          (exists dl0 w0,
             (HybridCore.deliberate py_repr (hybrid self) request dl0 w0).1
             = Ok decision) /\
          (exists action, dict_get "action" decision = Some (VStr action)) /\
          w_fired w'
          = w_fired w ++ fired_before request w
            ++ map (fun fn => (fn, [("id", VStr (w_uuids w (w_drawn w)));
                                    ("result", VDict decision)]))
                   (default [] (w_hooks w !! "after_runtime_step"))) \/
         (terminal = "runtime.request.escalation" /\
          completed_tasks (w_state w') = completed_tasks (w_state w) /\
          failed_tasks (w_state w') = (failed_tasks (w_state w) + 1)%Z /\
          (exists dl0 w0,
             (HybridCore.deliberate py_repr (hybrid self) request dl0 w0).1
             = Raise (mkExn EscalationRequired "Uncertainty threshold exceeded.")) /\
          decision = [("action", VStr "escalate");
                      ("reason", VStr "Uncertainty threshold exceeded.");
                      ("id", VStr (w_uuids w (w_drawn w)))] /\
          w_fired w' = w_fired w ++ fired_before request w) \/
         (terminal = "runtime.request.error" /\
          completed_tasks (w_state w') = completed_tasks (w_state w) /\
          failed_tasks (w_state w') = (failed_tasks (w_state w) + 1)%Z /\
          exists e,
            decision = [("action", VStr "error");
                        ("error", VStr (exn_msg e));
                        ("id", VStr (w_uuids w (w_drawn w)))] /\
            (e = mkExn TimeoutError "" \/
             exists dl0 w0,
               (HybridCore.deliberate py_repr (hybrid self) request dl0 w0).1
               = Raise e) /\
            w_fired w' = w_fired w ++ fired_before request w))
  | Raise _ => False
  | Cancelled => False
  end.

(** The state in which a request that arrived in [w] waits for a permit:
    it is logged and announced, the [before_runtime_step] hooks have run,
    and it is counted nowhere. *)
Record waiting (request : Request) (w w' : World) : Prop := mkWaiting {
  waiting_active : active_tasks (w_state w') = active_tasks (w_state w);
  waiting_completed : completed_tasks (w_state w') = completed_tasks (w_state w);
  waiting_failed : failed_tasks (w_state w') = failed_tasks (w_state w);
  waiting_log :
    request_log (w_state w')
    = <[w_uuids w (w_drawn w) :=
          [("payload", request_value request); ("timestamp", VFloat (w_now w))]]>
        (request_log (w_state w));
  waiting_hooks : w_hooks w' = w_hooks w;
  waiting_fired : w_fired w' = w_fired w ++ fired_before request w;
  waiting_events :
    map ev_name (runtime_events w')
    = map ev_name (runtime_events w) ++ ["runtime.request.received"]
}.


(** A coroutine that never returns a value: it raises or is cancelled. *)
Definition never_returns {A} (m : M A) : Prop := forall dl w a, (m dl w).1 <> Ok a.

(** A backend runner that fails on every call. *)
Definition always_fails (runner : Runner) : Prop :=
  forall model_name request i, exists e, att_result (runner model_name request i) = inl e.


(** When the fan-out is through with [tasks], all started at [start], if
    the clock showed [now] before the first of them was awaited. *)
Definition finish_time (start : Qc) (tasks : list (string * Attempt Judgment)) (now : Qc)
  : Qc :=
  fold_left (fun t '(_, task) => later t (start + att_secs task)) tasks now.


(** The sequences that [Double.compute] collects, and what it returns. *)
Definition double_scores_of (critics : gmap string Judgment) : list Qc :=
  map (fun c => Double.float (default (NFloat 0) (score c))) (map snd (map_to_list critics)).

Definition double_confidences_of (critics : gmap string Judgment) : list Qc :=
  map (fun c => Double.float (default (NFloat 0) (confidence c)))
      (map snd (map_to_list critics)).

Definition double_dispersion_of (critics : gmap string Judgment) : Qc :=
  if bool_decide (1 < length (double_scores_of critics))%nat
  then Double.pvariance (double_scores_of critics)
  else 0.

Definition double_raw_uncertainty (dispersion min_confidence : Qc) : Qc :=
  UncertaintyEngine.min2 1
    (Double.fadd (Double.fmul dispersion (Q2Qc (25 # 10)))
       (if bool_decide (min_confidence < Double.round64 (Q2Qc (3 # 10)))
        then Double.round64 (Q2Qc (3 # 10)) else 0)).







(** Three critics that score 0.0, 0.0 and 0.6 with confidence 0.1. *)
Definition wary_judgment (s : Qc) : Judgment :=
  mkJudgment (Some (NFloat s)) (Some (NFloat (Double.round64 (Q2Qc (1 # 10)))))
             (Some false) None.

Definition wary_critics : gmap string Judgment :=
  <["risk" := wary_judgment 0]>
    (<["fairness" := wary_judgment 0]>
       {["truth" := wary_judgment (Double.round64 (Q2Qc (6 # 10)))]}).


(* ===================================================================== *)
(** ** Reasoning about coroutines *)
(* ===================================================================== *)

Lemma wp_run {A} (m : M A) dl w Q r w' :
  m dl w = (r, w') -> wp m dl w Q -> Q r w'.
Proof. unfold wp. intros ->. done. Qed.

Lemma wp_intro {A} (m : M A) dl w (Q : Outcome A -> World -> Prop) :
  (forall r w', m dl w = (r, w') -> Q r w') -> wp m dl w Q.
Proof. unfold wp. intros H. apply H. by destruct (m dl w). Qed.

Lemma wp_mono {A} (m : M A) dl w (Q Q' : Outcome A -> World -> Prop) :
  wp m dl w Q -> (forall r w', Q r w' -> Q' r w') -> wp m dl w Q'.
Proof. unfold wp. auto. Qed.

Lemma wp_ret {A} (a : A) dl w Q : Q (Ok a) w -> wp (ret a) dl w Q.
Proof. done. Qed.

Lemma wp_raise {A} (e : Exn) dl w (Q : Outcome A -> World -> Prop) :
  Q (Raise e) w -> wp (raise e) dl w Q.
Proof. done. Qed.

Lemma wp_modify f dl w Q : Q (Ok tt) (f w) -> wp (modify f) dl w Q.
Proof. done. Qed.

Lemma wp_bind {A B} (m : M A) (k : A -> M B) dl w Q :
  wp m dl w (fun r w' =>
    match r with
    | Ok a => wp (k a) dl w' Q
    | Raise e => Q (Raise e) w'
    | Cancelled => Q Cancelled w'
    end) ->
  wp (bind m k) dl w Q.
Proof. unfold wp, bind. by destruct (m dl w) as [[a|e|] w']. Qed.

Lemma wp_try_except {A} (m : M A) hs dl w Q :
  wp m dl w (fun r w' =>
    match r with
    | Raise e =>
        match find_handler e hs with
        | Some h => wp (h e) dl w' Q
        | None => Q (Raise e) w'
        end
    | _ => Q r w'
    end) ->
  wp (try_except m hs) dl w Q.
Proof.
  unfold wp, try_except. destruct (m dl w) as [[a|e|] w']; simpl; try done.
  by destruct (find_handler e hs).
Qed.

Lemma wp_try_finally {A} (m : M A) f dl w Q :
  wp m dl w (fun r w' => Q r (f w')) -> wp (try_finally m f) dl w Q.
Proof. unfold wp, try_finally. by destruct (m dl w). Qed.

(** A deterministic step that returns. *)
Lemma bind_run {A B} (m : M A) (k : A -> M B) dl w a w' :
  m dl w = (Ok a, w') -> bind m k dl w = k a dl w'.
Proof. unfold bind. by intros ->. Qed.

Lemma bind_ret {A B} (a : A) (k : A -> M B) dl w : bind (ret a) k dl w = k a dl w.
Proof. done. Qed.

Lemma wp_step {A B} (m : M A) (k : A -> M B) dl w a w' Q :
  m dl w = (Ok a, w') -> wp (k a) dl w' Q -> wp (bind m k) dl w Q.
Proof. intros Hm. unfold wp. by rewrite (bind_run _ _ _ _ _ _ Hm). Qed.

(** *** The event bus *)

Lemma set_delivered_same w : set_delivered (w_delivered w) w = w.
Proof. by destruct w. Qed.

Lemma gather_safe_invoke (ls : list Listener) event dl w :
  gather_return_exceptions (map (fun l => EventBus._safe_invoke l event) ls) dl w
  = (Ok (map (fun _ => inr tt) ls),
     set_delivered (w_delivered w ++ map (fun l => (l, event)) ls) w).
Proof.
  revert w. induction ls as [|l ls IH]; intros w.
  - simpl. by rewrite app_nil_r, set_delivered_same.
  - cbn [map gather_return_exceptions].
    unfold EventBus._safe_invoke at 1, try_except, EventBus.call_listener.
    destruct (l event) as [e|]; cbn [find_handler isinstance issubclass].
    + unfold ret at 1. unfold bind. rewrite IH. cbn.
      by rewrite <- app_assoc.
    + unfold bind. rewrite IH. cbn. by rewrite <- app_assoc.
Qed.

Lemma broadcast_run event dl w :
  EventBus.broadcast event dl w
  = (Ok tt, set_delivered
              (w_delivered w ++ map (fun l => (l, event)) (listeners_of w (ev_name event)))
              w).
Proof.
  unfold EventBus.broadcast, listeners_of, bind, get_world.
  destruct (default [] (w_listeners w !! ev_name event)) as [|l ls] eqn:E.
  - simpl. by rewrite app_nil_r, set_delivered_same.
  - by rewrite gather_safe_invoke.
Qed.

Lemma emit_run event_name payload metadata dl w :
  EventBus.emit event_name payload metadata dl w
  = (Ok (emitted_event event_name payload metadata w),
     after_emit (emitted_event event_name payload metadata w) w).
Proof.
  unfold EventBus.emit, bind, uuid4, time_time, modify.
  rewrite broadcast_run. reflexivity.
Qed.

(** *** The hook manager *)

Lemma set_fired_same w : set_fired (w_fired w) w = w.
Proof. by destruct w. Qed.

Lemma gather_safe_hooks (hooks : list Hook) ctx dl w :
  gather_return_exceptions (map (fun fn => HookManager._safe fn ctx) hooks) dl w
  = (Ok (map (fun _ => inr tt) hooks),
     set_fired (w_fired w ++ map (fun fn => (fn, ctx)) hooks) w).
Proof.
  revert w. induction hooks as [|fn hooks IH]; intros w.
  - simpl. by rewrite app_nil_r, set_fired_same.
  - cbn [map gather_return_exceptions].
    unfold HookManager._safe at 1, try_except, HookManager.call_hook.
    destruct (fn ctx) as [e|]; cbn [find_handler isinstance issubclass].
    + unfold ret at 1. unfold bind. rewrite IH. cbn.
      by rewrite <- app_assoc.
    + unfold bind. rewrite IH. cbn. by rewrite <- app_assoc.
Qed.

Lemma fire_run hook_name context dl w :
  HookManager.fire hook_name context dl w = (Ok tt, after_fire hook_name context w).
Proof.
  unfold HookManager.fire, after_fire, bind, get_world.
  destruct (default [] (w_hooks w !! hook_name)) as [|fn hooks] eqn:E.
  - simpl. by rewrite app_nil_r, set_fired_same.
  - by rewrite gather_safe_hooks.
Qed.

(** *** Telemetry: every call returns and only touches the bus *)

(** *** Telemetry *)

Lemma start_span_run name context dl w :
  telemetry.start_span name context dl w
  = (Ok (mkSpan (w_uuids w (w_drawn w)) name (w_now w) (or_empty context)),
     after_start_span name context w).
Proof.
  unfold telemetry.start_span, bind, uuid4, time_time.
  by rewrite emit_run.
Qed.

Lemma end_span_run py_repr span result dl w :
  telemetry.end_span py_repr span result dl w
  = (Ok tt, after_emit (span_end_event py_repr span result w) w).
Proof.
  unfold telemetry.end_span, bind, time_time. by rewrite emit_run.
Qed.

Lemma emit_metric_run name value tags dl w :
  telemetry.emit_metric name value tags dl w
  = (Ok tt, after_emit (metric_event name value tags w) w).
Proof. unfold telemetry.emit_metric, bind. by rewrite emit_run. Qed.

Lemma emit_trace_run message details dl w :
  telemetry.emit_trace message details dl w
  = (Ok tt, after_emit (trace_event message details w) w).
Proof. unfold telemetry.emit_trace, bind. by rewrite emit_run. Qed.

Lemma quiet_refl w : quiet w w.
Proof. by split. Qed.

Lemma quiet_trans w1 w2 w3 : quiet w1 w2 -> quiet w2 w3 -> quiet w1 w3.
Proof. intros [] []. split; congruence. Qed.

Lemma quiet_after_emit event w : quiet w (after_emit event w).
Proof. by split. Qed.

Lemma quiet_after_start_span name context w : quiet w (after_start_span name context w).
Proof. by split. Qed.

Ltac run_step :=
  first
    [ rewrite (bind_run _ _ _ _ _ _ (start_span_run _ _ _ _))
    | rewrite (bind_run _ _ _ _ _ _ (end_span_run _ _ _ _ _))
    | rewrite (bind_run _ _ _ _ _ _ (emit_trace_run _ _ _ _))
    | rewrite (bind_run _ _ _ _ _ _ (emit_metric_run _ _ _ _ _))
    | rewrite (bind_run _ _ _ _ _ _ (emit_run _ _ _ _ _))
    | rewrite (bind_run _ _ _ _ _ _ (fire_run _ _ _ _)) ].

Ltac quiet_chain :=
  repeat first
    [ apply quiet_refl
    | apply quiet_after_emit
    | apply quiet_after_start_span
    | eapply quiet_trans; [| apply quiet_after_emit]
    | eapply quiet_trans; [| apply quiet_after_start_span] ].

(** *** Critic fusion *)

Lemma fuse_lex_block py_repr weights critics dl w :
  lex_violations critics <> [] ->
  exists w', CriticFusion.fuse py_repr weights critics dl w
             = (Ok (lex_block_result critics), w') /\ quiet w w'.
Proof.
  intros Hne. unfold CriticFusion.fuse. run_step.
  fold (lex_violations critics). unfold lex_block_result.
  destruct (lex_violations critics) as [|v vs]; [done|].
  run_step. eexists. split; [reflexivity|]. quiet_chain.
Qed.

Lemma fuse_weighted py_repr weights critics dl w :
  lex_violations critics = [] ->
  exists w', CriticFusion.fuse py_repr weights critics dl w
             = (Ok (weighted_result weights critics), w') /\ quiet w w'.
Proof.
  intros He. unfold CriticFusion.fuse. run_step.
  fold (lex_violations critics). rewrite He.
  fold (weighted_total weights critics). run_step.
  eexists. split; [reflexivity|]. quiet_chain.
Qed.

Lemma lex_violations_elem critics name :
  name ∈ lex_violations critics <->
  name ∈ CriticFusion.RIGHTS_CRITICS /\
  exists out, critics !! name = Some out /\ default false (violation out) = true.
Proof.
  unfold lex_violations. rewrite list_elem_of_fmap. split.
  - intros ([n out] & -> & Hin). apply list_elem_of_In, filter_In in Hin.
    destruct Hin as [Hin Hp]. apply list_elem_of_In, elem_of_map_to_list in Hin.
    apply andb_true_iff in Hp as [Hr Hv]. apply bool_decide_eq_true in Hr.
    simpl. eauto.
  - intros (Hr & out & Hl & Hv). exists (name, out). split; [done|].
    apply list_elem_of_In, filter_In. split.
    + by apply list_elem_of_In, elem_of_map_to_list.
    + apply andb_true_iff. split; [by apply bool_decide_eq_true|done].
Qed.

Lemma getitem_run py_repr d k v dl w :
  dict_get k d = Some v -> telemetry.getitem py_repr d k dl w = (Ok v, w).
Proof. unfold telemetry.getitem. by intros ->. Qed.

Lemma decide_lex_block py_repr self critics vector dl w :
  lex_violations critics <> [] ->
  exists w', ConsensusFusion.decide py_repr self critics vector dl w
             = (Ok reject_decision, w') /\ quiet w w'.
Proof.
  intros Hne. unfold ConsensusFusion.decide. run_step.
  destruct (fuse_lex_block py_repr (critic_fusion self) critics dl
              (after_start_span "fusion.consensus" None w) Hne) as (w1 & E1 & Q1).
  rewrite (bind_run _ _ _ _ _ _ E1).
  rewrite (bind_run _ _ _ _ _ _
             (getitem_run py_repr (lex_block_result critics) "lex_block" (VBool true)
                dl w1 eq_refl)).
  cbn [truthy]. fold reject_decision. run_step.
  eexists. split; [reflexivity|].
  eapply quiet_trans; [|apply quiet_after_emit].
  eapply quiet_trans; [|exact Q1]. quiet_chain.
Qed.

(** *** The mode gate *)

Lemma apply_mode_enforces_lex py_repr self fusion_out dl w :
  truthy (default (VBool false) (dict_get "lex_block" fusion_out)) = true ->
  enforce_lex (mode self) = true ->
  HybridCore._apply_mode py_repr self fusion_out dl w
  = (Ok [("action", VStr "reject");
         ("reason", VStr "rights_violation");
         ("fusion", VDict fusion_out)], w).
Proof. unfold HybridCore._apply_mode. by intros -> ->. Qed.

(** *** The uncertainty engine *)

Lemma fold_left_Qcplus (xs : list Qc) (a : Qc) :
  fold_left Qcplus xs a = a + sumQ xs.
Proof.
  revert a. induction xs as [|x xs IH]; intros a; simpl.
  - ring.
  - rewrite IH. ring.
Qed.

Lemma fold_left_squares (xs : list Qc) (a : Qc) :
  fold_left (fun acc x => acc + x * x) xs a = a + sumQ (map (fun x => x * x) xs).
Proof.
  revert a. induction xs as [|x xs IH]; intros a; simpl.
  - ring.
  - rewrite IH. ring.
Qed.

Lemma Qc_of_nat_S (n : nat) :
  Qc_of_Z (Z.of_nat (S n)) = Qc_of_Z (Z.of_nat n) + 1.
Proof. by rewrite Nat2Z.inj_succ, <- Z.add_1_r, Z2Qc_inj_add, Z2Qc_inj_1. Qed.

Lemma Qc_of_nat_S_nonzero (n : nat) : Qc_of_Z (Z.of_nat (S n)) <> 0.
Proof. rewrite <- Z2Qc_inj_0. intros H. apply Z2Qc_inj in H. lia. Qed.

(** Sum of squared deviations from any centre [c]. *)
Lemma sum_squared_deviations (xs : list Qc) (c : Qc) :
  sumQ (map (fun x => (x - c) * (x - c)) xs)
  = sumQ (map (fun x => x * x) xs) - (1 + 1) * c * sumQ xs
    + Qc_of_Z (Z.of_nat (length xs)) * c * c.
Proof.
  induction xs as [|x xs IH].
  - cbn [map sumQ fold_right length]. change (Z.of_nat 0) with 0%Z.
    rewrite Z2Qc_inj_0. ring.
  - cbn [map sumQ fold_right length]. fold (sumQ (map (fun x => (x - c) * (x - c)) xs)).
    fold (sumQ (map (fun x => x * x) xs)). fold (sumQ xs).
    rewrite IH, Qc_of_nat_S. ring.
Qed.

(** The library algorithm computes the population variance. *)
Lemma pvariance_population_variance (xs : list Qc) :
  xs <> [] -> UncertaintyEngine.pvariance xs = population_variance xs.
Proof.
  intros Hne. unfold UncertaintyEngine.pvariance, population_variance.
  rewrite sum_squared_deviations, fold_left_Qcplus, fold_left_squares.
  unfold mean. destruct xs as [|x xs]; [done|].
  set (n := Qc_of_Z (Z.of_nat (length (x :: xs)))).
  assert (Hn : n <> 0) by apply Qc_of_nat_S_nonzero.
  field. done.
Qed.

Lemma min2_is_min_of (a b : Qc) : is_min_of (UncertaintyEngine.min2 a b) a b.
Proof.
  unfold is_min_of, UncertaintyEngine.min2. case_bool_decide as H.
  - split; [by apply Qclt_le_weak|]. split; [apply Qcle_refl|by right].
  - apply Qcnot_lt_le in H. split; [apply Qcle_refl|]. split; [done|by left].
Qed.

Lemma fold_left_min2 (rest : list Qc) (a : Qc) :
  let m := fold_left UncertaintyEngine.min2 rest a in
  (m = a \/ m ∈ rest) /\ m <= a /\ forall y, y ∈ rest -> m <= y.
Proof.
  revert a. induction rest as [|y rest IH]; intros a; cbn [fold_left].
  - split; [by left|]. split; [apply Qcle_refl|]. intros y Hy.
    by apply not_elem_of_nil in Hy.
  - destruct (IH (UncertaintyEngine.min2 a y)) as (Hin & Hle & Hall).
    destruct (min2_is_min_of a y) as (Ha & Hy & Hor).
    split; [|split].
    + destruct Hin as [->|Hin]; [|right; by apply list_elem_of_further].
      destruct Hor as [->| ->]; [by left|right; apply list_elem_of_here].
    + by eapply Qcle_trans.
    + intros z Hz. apply elem_of_cons in Hz as [->|Hz]; [|by apply Hall].
      by eapply Qcle_trans.
Qed.

Lemma py_min_is_minimum (xs : list Qc) (m : Qc) :
  UncertaintyEngine.py_min xs = Some m -> is_minimum m xs.
Proof.
  destruct xs as [|x rest]; [done|]. cbn [UncertaintyEngine.py_min].
  intros [= <-]. destruct (fold_left_min2 rest x) as (Hin & Hle & Hall).
  split.
  - destruct Hin as [->|Hin]; [apply list_elem_of_here|by apply list_elem_of_further].
  - intros y Hy. apply elem_of_cons in Hy as [->|Hy]; [done|by apply Hall].
Qed.

Lemma py_min_nonempty (xs : list Qc) :
  xs <> [] -> exists m, UncertaintyEngine.py_min xs = Some m.
Proof. destruct xs; [done|]. by eexists. Qed.

Lemma confidences_nonempty (critics : gmap string Judgment) :
  critics <> ∅ -> confidences_of critics <> [].
Proof.
  intros Hne E. apply Hne, map_to_list_empty_iff.
  unfold confidences_of in E. by do 2 apply fmap_nil_inv in E.
Qed.

Lemma compute_unfold threshold critics :
  UncertaintyEngine.compute threshold critics
  = match UncertaintyEngine.py_min (confidences_of critics) with
    | None => raise (mkExn ValueError "min() arg is an empty sequence")
    | Some m =>
        telemetry.emit_metric "uncertainty.score"
          (raw_uncertainty (dispersion_of critics) m) None;;;
        ret (uncertainty_result threshold critics m)
    end.
Proof.
  unfold UncertaintyEngine.compute, uncertainty_result, raw_uncertainty, dispersion_of,
    confidences_of, scores_of.
  reflexivity.
Qed.

Lemma compute_nonempty threshold critics dl w :
  critics <> ∅ ->
  exists m w',
    UncertaintyEngine.py_min (confidences_of critics) = Some m /\
    UncertaintyEngine.compute threshold critics dl w
    = (Ok (uncertainty_result threshold critics m), w') /\
    quiet w w'.
Proof.
  intros Hne.
  destruct (py_min_nonempty _ (confidences_nonempty critics Hne)) as [m Hm].
  exists m. rewrite compute_unfold, Hm. run_step.
  eexists. split; [reflexivity|]. split; [reflexivity|]. quiet_chain.
Qed.

Lemma compute_empty threshold dl w :
  UncertaintyEngine.compute threshold ∅ dl w
  = (Raise (mkExn ValueError "min() arg is an empty sequence"), w).
Proof. unfold UncertaintyEngine.compute. by rewrite map_to_list_empty. Qed.

(** *** Awaiting a collaborator *)

Lemma await_from_no_deadline {A} start (att : Attempt A) w :
  await_from start att None w
  = (of_result (att_result att),
     set_now (later (w_now w) (start + att_secs att)) w).
Proof. done. Qed.

Lemma wp_await_from {A} start (att : Attempt A) dl w (Q : Outcome A -> World -> Prop) :
  (forall t, Q (of_result (att_result att)) (set_now t w)) ->
  (forall d, dl = Some d -> Q Cancelled (set_now d w)) ->
  wp (await_from start att) dl w Q.
Proof.
  intros Hdone Hcancel. unfold wp, await_from. destruct dl as [d|]; [|apply Hdone].
  case_bool_decide; [apply Hdone|by apply Hcancel].
Qed.

Lemma wp_await {A} (att : Attempt A) dl w (Q : Outcome A -> World -> Prop) :
  (forall t, Q (of_result (att_result att)) (set_now t w)) ->
  (forall d, dl = Some d -> Q Cancelled (set_now d w)) ->
  wp (await att) dl w Q.
Proof. intros H1 H2. exact (wp_await_from (w_now w) att dl w Q H1 H2). Qed.

(** *** Precedent retrieval never fails the deliberation *)

Lemma fetch_relevant_wp py_repr storage vector top_k dl w :
  wp (PrecedentEngine.fetch_relevant py_repr storage vector top_k) dl w
     (fun r _ => match r with
                 | Ok _ => True
                 | Raise _ => False
                 | Cancelled => dl <> None
                 end).
Proof.
  unfold PrecedentEngine.fetch_relevant.
  eapply wp_step; [apply start_span_run|].
  apply wp_try_except, wp_bind, wp_await.
  - intros t. destruct (att_result (storage vector top_k)) as [e|results]; cbn.
    + unfold wp. do 2 run_step. done.
    + unfold wp. run_step. done.
  - intros d ->. done.
Qed.

Lemma precedents_step_wp py_repr self vector dl w :
  wp (precedents_step py_repr self vector) dl w
     (fun r _ => match r with
                 | Ok _ => True
                 | Raise _ => False
                 | Cancelled => dl <> None /\ precedent self <> None /\ vector <> VNone
                 end).
Proof.
  unfold precedents_step.
  destruct (precedent self) as [storage|]; [|done].
  destruct vector; try done;
    (eapply wp_mono; [apply fetch_relevant_wp|]; by intros [|e|] w').
Qed.

(** *** Consensus fusion *)

Lemma decide_wp py_repr self critics vector dl w :
  wp (ConsensusFusion.decide py_repr self critics vector) dl w
     (fun r _ => decide_post self critics vector dl r).
Proof.
  destruct (lex_violations critics) as [|v vs] eqn:Hlex.
  2:{ destruct (decide_lex_block py_repr self critics vector dl w) as (w' & E & _).
      { by rewrite Hlex. }
      unfold wp. rewrite E. cbn. left. by rewrite Hlex. }
  unfold ConsensusFusion.decide.
  eapply wp_step; [apply start_span_run|].
  destruct (fuse_weighted py_repr (critic_fusion self) critics dl
              (after_start_span "fusion.consensus" None w) Hlex) as (w1 & E1 & _).
  eapply wp_step; [exact E1|].
  eapply wp_step; [by apply getitem_run|]. cbn [truthy].
  fold (precedents_step py_repr self vector).
  apply wp_bind. eapply wp_mono; [apply precedents_step_wp|].
  intros [precedents|e|] w2; [intros _|done|done].
  destruct (decide (critics = ∅)) as [->|Hne].
  - unfold wp. unfold bind at 1. rewrite compute_empty. cbn. by rewrite Hlex.
  - destruct (compute_nonempty (uncertainty self) critics dl w2 Hne)
      as (m & w3 & Hm & E3 & _).
    eapply wp_step; [exact E3|].
    eapply wp_step; [by apply getitem_run|].
    eapply wp_step; [by apply getitem_run|].
    eapply wp_step; [by apply getitem_run|].
    cbn [truthy]. unfold wp.
    case_bool_decide as Hth.
    + do 2 run_step. unfold ret, decide_post. cbn [fst]. right.
      split; [by rewrite Hlex|]. exists m, precedents. split; [done|].
      unfold fused_decision. by rewrite bool_decide_eq_true_2.
    + rewrite bind_ret. run_step. unfold ret, decide_post. cbn [fst]. right.
      split; [by rewrite Hlex|]. exists m, precedents. split; [done|].
      unfold fused_decision. by rewrite bool_decide_eq_false_2.
Qed.

(** *** Scenario S2 *)

Lemma S2_no_lex_block : lex_violations S2_critics = [].
Proof. reflexivity. Qed.

Lemma S2_min_confidence :
  UncertaintyEngine.py_min (confidences_of S2_critics) = Some (Q2Qc (9 # 10)).
Proof. reflexivity. Qed.

Lemma S2_weighted_total :
  weighted_total CriticFusion.DEFAULT_WEIGHTS S2_critics = Q2Qc (9 # 10).
Proof. apply Qc_is_canon. vm_compute. reflexivity. Qed.

Lemma S2_raw_uncertainty :
  raw_uncertainty (dispersion_of S2_critics) (Q2Qc (9 # 10)) = 0.
Proof. apply Qc_is_canon. vm_compute. reflexivity. Qed.

Lemma S2_compute dl w :
  exists w',
    UncertaintyEngine.compute (UncertaintyEngine.init None) S2_critics dl w
    = (Ok [("uncertainty", VFloat 0);
           ("escalate", VBool false);
           ("dispersion", VFloat (dispersion_of S2_critics));
           ("min_confidence", VFloat (Q2Qc (9 # 10)))], w').
Proof.
  destruct (compute_nonempty (UncertaintyEngine.init None) S2_critics dl w)
    as (m & w' & Hm & E & _); [done|].
  pose proof (eq_trans (eq_sym Hm) S2_min_confidence) as Hmin. injection Hmin as ->.
  exists w'. rewrite E. unfold uncertainty_result. rewrite S2_raw_uncertainty.
  reflexivity.
Qed.

Lemma S2_decide py_repr storage dl w :
  exists precedents w',
    ConsensusFusion.decide py_repr (default_fusion storage) S2_critics VNone dl w
    = (Ok [("action", VStr "proceed");
           ("confidence", VFloat (Q2Qc (9 # 10)));
           ("uncertainty", VFloat 0);
           ("lex_block", VBool false);
           ("rationale",
             VStr "Decision derived from Eleanor's multi-critic fusion logic.");
           ("precedent", VList precedents)], w').
Proof.
  destruct (ConsensusFusion.decide py_repr (default_fusion storage) S2_critics VNone dl w)
    as [[d|e|] w'] eqn:E;
    pose proof (wp_run _ _ _ _ _ _ E
                  (decide_wp py_repr (default_fusion storage) S2_critics VNone dl w)) as H;
    unfold decide_post in H.
  - destruct H as [[Hlex _]|(_ & m & ps & Hm & ->)]; [done|].
    pose proof (eq_trans (eq_sym Hm) S2_min_confidence) as Hmin. injection Hmin as ->.
    exists ps, w'. unfold fused_decision.
    change (critic_fusion (default_fusion storage)) with CriticFusion.DEFAULT_WEIGHTS.
    rewrite S2_weighted_total, S2_raw_uncertainty. reflexivity.
  - by destruct H as (_ & ? & _).
  - by destruct H as (_ & _ & ?).
Qed.

(** *** Routing rules *)

Lemma py_eq_None_l (v : Value) : py_eq VNone v = true <-> v = VNone.
Proof. by destruct v. Qed.

Lemma rule_matches_spec rule request :
  router_rules.rule_matches rule request = true <->
  exists cond,
    rule_if rule = Some cond /\ cond <> ∅ /\
    forall key value,
      cond !! key = Some value -> py_eq (request_get request key) value = true.
Proof.
  unfold router_rules.rule_matches. destruct (rule_if rule) as [cond|].
  2:{ split; [done|]. by intros (cond & ? & _). }
  destruct (map_to_list cond) as [|item items] eqn:E.
  - apply map_to_list_empty_iff in E. split; [done|].
    by intros (cond' & [= <-] & Hne & _).
  - rewrite forallb_forall. split.
    + intros Hall. exists cond. split; [done|]. split.
      * intros ->. by rewrite map_to_list_empty in E.
      * intros key value Hl. apply (Hall (key, value)).
        rewrite <- E. by apply list_elem_of_In, elem_of_map_to_list.
    + intros (cond' & [= <-] & _ & Hall) [key value] Hin.
      apply Hall. apply elem_of_map_to_list, list_elem_of_In. by rewrite E.
Qed.

Lemma rule_matches_applies rule request :
  expects_values rule ->
  router_rules.rule_matches rule request = true <-> rule_applies rule request.
Proof.
  intros Hv. rewrite rule_matches_spec. unfold rule_applies, cond_subset.
  split; intros (cond & Hc & Hne & Hall); exists cond; (split; [done|]); (split; [done|]);
    intros key value Hl; specialize (Hall key value Hl).
  - unfold request_get in Hall. destruct (request !! key) as [v|]; [by exists v|].
    apply py_eq_None_l in Hall. by destruct (Hv cond key value Hc Hl).
  - destruct Hall as (v & Hr & He). unfold request_get. by rewrite Hr.
Qed.

Lemma rule_matches_empty rule request :
  rule_if rule = None \/ rule_if rule = Some ∅ ->
  router_rules.rule_matches rule request = false.
Proof.
  unfold router_rules.rule_matches. intros [-> | ->]; [done|].
  by rewrite map_to_list_empty.
Qed.

Lemma evaluate_rules_first before rule after request :
  (forall r, r ∈ before -> router_rules.rule_matches r request = false) ->
  router_rules.rule_matches rule request = true ->
  router_rules.evaluate_rules (before ++ rule :: after) request = rule_use_model rule.
Proof.
  induction before as [|r before IH]; intros Hb Hm; cbn [app router_rules.evaluate_rules].
  - by rewrite Hm.
  - rewrite (Hb r) by apply list_elem_of_here.
    apply IH; [|done]. intros r' Hr'. apply Hb. by apply list_elem_of_further.
Qed.

Lemma evaluate_rules_none rules request :
  (forall r, r ∈ rules -> router_rules.rule_matches r request = false) ->
  router_rules.evaluate_rules rules request = None.
Proof.
  induction rules as [|r rules IH]; intros Hb; cbn [router_rules.evaluate_rules]; [done|].
  rewrite (Hb r) by apply list_elem_of_here.
  apply IH. intros r' Hr'. apply Hb. by apply list_elem_of_further.
Qed.

(** *** The critic fan-out *)

Lemma await_tasks_wp start tasks results dl w :
  wp (HybridCore.await_tasks start tasks results) dl w
     (fun r _ => match r with
                 | Ok res => res = record_all tasks results
                 | Raise _ => False
                 | Cancelled => dl <> None
                 end).
Proof.
  revert results w. induction tasks as [|[name task] tasks IH]; intros results w.
  - done.
  - cbn [HybridCore.await_tasks record_all fold_left].
    apply wp_bind, wp_try_except, wp_await_from.
    + intros t. unfold recorded.
      destruct (att_result task) as [exc|out]; cbn [of_result find_handler isinstance issubclass].
      * apply wp_ret. apply IH.
      * apply IH.
    + by intros d ->.
Qed.

Lemma record_all_union (tasks : list (string * Attempt Judgment)) results :
  NoDup tasks.*1 ->
  record_all tasks results = list_to_map (prod_map id recorded <$> tasks) ∪ results.
Proof.
  revert results. induction tasks as [|[name task] tasks IH]; intros results Hnd.
  - cbn. by rewrite (left_id_L ∅ (∪)).
  - apply list.NoDup_cons in Hnd as [Hnotin Hnd].
    cbn [record_all fold_left]. fold (record_all tasks (<[name:=recorded task]> results)).
    rewrite IH by done. cbn [fmap list_fmap prod_map list_to_map foldr fst snd id].
    rewrite <- insert_union_r, insert_union_l; [done|].
    apply not_elem_of_list_to_map_1. by rewrite <- list_fmap_compose.
Qed.

Lemma record_all_map_to_list (cs : gmap string Critic) request backend_response :
  record_all
    (map (fun '(name, critic) => (name, critic request backend_response)) (map_to_list cs))
    ∅
  = (fun critic : Critic => recorded (critic request backend_response)) <$> cs.
Proof.
  rewrite record_all_union.
  - rewrite (right_id_L ∅ (∪)). apply map_eq. intros name.
    rewrite lookup_fmap.
    destruct (cs !! name) as [critic|] eqn:E; cbn.
    + apply elem_of_list_to_map_1.
      * rewrite <- !list_fmap_compose.
        erewrite list_fmap_ext; [apply NoDup_fst_map_to_list|]. by intros i [??].
      * apply list_elem_of_fmap. exists (name, critic request backend_response).
        split; [done|]. apply list_elem_of_fmap. exists (name, critic). split; [done|].
        by apply elem_of_map_to_list.
    + apply not_elem_of_list_to_map_1. rewrite <- !list_fmap_compose.
      erewrite list_fmap_ext; [|by intros i [??]].
      intros Hin. apply list_elem_of_fmap in Hin as ([n c] & -> & Hin).
      apply elem_of_map_to_list in Hin. change (cs !! n = None) in E.
      pose proof (eq_trans (eq_sym Hin) E) as Hx. discriminate Hx.
  - rewrite <- list_fmap_compose.
    erewrite list_fmap_ext; [apply NoDup_fst_map_to_list|]. by intros i [??].
Qed.

Lemma evaluate_critics_wp self request backend_response dl w :
  wp (HybridCore._evaluate_critics self request backend_response) dl w
     (fun r _ =>
        match r with
        | Ok res =>
            res = (fun critic : Critic => recorded (critic request backend_response))
                  <$> critics self
        | Raise _ => False
        | Cancelled => dl <> None
        end).
Proof.
  unfold HybridCore._evaluate_critics. eapply wp_step; [reflexivity|].
  eapply wp_mono; [apply await_tasks_wp|].
  intros [res|e|] w'; try done. intros ->. apply record_all_map_to_list.
Qed.

(** *** Counting traces *)

Lemma trace_count_after_emit message event w :
  trace_count message (after_emit event w)
  = (trace_count message w + (if is_trace message event then 1 else 0))%nat.
Proof.
  unfold trace_count, after_emit. cbn [w_emitted].
  rewrite filter_app, length_app. cbn [List.filter].
  by destruct (is_trace message event).
Qed.

Lemma is_trace_trace_event message message' details w :
  is_trace message (trace_event message' details w) = bool_decide (message' = message).
Proof. reflexivity. Qed.

Lemma trace_count_after_trace message message' details w :
  trace_count message (after_emit (trace_event message' details w) w)
  = (trace_count message w + (if bool_decide (message' = message) then 1 else 0))%nat.
Proof. by rewrite trace_count_after_emit, is_trace_trace_event. Qed.

Lemma trace_count_after_other message event w :
  ev_name event <> "telemetry.trace" ->
  trace_count message (after_emit event w) = trace_count message w.
Proof.
  intros Hn. rewrite trace_count_after_emit. unfold is_trace.
  rewrite bool_decide_eq_false_2 by done. cbn. lia.
Qed.

Lemma trace_count_after_start_span message name context w :
  trace_count message (after_start_span name context w) = trace_count message w.
Proof. unfold after_start_span. by rewrite trace_count_after_other. Qed.

Lemma trace_count_after_end_span py_repr message span result w :
  trace_count message (after_emit (span_end_event py_repr span result w) w)
  = trace_count message w.
Proof. by rewrite trace_count_after_other. Qed.

(** *** One attempt of the retry loop *)

Lemma later_before (now secs t : Qc) :
  0 < t -> later now (now + secs) < now + t <-> secs < t.
Proof.
  intros Ht. unfold later. case_bool_decide as H.
  - by rewrite <- Qcplus_lt_mono_l.
  - split.
    + intros _. apply Qcnot_lt_le in H.
      rewrite <- (Qcplus_0_r now) in H at 2. apply Qcplus_le_mono_l in H.
      by eapply Qcle_lt_trans.
    + intros _. rewrite <- (Qcplus_0_r now) at 1. by apply Qcplus_lt_mono_l.
Qed.

Lemma attempt_run cfg runner request w :
  0 < mb_timeout cfg ->
  wait_for (mb_timeout cfg) (Router.invoke_runner runner (mb_name cfg) request) None w
  = (of_result (attempt_result cfg (runner (mb_name cfg) request (length (w_calls w)))),
     after_attempt cfg request (runner (mb_name cfg) request (length (w_calls w))) w).
Proof.
  intros Ht. unfold wait_for.
  rewrite bool_decide_eq_false_2 by (by apply Qclt_not_le).
  unfold Router.invoke_runner, await, await_from, attempt_result, after_attempt, attempt_end.
  set (att := runner (mb_name cfg) request (length (w_calls w))).
  destruct (decide (att_secs att < mb_timeout cfg)) as [Hlt|Hge].
  - rewrite !(bool_decide_eq_true_2 _ Hlt).
    rewrite bool_decide_eq_true_2 by (by apply later_before).
    by destruct (att_result att).
  - rewrite !(bool_decide_eq_false_2 _ Hge).
    rewrite bool_decide_eq_false_2; [done|].
    intros H. by apply later_before in H.
Qed.

Lemma attempt_within_timeout cfg att now :
  0 < mb_timeout cfg -> attempt_end cfg att now - now <= mb_timeout cfg.
Proof.
  intros Ht. unfold attempt_end, later. case_bool_decide as Hlt.
  - case_bool_decide as H.
    + replace (now + att_secs att - now) with (att_secs att) by ring.
      by apply Qclt_le_weak.
    + replace (now - now) with 0 by ring. by apply Qclt_le_weak.
  - replace (now + mb_timeout cfg - now) with (mb_timeout cfg) by ring.
    apply Qcle_refl.
Qed.

Lemma try_except_raise {A} (m : M A) hs h e dl w w' :
  m dl w = (Raise e, w') -> find_handler e hs = Some h ->
  try_except m hs dl w = h e dl w'.
Proof. unfold try_except. by intros -> ->. Qed.

Lemma try_except_unhandled {A} (m : M A) hs e dl w w' :
  m dl w = (Raise e, w') -> find_handler e hs = None ->
  try_except m hs dl w = (Raise e, w').
Proof. unfold try_except. by intros -> ->. Qed.

Lemma try_except_ok {A} (m : M A) hs a dl w w' :
  m dl w = (Ok a, w') -> try_except m hs dl w = (Ok a, w').
Proof. unfold try_except. by intros ->. Qed.

(** *** The retry loop *)

Lemma retry_effects_refl cfg request w : retry_effects cfg request 0 0 w w.
Proof.
  split; [|split; [|split]].
  - exists []. rewrite app_nil_r. split; [done|]. split; [done|]. constructor.
  - lia.
  - done.
  - done.
Qed.

Lemma retry_effects_trans cfg request c1 r1 c2 r2 w1 w2 w3 :
  retry_effects cfg request c1 r1 w1 w2 ->
  retry_effects cfg request c2 r2 w2 w3 ->
  retry_effects cfg request (c1 + c2) (r1 + r2) w1 w3.
Proof.
  intros ((new1 & E1 & L1 & F1) & T1 & O1 & S1) ((new2 & E2 & L2 & F2) & T2 & O2 & S2).
  split; [|split; [|split]].
  - exists (new1 ++ new2). split; [by rewrite E2, E1, app_assoc|].
    split; [rewrite length_app; lia|]. by apply Forall_app.
  - rewrite T2, T1. lia.
  - intros message Hm. by rewrite O2, O1.
  - by rewrite S2.
Qed.

Lemma retry_effects_attempt cfg request att w :
  0 < mb_timeout cfg ->
  retry_effects cfg request 1 0 w (after_attempt cfg request att w).
Proof.
  intros Ht. split; [|split; [|split]].
  - eexists. split; [reflexivity|]. split; [done|].
    constructor; [|constructor]. split; [done|]. split; [done|].
    by apply attempt_within_timeout.
  - unfold trace_count. cbn [after_attempt set_calls set_now w_emitted]. lia.
  - done.
  - done.
Qed.

Lemma retry_effects_failed cfg request att details w :
  0 < mb_timeout cfg ->
  retry_effects cfg request 1 1 w
    (after_emit (trace_event "router.backend_retry" details
                   (after_attempt cfg request att w))
                (after_attempt cfg request att w)).
Proof.
  intros Ht.
  destruct (retry_effects_attempt cfg request att w Ht) as ((new & E & L & F) & T & O & S).
  split; [|split; [|split]].
  - by exists new.
  - rewrite trace_count_after_trace, T. rewrite bool_decide_eq_true_2 by done. lia.
  - intros message Hm. rewrite trace_count_after_trace, O by done.
    rewrite bool_decide_eq_false_2 by done. lia.
  - done.
Qed.

Lemma run_backend_loop_exhausted n cfg runner request last (errs : nat -> Exn) w :
  0 < mb_timeout cfg ->
  (forall i, (i < n)%nat ->
     attempt_result cfg (runner (mb_name cfg) request (length (w_calls w) + i)%nat) = inl (errs i)) ->
  exists w',
    Router.run_backend_loop n cfg runner request last None w
    = (Raise (mkExn RouterError
                (exhausted_message cfg
                   match n with
                   | O => last
                   | S k => Some (errs k)
                   end)), w') /\
    retry_effects cfg request n n w w'.
Proof.
  intros Ht. revert last errs w.
  induction n as [|n IH]; intros last errs w Hfail.
  - exists w. split; [reflexivity|apply retry_effects_refl].
  - cbn [Router.run_backend_loop].
    pose proof (Hfail 0%nat ltac:(lia)) as H0. rewrite Nat.add_0_r in H0.
    erewrite try_except_raise;
      [|rewrite (attempt_run cfg runner request w Ht), H0; reflexivity|reflexivity].
    cbv beta. rewrite (bind_run _ _ _ _ _ _ (emit_trace_run _ _ _ _)).
    set (w1 := after_emit _ _).
    destruct (IH (Some (errs 0%nat)) (fun i => errs (S i)) w1) as (w' & E & Heff).
    { intros i Hi. subst w1. cbn [w_calls after_emit after_attempt set_calls set_now].
      rewrite length_app. cbn [length].
      replace (length (w_calls w) + 1 + i)%nat with (length (w_calls w) + S i)%nat by lia.
      apply Hfail. lia. }
    exists w'. split.
    + rewrite E. by destruct n.
    + change (S n) with (1 + n)%nat.
      eapply retry_effects_trans; [|exact Heff].
      subst w1. by apply retry_effects_failed.
Qed.

Lemma run_backend_loop_succeeds k n cfg runner request last (response : PyDict) w :
  0 < mb_timeout cfg ->
  (k < n)%nat ->
  (forall i, (i < k)%nat ->
     exists e,
       attempt_result cfg (runner (mb_name cfg) request (length (w_calls w) + i)%nat) = inl e) ->
  attempt_result cfg (runner (mb_name cfg) request (length (w_calls w) + k)%nat) = inr response ->
  exists w',
    Router.run_backend_loop n cfg runner request last None w = (Ok response, w') /\
    retry_effects cfg request (S k) k w w'.
Proof.
  intros Ht. revert n last w.
  induction k as [|k IH]; intros n last w Hkn Hfail Hok.
  - destruct n as [|n]; [lia|]. cbn [Router.run_backend_loop].
    rewrite Nat.add_0_r in Hok. eexists. split.
    + apply try_except_ok. by rewrite (attempt_run cfg runner request w Ht), Hok.
    + by apply retry_effects_attempt.
  - destruct n as [|n]; [lia|]. cbn [Router.run_backend_loop].
    destruct (Hfail 0%nat ltac:(lia)) as [e0 H0]. rewrite Nat.add_0_r in H0.
    erewrite try_except_raise;
      [|rewrite (attempt_run cfg runner request w Ht), H0; reflexivity|reflexivity].
    cbv beta. rewrite (bind_run _ _ _ _ _ _ (emit_trace_run _ _ _ _)).
    set (w1 := after_emit _ _).
    assert (Hlen : length (w_calls w1) = (length (w_calls w) + 1)%nat).
    { subst w1. cbn [w_calls after_emit after_attempt set_calls set_now].
      rewrite length_app. by cbn [length]. }
    destruct (IH n (Some e0) w1) as (w' & E & Heff).
    { lia. }
    { intros i Hi. rewrite Hlen.
      replace (length (w_calls w) + 1 + i)%nat with (length (w_calls w) + S i)%nat by lia.
      apply Hfail. lia. }
    { rewrite Hlen.
      by replace (length (w_calls w) + 1 + k)%nat with (length (w_calls w) + S k)%nat by lia. }
    exists w'. split; [exact E|].
    change (S (S k)) with (1 + S k)%nat. change (S k) with (1 + k)%nat at 2.
    eapply retry_effects_trans; [|exact Heff].
    subst w1. by apply retry_effects_failed.
Qed.

Lemma bind_raise {A B} (m : M A) (k : A -> M B) e dl w w' :
  m dl w = (Raise e, w') -> bind m k dl w = (Raise e, w').
Proof. unfold bind. by intros ->. Qed.

(** *** Router.execute *)

Lemma execute_body_run py_repr config request runner span cfg dl w :
  models config !! Router.route config request = Some cfg ->
  mb_enabled cfg = true ->
  (let model := Router.route config request in
   cfg <- Router.get_backend py_repr config model;;
   (if mb_enabled cfg then ret tt
    else raise (mkExn NoModelAvailable ("Model '" +:+ model +:+ "' is disabled")));;;
   response <- Router._run_backend cfg runner request;;
   telemetry.end_span py_repr span (VDict response);;;
   ret response) dl w
  = (response <- Router._run_backend cfg runner request;;
     telemetry.end_span py_repr span (VDict response);;;
     ret response) dl w.
Proof.
  intros Hcfg Hen. cbv zeta. unfold Router.get_backend. rewrite Hcfg.
  rewrite bind_ret, Hen. by rewrite bind_ret.
Qed.

Lemma execute_succeeds py_repr config request runner context cfg k response w :
  models config !! Router.route config request = Some cfg ->
  mb_enabled cfg = true ->
  0 < mb_timeout cfg ->
  (Z.of_nat k <= mb_max_retries cfg)%Z ->
  (forall i, (i < k)%nat ->
     exists e,
       attempt_result cfg (runner (mb_name cfg) request (length (w_calls w) + i)%nat)
       = inl e) ->
  attempt_result cfg (runner (mb_name cfg) request (length (w_calls w) + k)%nat)
  = inr response ->
  exists w',
    Router.execute py_repr config request runner context None w = (Ok response, w') /\
    router_calls cfg request (S k) w w' /\
    router_traces k 0 0 w w' /\
    w_state w' = w_state w.
Proof.
  intros Hcfg Hen Ht Hk Hfail Hok. unfold Router.execute. run_step.
  set (w1 := after_start_span "router.execute" context w).
  destruct (run_backend_loop_succeeds k (Z.to_nat (mb_max_retries cfg + 1)) cfg runner
              request None response w1 Ht ltac:(lia) Hfail Hok)
    as (w2 & E & (Hcalls & Hretry & Hother & Hstate)).
  eexists. split.
  - apply try_except_ok.
    rewrite (execute_body_run py_repr config request runner _ cfg None _ Hcfg Hen).
    unfold Router._run_backend. rewrite (bind_run _ _ _ _ _ _ E). run_step. reflexivity.
  - split; [exact Hcalls|]. split; [|exact Hstate].
    unfold router_traces. rewrite !trace_count_after_end_span.
    rewrite Hretry, !Hother by done. subst w1.
    rewrite !trace_count_after_start_span. lia.
Qed.

Lemma execute_exhausted py_repr config request runner context cfg (errs : nat -> Exn) w :
  models config !! Router.route config request = Some cfg ->
  mb_enabled cfg = true ->
  0 < mb_timeout cfg ->
  (0 <= mb_max_retries cfg)%Z ->
  (forall i, (Z.of_nat i <= mb_max_retries cfg)%Z ->
     attempt_result cfg (runner (mb_name cfg) request (length (w_calls w) + i)%nat)
     = inl (errs i)) ->
  exists w',
    Router.execute py_repr config request runner context None w
    = (Raise (mkExn RouterError
                (exhausted_message cfg (Some (errs (Z.to_nat (mb_max_retries cfg)))))), w') /\
    router_calls cfg request (Z.to_nat (mb_max_retries cfg + 1)) w w' /\
    router_traces (Z.to_nat (mb_max_retries cfg + 1)) 1 0 w w' /\
    w_state w' = w_state w.
Proof.
  intros Hcfg Hen Ht Hr Hfail. unfold Router.execute. run_step.
  set (w1 := after_start_span "router.execute" context w).
  destruct (run_backend_loop_exhausted (Z.to_nat (mb_max_retries cfg + 1)) cfg runner
              request None errs w1 Ht)
    as (w2 & E & (Hcalls & Hretry & Hother & Hstate)).
  { intros i Hi. apply Hfail. lia. }
  replace (Z.to_nat (mb_max_retries cfg + 1)) with (S (Z.to_nat (mb_max_retries cfg)))
    in E at 2 by lia.
  eexists. split.
  - erewrite try_except_raise;
      [|rewrite (execute_body_run py_repr config request runner _ cfg None _ Hcfg Hen);
        unfold Router._run_backend; apply bind_raise; exact E
       |reflexivity].
    cbv beta. do 2 run_step. reflexivity.
  - split; [exact Hcalls|]. split; [|exact Hstate].
    unfold router_traces. rewrite !trace_count_after_end_span, !trace_count_after_trace.
    rewrite Hretry, !Hother by done. subst w1.
    rewrite !trace_count_after_start_span.
    rewrite bool_decide_eq_false_2 by done. rewrite bool_decide_eq_true_2 by done.
    rewrite bool_decide_eq_false_2 by done. lia.
Qed.

Lemma wait_for_cancelled {A} t (m : M A) dl w :
  (wait_for t m dl w).1 = Cancelled -> dl <> None.
Proof.
  unfold wait_for. case_bool_decide; [done|].
  destruct dl as [d|]; [done|]. cbn.
  by destruct (m (Some (w_now w + t)) w) as [[a|e|] w'].
Qed.

Lemma run_backend_loop_cancelled n cfg runner request last dl w :
  wp (Router.run_backend_loop n cfg runner request last) dl w
     (fun r _ => r = Cancelled -> dl <> None).
Proof.
  revert last w. induction n as [|n IH]; intros last w; [done|].
  cbn [Router.run_backend_loop]. apply wp_try_except, wp_intro.
  intros [a|e|] w' E.
  - done.
  - cbn [find_handler]. change (isinstance e Exception) with true. cbv iota beta.
    eapply wp_step; [apply emit_trace_run|]. apply IH.
  - intros _.
    apply (wait_for_cancelled (mb_timeout cfg)
             (Router.invoke_runner runner (mb_name cfg) request) dl w).
    by rewrite E.
Qed.

Lemma isinstance_NoModelAvailable e :
  isinstance e NoModelAvailable = true -> isinstance e RouterError = true.
Proof.
  unfold isinstance. destruct (exn_class e); cbn; try done.
Qed.

(** *** Slices of strings *)

Lemma substring_0_length (n : nat) (s : string) :
  (String.length (String.substring 0 n s) <= n)%nat.
Proof.
  revert s. induction n as [|n IH]; intros [|c s]; cbn; try lia.
  specialize (IH s). lia.
Qed.

Lemma substring_0_prefix (n : nat) (s : string) :
  String.prefix (String.substring 0 n s) s = true.
Proof.
  revert s. induction n as [|n IH]; intros [|c s]; cbn; try done.
  destruct (Ascii.ascii_dec c c); [apply IH|done].
Qed.

(** *** The weighted sum *)

Lemma sumQ_nil : sumQ [] = 0.
Proof. reflexivity. Qed.

Lemma sumQ_cons (x : Qc) (xs : list Qc) : sumQ (x :: xs) = x + sumQ xs.
Proof. reflexivity. Qed.

Lemma sumQ_permutation (xs ys : list Qc) : xs ≡ₚ ys -> sumQ xs = sumQ ys.
Proof.
  induction 1 as [|x xs ys _ IH|x y xs|xs ys zs _ IH1 _ IH2]; rewrite ?sumQ_cons.
  - done.
  - by rewrite IH.
  - ring.
  - congruence.
Qed.

Lemma weighted_total_sum weights critics :
  weighted_total weights critics
  = sumQ (map (contribution weights) (map_to_list critics)).
Proof.
  unfold weighted_total.
  assert (H : forall (l : list (string * Judgment)) a,
             fold_left (fun total '(name, out) =>
                          total + default 0 (weights !! name)
                                  * float (default (NFloat 0) (score out))) l a
             = a + sumQ (map (contribution weights) l)).
  { induction l as [|[name out] l IH]; intros a; cbn [fold_left map].
    - rewrite sumQ_nil. ring.
    - rewrite IH, sumQ_cons. unfold contribution at 2. cbn [fst snd]. ring. }
  rewrite H. ring.
Qed.

Lemma weighted_total_insert weights critics name out :
  critics !! name = None ->
  weighted_total weights (<[name := out]> critics)
  = contribution weights (name, out) + weighted_total weights critics.
Proof.
  intros Hfresh. rewrite !weighted_total_sum.
  rewrite (sumQ_permutation _ (map (contribution weights) ((name, out) :: map_to_list critics))).
  - done.
  - apply Permutation_map. by apply map_to_list_insert.
Qed.

Lemma sumQ_scale (k : Qc) (xs : list Qc) : sumQ (map (Qcmult k) xs) = k * sumQ xs.
Proof.
  induction xs as [|x xs IH]; cbn [map]; rewrite ?sumQ_cons, ?sumQ_nil.
  - ring.
  - rewrite IH. ring.
Qed.

Lemma lex_violations_nil critics :
  lex_violations critics = [] <->
  forall name out,
    name ∈ CriticFusion.RIGHTS_CRITICS -> critics !! name = Some out ->
    default false (violation out) = false.
Proof.
  split.
  - intros E name out Hr Hl. apply not_true_is_false. intros Hv.
    assert (Hin : name ∈ lex_violations critics).
    { apply lex_violations_elem. eauto. }
    rewrite E in Hin. by apply not_elem_of_nil in Hin.
  - intros Hnone. apply elem_of_nil_inv. intros name Hin.
    apply lex_violations_elem in Hin as (Hr & out & Hl & Hv).
    by rewrite (Hnone name out Hr Hl) in Hv.
Qed.

(** *** Order on the rationals *)

Lemma Qc_mult_nonneg (a b : Qc) : 0 <= a -> 0 <= b -> 0 <= a * b.
Proof.
  intros Ha Hb. replace 0 with (0 * b) by ring. by apply Qcmult_le_compat_r.
Qed.

Lemma Qc_opp_nonneg (a : Qc) : a <= 0 -> 0 <= - a.
Proof.
  intros H. apply Qcle_minus_iff in H. by replace (0 + - a) with (- a) in H by ring.
Qed.

Lemma Qc_square_nonneg (a : Qc) : 0 <= a * a.
Proof.
  destruct (Qclt_le_dec a 0) as [Hneg|Hpos].
  - replace (a * a) with ((- a) * (- a)) by ring.
    apply Qclt_le_weak, Qc_opp_nonneg in Hneg. by apply Qc_mult_nonneg.
  - by apply Qc_mult_nonneg.
Qed.

Lemma Qc_inv_nonneg (a : Qc) : 0 <= a -> 0 <= / a.
Proof.
  unfold Qcle, Qcinv. intros H. cbn [this Q2Qc] in *.
  rewrite !Qred_correct in *. by apply Qinv_le_0_compat.
Qed.

Lemma Qc_div_nonneg (a b : Qc) : 0 <= a -> 0 <= b -> 0 <= a / b.
Proof.
  intros Ha Hb. unfold Qcdiv. apply Qc_mult_nonneg; [done|by apply Qc_inv_nonneg].
Qed.

Lemma Qc_of_nat_nonneg (n : nat) : 0 <= Qc_of_Z (Z.of_nat n).
Proof.
  rewrite <- Z2Qc_inj_0. apply (proj1 (Z2Qc_inj_le 0 (Z.of_nat n))), Nat2Z.is_nonneg.
Qed.

Lemma sumQ_nonneg (xs : list Qc) : (forall x, x ∈ xs -> 0 <= x) -> 0 <= sumQ xs.
Proof.
  induction xs as [|x xs IH]; intros H.
  - rewrite sumQ_nil. apply Qcle_refl.
  - rewrite sumQ_cons. replace 0 with (0 + 0) by ring. apply Qcplus_le_compat.
    + apply H, list_elem_of_here.
    + apply IH. intros y Hy. by apply H, list_elem_of_further.
Qed.


(** *** Bounds of the uncertainty *)

Lemma squared_deviations_nonneg (xs : list Qc) (c : Qc) :
  forall y, y ∈ map (fun x => (x - c) * (x - c)) xs -> 0 <= y.
Proof.
  intros y Hy. apply list_elem_of_In, in_map_iff in Hy as (x & <- & _).
  apply Qc_square_nonneg.
Qed.

Lemma population_variance_nonneg (xs : list Qc) : 0 <= population_variance xs.
Proof.
  unfold population_variance. apply Qc_div_nonneg; [|apply Qc_of_nat_nonneg].
  apply sumQ_nonneg, squared_deviations_nonneg.
Qed.

Lemma dispersion_nonneg (critics : gmap string Judgment) : 0 <= dispersion_of critics.
Proof.
  unfold dispersion_of. case_bool_decide as Hlen; [|apply Qcle_refl].
  rewrite pvariance_population_variance.
  - apply population_variance_nonneg.
  - intros E. rewrite E in Hlen. cbn in Hlen. lia.
Qed.

Lemma raw_uncertainty_bounds (d m : Qc) :
  0 <= d ->
  0 <= raw_uncertainty d m /\ raw_uncertainty d m <= 1 /\
  (m < Q2Qc (3 # 10) -> Q2Qc (3 # 10) <= raw_uncertainty d m).
Proof.
  intros Hd. unfold raw_uncertainty.
  set (pen := if bool_decide (m < Q2Qc (3 # 10)) then Q2Qc (3 # 10) else 0).
  assert (Hscaled : 0 <= d * Q2Qc (25 # 10)).
  { apply Qc_mult_nonneg; [done|]. vm_compute. discriminate. }
  assert (Hpen : 0 <= pen).
  { unfold pen. case_bool_decide; [vm_compute; discriminate|apply Qcle_refl]. }
  assert (Hx : 0 <= d * Q2Qc (25 # 10) + pen).
  { replace 0 with (0 + 0) by ring. by apply Qcplus_le_compat. }
  destruct (min2_is_min_of 1 (d * Q2Qc (25 # 10) + pen)) as (H1 & _ & [E|E]).
  - rewrite E. split; [vm_compute; discriminate|]. split; [apply Qcle_refl|].
    intros _. vm_compute. discriminate.
  - split; [by rewrite E|]. split; [done|].
    intros Hm. rewrite E. unfold pen. rewrite bool_decide_eq_true_2 by done.
    rewrite <- (Qcplus_0_l (Q2Qc (3 # 10))) at 1.
    apply Qcplus_le_compat; [done|apply Qcle_refl].
Qed.

(** *** Agreement of the scores *)






(** *** What the deliberation leaves alone *)

Lemma untouched_refl w : untouched w w.
Proof. by split. Qed.

Lemma untouched_trans w1 w2 w3 : untouched w1 w2 -> untouched w2 w3 -> untouched w1 w3.
Proof. intros [] []. split; congruence. Qed.

Lemma runtime_events_after_emit event w :
  runtime_events (after_emit event w)
  = runtime_events w ++ (if is_telemetry event then [] else [event]).
Proof.
  unfold runtime_events, after_emit. cbn [w_emitted].
  rewrite filter_app. cbn [List.filter]. by destruct (is_telemetry event).
Qed.

Lemma untouched_after_emit event w :
  is_telemetry event = true -> untouched w (after_emit event w).
Proof.
  intros Ht. split; try done.
  rewrite runtime_events_after_emit, Ht. apply app_nil_r.
Qed.

Lemma untouched_after_start_span name context w :
  untouched w (after_start_span name context w).
Proof.
  unfold after_start_span.
  apply (untouched_trans _ (set_drawn (S (w_drawn w)) w)); [by split|].
  by apply untouched_after_emit.
Qed.

Lemma keeps_ret {A} (a : A) : keeps (ret a).
Proof. intros dl w. apply untouched_refl. Qed.

Lemma keeps_raise {A} (e : Exn) : keeps (raise e : M A).
Proof. intros dl w. apply untouched_refl. Qed.

Lemma keeps_bind {A B} (m : M A) (k : A -> M B) :
  keeps m -> (forall a, keeps (k a)) -> keeps (bind m k).
Proof.
  intros Hm Hk dl w. specialize (Hm dl w). unfold bind.
  destruct (m dl w) as [[a|e|] w1]; cbn [snd] in *; [|done|done].
  eapply untouched_trans; [exact Hm|apply Hk].
Qed.

Lemma keeps_try_except {A} (m : M A) hs :
  keeps m -> Forall (fun ch => forall e, keeps (ch.2 e)) hs -> keeps (try_except m hs).
Proof.
  intros Hm Hhs dl w. specialize (Hm dl w). unfold try_except.
  destruct (m dl w) as [[a|e|] w1]; cbn [snd] in *; [done| |done].
  destruct (find_handler e hs) as [h|] eqn:Hf; [|done].
  eapply untouched_trans; [exact Hm|].
  clear Hm. induction Hhs as [|[c h'] hs Hh _ IH]; [done|].
  cbn [find_handler] in Hf. destruct (isinstance e c).
  - injection Hf as <-. apply Hh.
  - by apply IH.
Qed.

Lemma keeps_wait_for {A} t (m : M A) : keeps m -> keeps (wait_for t m).
Proof.
  intros Hm dl w. unfold wait_for. case_bool_decide; [apply untouched_refl|].
  match goal with |- context [m ?d w] => specialize (Hm d w); destruct (m d w) as [[a|e|] w1] end;
    cbn [snd] in *; try done.
  by destruct (match dl with Some d => bool_decide (w_now w + t <= d) | None => true end).
Qed.

Lemma keeps_await_from {A} start (att : Attempt A) : keeps (await_from start att).
Proof.
  intros dl w. unfold await_from. destruct dl as [d|]; [case_bool_decide|]; by split.
Qed.

Lemma keeps_await {A} (att : Attempt A) : keeps (await att).
Proof. intros dl w. apply (keeps_await_from (w_now w) att dl w). Qed.

Lemma keeps_getitem py_repr d k : keeps (telemetry.getitem py_repr d k).
Proof. unfold telemetry.getitem. destruct (dict_get k d); [apply keeps_ret|apply keeps_raise]. Qed.

Lemma keeps_start_span name context : keeps (telemetry.start_span name context).
Proof. intros dl w. rewrite start_span_run. apply untouched_after_start_span. Qed.

Lemma keeps_end_span py_repr span result : keeps (telemetry.end_span py_repr span result).
Proof. intros dl w. rewrite end_span_run. by apply untouched_after_emit. Qed.

Lemma keeps_emit_trace message details : keeps (telemetry.emit_trace message details).
Proof. intros dl w. rewrite emit_trace_run. by apply untouched_after_emit. Qed.

Lemma keeps_emit_metric name value tags : keeps (telemetry.emit_metric name value tags).
Proof. intros dl w. rewrite emit_metric_run. by apply untouched_after_emit. Qed.

Ltac keeps_step :=
  lazymatch goal with
  | |- keeps (bind _ _) => apply keeps_bind; [|intros ?]
  | |- keeps (ret _) => apply keeps_ret
  | |- keeps (raise _) => apply keeps_raise
  | |- keeps (try_except _ _) =>
      apply keeps_try_except;
        [|repeat (apply Forall_cons; [intros ?; cbn [snd]|]); try apply Forall_nil]
  | |- keeps (wait_for _ _) => apply keeps_wait_for
  | |- keeps (await _) => apply keeps_await
  | |- keeps (await_from _ _) => apply keeps_await_from
  | |- keeps (telemetry.getitem _ _ _) => apply keeps_getitem
  | |- keeps (telemetry.start_span _ _) => apply keeps_start_span
  | |- keeps (telemetry.end_span _ _ _) => apply keeps_end_span
  | |- keeps (telemetry.emit_trace _ _) => apply keeps_emit_trace
  | |- keeps (telemetry.emit_metric _ _ _) => apply keeps_emit_metric
  end.

Lemma keeps_invoke_runner runner model_name request :
  keeps (Router.invoke_runner runner model_name request).
Proof.
  intros dl w. unfold Router.invoke_runner.
  pose proof (keeps_await (runner model_name request (length (w_calls w))) dl w) as H.
  destruct (await _ dl w) as [r w1]. cbn [snd] in *.
  eapply untouched_trans; [exact H|]. by split.
Qed.

Lemma keeps_run_backend_loop n cfg runner request last :
  keeps (Router.run_backend_loop n cfg runner request last).
Proof.
  revert last. induction n as [|n IH]; intros last; cbn [Router.run_backend_loop].
  - apply keeps_raise.
  - apply keeps_try_except.
    + apply keeps_wait_for, keeps_invoke_runner.
    + constructor; [|constructor]. intros e. cbn [snd].
      apply keeps_bind; [apply keeps_emit_trace|]. intros _. apply IH.
Qed.

Lemma keeps_execute py_repr config request runner context :
  keeps (Router.execute py_repr config request runner context).
Proof.
  unfold Router.execute. repeat keeps_step.
  - unfold Router.get_backend. destruct (models config !! _); keeps_step.
  - destruct (mb_enabled _); keeps_step.
  - apply keeps_run_backend_loop.
Qed.

Lemma keeps_fuse py_repr weights critics : keeps (CriticFusion.fuse py_repr weights critics).
Proof.
  unfold CriticFusion.fuse. keeps_step; [keeps_step|].
  match goal with |- context [match ?l with [] => _ | _ :: _ => _ end] => destruct l end;
    repeat keeps_step.
Qed.

Lemma keeps_compute threshold critics : keeps (UncertaintyEngine.compute threshold critics).
Proof.
  rewrite compute_unfold.
  destruct (UncertaintyEngine.py_min (confidences_of critics)); repeat keeps_step.
Qed.

Lemma keeps_fetch_relevant py_repr storage vector top_k :
  keeps (PrecedentEngine.fetch_relevant py_repr storage vector top_k).
Proof. unfold PrecedentEngine.fetch_relevant. repeat keeps_step. Qed.

Lemma keeps_decide py_repr self critics vector :
  keeps (ConsensusFusion.decide py_repr self critics vector).
Proof.
  unfold ConsensusFusion.decide. keeps_step; [keeps_step|].
  keeps_step; [apply keeps_fuse|]. keeps_step; [keeps_step|].
  destruct (truthy _); [repeat keeps_step|].
  keeps_step.
  { destruct (precedent self) as [storage|]; [|keeps_step].
    destruct vector; first [apply keeps_fetch_relevant|keeps_step]. }
  keeps_step; [apply keeps_compute|]. do 3 (keeps_step; [keeps_step|]).
  keeps_step; [destruct (truthy _); keeps_step|]. repeat keeps_step.
Qed.

Lemma keeps_await_tasks start tasks results :
  keeps (HybridCore.await_tasks start tasks results).
Proof.
  revert results. induction tasks as [|[name task] tasks IH]; intros results;
    cbn [HybridCore.await_tasks]; [apply keeps_ret|].
  apply keeps_bind; [repeat keeps_step|]. intros out. apply IH.
Qed.

Lemma keeps_evaluate_critics self request backend_response :
  keeps (HybridCore._evaluate_critics self request backend_response).
Proof.
  unfold HybridCore._evaluate_critics. apply keeps_bind.
  - intros dl w. apply untouched_refl.
  - intros start. apply keeps_await_tasks.
Qed.

Lemma keeps_apply_mode py_repr self fusion_out :
  keeps (HybridCore._apply_mode py_repr self fusion_out).
Proof.
  unfold HybridCore._apply_mode.
  destruct (_ && _); [keeps_step|]. destruct (advisory_only _); [keeps_step|].
  keeps_step; [keeps_step|]. destruct (_ && _); keeps_step.
Qed.

Lemma keeps_deliberate py_repr self request :
  keeps (HybridCore.deliberate py_repr self request).
Proof.
  unfold HybridCore.deliberate. keeps_step; [keeps_step|].
  apply keeps_try_except.
  - keeps_step; [apply keeps_execute|].
    keeps_step; [apply keeps_evaluate_critics|].
    keeps_step; [apply keeps_decide|].
    keeps_step; [apply keeps_apply_mode|]. repeat keeps_step.
  - repeat (apply Forall_cons; [intros ?; cbn [snd]; repeat keeps_step|]).
    apply Forall_nil.
Qed.

(** *** What the pipeline can end with *)

Lemma execute_wp py_repr config request runner context dl w :
  wp (Router.execute py_repr config request runner context) dl w
     (fun r _ => match r with
                 | Ok _ => True
                 | Raise e => isinstance e RouterError = true
                 | Cancelled => dl <> None
                 end).
Proof.
  unfold Router.execute. eapply wp_step; [apply start_span_run|].
  apply wp_try_except.
  eapply wp_mono with (Q := fun r _ => r = Cancelled -> dl <> None).
  - cbv zeta. apply wp_bind. unfold Router.get_backend.
    destruct (models config !! Router.route config request) as [cfg|]; [|done].
    apply wp_ret, wp_bind.
    destruct (mb_enabled cfg); [|done].
    apply wp_ret, wp_bind. unfold Router._run_backend.
    eapply wp_mono; [apply run_backend_loop_cancelled|].
    intros [response|e|] w'; [intros _|done|done].
    eapply wp_step; [apply end_span_run|]. done.
  - intros [response|e|] w' Hc; [done| |by apply Hc].
    cbn [find_handler].
    destruct (isinstance e NoModelAvailable) eqn:Hn.
    + eapply wp_step; [apply emit_trace_run|].
      eapply wp_step; [apply end_span_run|].
      by apply isinstance_NoModelAvailable.
    + change (isinstance e Exception) with true. cbv iota.
      eapply wp_step; [apply emit_trace_run|].
      eapply wp_step; [apply end_span_run|]. done.
Qed.

Lemma isinstance_RouterError_not_escalation e :
  isinstance e RouterError = true -> isinstance e EscalationRequired = false.
Proof. unfold isinstance. by destruct (exn_class e). Qed.

Lemma apply_mode_reject_wp py_repr self dl w :
  wp (HybridCore._apply_mode py_repr self reject_decision) dl w
     (fun r _ => body_post self dl r).
Proof.
  unfold HybridCore._apply_mode.
  change (truthy (default (VBool false) (dict_get "lex_block" reject_decision))) with true.
  cbn [andb]. destruct (enforce_lex (mode self)).
  { apply wp_ret. exists "reject". split; [reflexivity|by left]. }
  destruct (advisory_only (mode self)).
  { apply wp_ret. exists "advice". split; [reflexivity|by right; left]. }
  eapply wp_step; [by apply getitem_run|].
  change (py_eq (VStr "reject") (VStr "escalate")) with false. cbn [andb].
  apply wp_ret. exists "reject". split; [reflexivity|by left].
Qed.

Lemma apply_mode_fused_wp py_repr self fself critics m precedents dl w :
  wp (HybridCore._apply_mode py_repr self (fused_decision fself critics m precedents)) dl w
     (fun r _ => body_post self dl r).
Proof.
  unfold HybridCore._apply_mode.
  change (truthy (default (VBool false)
            (dict_get "lex_block" (fused_decision fself critics m precedents))))
    with false.
  cbn [andb]. destruct (advisory_only (mode self)) eqn:Hadv.
  { apply wp_ret. exists "advice". split; [reflexivity|by right; left]. }
  eapply wp_step; [by apply getitem_run|].
  destruct (bool_decide (uncertainty fself
                         <= raw_uncertainty (dispersion_of critics) m)) eqn:Hesc.
  - change (py_eq (VStr "escalate") (VStr "escalate")) with true. cbn [andb].
    destruct (auto_escalate (mode self)) eqn:Hauto.
    + apply wp_raise. by left.
    + apply wp_ret. exists "escalate". unfold fused_decision. rewrite Hesc.
      split; [reflexivity|]. do 3 right. by split.
  - change (py_eq (VStr "proceed") (VStr "escalate")) with false. cbn [andb].
    apply wp_ret. exists "proceed". unfold fused_decision. rewrite Hesc.
    split; [reflexivity|]. by right; right; left.
Qed.

Lemma deliberate_body_wp py_repr self request dl w :
  wp (backend_result <- Router.execute py_repr (router self) request
                          (backend_runner self) (Some (map_to_list request));;
      critics_out <- HybridCore._evaluate_critics self request backend_result;;
      let vector := default VNone (dict_get "embedding" backend_result) in
      fusion_out <- ConsensusFusion.decide py_repr (fusion self) critics_out vector;;
      decision <- HybridCore._apply_mode py_repr self fusion_out;;
      telemetry.end_span py_repr
        (mkSpan (w_uuids w (w_drawn w)) "hybrid.deliberate" (w_now w) (or_empty None))
        (VDict decision);;;
      ret decision) dl (after_start_span "hybrid.deliberate" None w)
     (fun r _ => body_post self dl r).
Proof.
  apply wp_bind. eapply wp_mono; [apply execute_wp|].
  intros [backend_result|e|] w1; cbn beta iota.
  2:{ intros He. right. by apply isinstance_RouterError_not_escalation. }
  2:{ done. }
  intros _. apply wp_bind. eapply wp_mono; [apply evaluate_critics_wp|].
  intros [critics_out|e|] w2; cbn beta iota; [intros _|done|done].
  cbv zeta. apply wp_bind. eapply wp_mono; [apply decide_wp|].
  intros [fusion_out|e|] w3; cbn beta iota.
  - intros [[_ ->]|(_ & m & precedents & _ & ->)].
    + apply wp_bind. eapply wp_mono; [apply apply_mode_reject_wp|].
      intros [decision|e|] w4; cbn beta iota; [|done|done].
      intros Hd. eapply wp_step; [apply end_span_run|]. exact Hd.
    + apply wp_bind. eapply wp_mono; [apply apply_mode_fused_wp|].
      intros [decision|e|] w4; cbn beta iota; [|done|done].
      intros Hd. eapply wp_step; [apply end_span_run|]. exact Hd.
  - intros (_ & _ & ->). by right.
  - by intros [? _].
Qed.

Lemma deliberate_wp py_repr self request dl w :
  wp (HybridCore.deliberate py_repr self request) dl w
     (fun r _ => deliberate_post self dl r).
Proof.
  unfold HybridCore.deliberate. eapply wp_step; [apply start_span_run|].
  apply wp_try_except. eapply wp_mono; [apply deliberate_body_wp|].
  intros [decision|e|] w1; cbn beta iota; [done| |done].
  intros [Hesc|Hother]; cbn [find_handler].
  - destruct Hesc as (-> & Hauto & Hadv).
    change (isinstance (mkExn EscalationRequired "Uncertainty threshold exceeded.")
              EscalationRequired) with true. cbv iota.
    eapply wp_step; [apply emit_trace_run|].
    eapply wp_step; [apply end_span_run|].
    apply wp_raise. by left.
  - rewrite Hother. change (isinstance e Exception) with true. cbv iota.
    eapply wp_step; [apply emit_trace_run|].
    eapply wp_step; [apply end_span_run|].
    apply wp_raise. by right.
Qed.

(** *** The decision timeout *)

Lemma wait_for_no_deadline {A} t (m : M A) w :
  exists d,
    match (wait_for t m None w).1 with
    | Ok a => (m (Some d) w).1 = Ok a
    | Raise e => e = mkExn TimeoutError "" \/ (m (Some d) w).1 = Raise e
    | Cancelled => False
    end.
Proof.
  exists (w_now w + t). unfold wait_for. case_bool_decide; [by left|].
  destruct (m (Some (w_now w + t)) w) as [[a|e|] w']; cbn; [done|by right|by left].
Qed.

Lemma runtime_events_untouched w w' :
  untouched w w' -> runtime_events w' = runtime_events w.
Proof. by intros []. Qed.

(** *** The runtime *)

Lemma runtime_events_set_state s w : runtime_events (set_state s w) = runtime_events w.
Proof. reflexivity. Qed.

Lemma runtime_events_set_drawn n w : runtime_events (set_drawn n w) = runtime_events w.
Proof. reflexivity. Qed.

Lemma runtime_events_after_fire hook_name context w :
  runtime_events (after_fire hook_name context w) = runtime_events w.
Proof. reflexivity. Qed.

Lemma runtime_events_after_runtime_event name payload w :
  String.prefix "telemetry." name = false ->
  map ev_name (runtime_events (after_emit (emitted_event name payload None w) w))
  = map ev_name (runtime_events w) ++ [name].
Proof.
  intros Hn. rewrite runtime_events_after_emit. unfold is_telemetry.
  cbn [ev_name emitted_event]. rewrite Hn. by rewrite map_app.
Qed.

Lemma runtime_events_after_telemetry event w :
  is_telemetry event = true -> runtime_events (after_emit event w) = runtime_events w.
Proof. intros Ht. rewrite runtime_events_after_emit, Ht. apply app_nil_r. Qed.

Lemma then_block_run {A C} (m : M A) (k : A -> Blocking C) dl w a w' :
  m dl w = (Ok a, w') -> then_block m k dl w = k a dl w'.
Proof. unfold then_block. by intros ->. Qed.

Lemma runtime_decide_run py_repr self request w :
  match EleanorRuntime.decide py_repr self request None w with
  | Returns r w' => (0 < semaphore self)%Z /\ accounted py_repr self request w r w'
  | Blocks w' => (semaphore self <= 0)%Z /\ waiting request w w'
  end.
Proof.
  unfold EleanorRuntime.decide.
  erewrite then_block_run.
  2:{ rewrite (bind_run _ _ _ _ _ _ (eq_refl : RuntimeState.new_request_id None w = _)).
      erewrite bind_run; [|reflexivity].
      do 3 run_step. reflexivity. }
  cbv beta iota.
  match goal with
  | |- context [async_with_semaphore _ ?m None ?w0] => set (core := m); set (w5 := w0)
  end.
  assert (Hactive : active_tasks (w_state w5) = active_tasks (w_state w)) by reflexivity.
  assert (Hcompleted : completed_tasks (w_state w5) = completed_tasks (w_state w))
    by reflexivity.
  assert (Hfailed : failed_tasks (w_state w5) = failed_tasks (w_state w)) by reflexivity.
  assert (Hlog : request_log (w_state w5)
                 = <[w_uuids w (w_drawn w) :=
                       [("payload", request_value request);
                        ("timestamp", VFloat (w_now w))]]>
                     (request_log (w_state w))) by reflexivity.
  assert (Hhooks : w_hooks w5 = w_hooks w) by reflexivity.
  assert (Hfired : w_fired w5 = w_fired w ++ fired_before request w) by reflexivity.
  assert (Hevents : map ev_name (runtime_events w5)
                    = map ev_name (runtime_events w) ++ ["runtime.request.received"]).
  { unfold w5.
    rewrite (runtime_events_untouched _ _ (untouched_after_start_span _ _ _)).
    rewrite runtime_events_after_fire.
    by rewrite runtime_events_after_runtime_event. }
  unfold async_with_semaphore. case_bool_decide as Hpermit; [|split; [lia|by split]].
  cut (wp core None w5 (accounted py_repr self request w)).
  { unfold wp. destruct (core None w5) as [r w']. by split. }
  unfold core.
  match goal with |- context [telemetry.end_span py_repr ?s _] => set (span := s) end.
  clearbody w5 span. clear core.
  apply wp_try_finally, wp_try_except.
  eapply wp_step; [reflexivity|].
  apply wp_bind, wp_intro. intros r w7 E.
  pose proof (keeps_wait_for (decision_timeout (config self)) _
                (keeps_deliberate py_repr (hybrid self) request) None
                (set_state (RuntimeState.increment_active (w_state w5)) w5)) as Hun.
  destruct (wait_for_no_deadline (decision_timeout (config self))
              (HybridCore.deliberate py_repr (hybrid self) request)
              (set_state (RuntimeState.increment_active (w_state w5)) w5)) as [d Hout].
  pose proof (deliberate_wp py_repr (hybrid self) request (Some d)
                (set_state (RuntimeState.increment_active (w_state w5)) w5)) as Hdel.
  unfold wp in Hdel. rewrite E in Hun, Hout. cbn [fst snd] in Hun, Hout.
  destruct Hun as [Hstate _ _ Hhooks7 Hfired7 Hev7].
  rewrite runtime_events_set_state in Hev7.
  cbn [w_state w_hooks w_fired set_state] in Hstate, Hhooks7, Hfired7.
  destruct r as [result|e|]; [| |done].
  - pose proof Hout as Hrun. rewrite Hout in Hdel. destruct Hdel as (action & Haction & _).
    eapply wp_step; [reflexivity|].
    eapply wp_step; [apply fire_run|].
    eapply wp_step; [apply emit_run|].
    eapply wp_step; [apply end_span_run|].
    apply wp_ret. exists "runtime.request.completed".
    cbn [w_state after_emit after_fire set_fired set_state RuntimeState.decrement_active
         RuntimeState.complete active_tasks completed_tasks failed_tasks request_log].
    rewrite Hstate.
    cbn [RuntimeState.increment_active active_tasks completed_tasks failed_tasks
         request_log].
    rewrite Hactive, Hcompleted, Hfailed, Hlog.
    split; [lia|]. split; [done|]. split; [|split].
    + rewrite runtime_events_set_state, runtime_events_after_telemetry by done.
      rewrite runtime_events_after_runtime_event by done.
      rewrite runtime_events_after_fire, runtime_events_set_state, Hev7, Hevents.
      by rewrite <- app_assoc.
    + cbn [w_hooks after_emit after_fire set_fired set_state]. by rewrite Hhooks7.
    + left. split; [done|]. split; [done|]. split; [done|].
      split; [by eexists _, _|]. split; [by exists action|].
      cbn [w_fired w_hooks after_emit after_fire set_fired set_state].
      by rewrite Hhooks7, Hfired7, Hhooks, Hfired, <- app_assoc.
  - assert (Hclass : e = mkExn EscalationRequired "Uncertainty threshold exceeded." \/
                     isinstance e EscalationRequired = false).
    { destruct Hout as [->|Hrun]; [by right|].
      rewrite Hrun in Hdel. destruct Hdel as [[-> _]|Hc]; [by left|right].
      unfold isinstance. by rewrite Hc. }
    cbn [find_handler]. destruct Hclass as [->|Hother].
    + assert (Hrun : exists dl0 w0,
                 (HybridCore.deliberate py_repr (hybrid self) request dl0 w0).1
                 = Raise (mkExn EscalationRequired "Uncertainty threshold exceeded.")).
      { destruct Hout as [Ht|Hrun]; [discriminate Ht|by eexists _, _]. }
      change (isinstance (mkExn EscalationRequired "Uncertainty threshold exceeded.")
                EscalationRequired) with true. cbv iota.
      eapply wp_step; [reflexivity|].
      eapply wp_step; [apply emit_trace_run|].
      eapply wp_step; [apply emit_run|].
      eapply wp_step; [apply end_span_run|].
      apply wp_ret. exists "runtime.request.escalation".
      cbn [w_state after_emit after_fire set_fired set_state RuntimeState.decrement_active
           RuntimeState.fail active_tasks completed_tasks failed_tasks request_log].
      rewrite Hstate.
      cbn [RuntimeState.increment_active active_tasks completed_tasks failed_tasks
           request_log].
      rewrite Hactive, Hcompleted, Hfailed, Hlog.
      split; [lia|]. split; [done|]. split; [|split].
      * rewrite runtime_events_set_state, runtime_events_after_telemetry by done.
        rewrite runtime_events_after_runtime_event by done.
        rewrite runtime_events_after_telemetry by done.
        rewrite runtime_events_set_state, Hev7, Hevents.
        by rewrite <- app_assoc.
      * cbn [w_hooks after_emit after_fire set_fired set_state]. by rewrite Hhooks7.
      * right. left. do 5 (split; [done|]).
        cbn [w_fired after_emit after_fire set_fired set_state]. by rewrite Hfired7, Hfired.
    + rewrite Hother. change (isinstance e Exception) with true. cbv iota.
      eapply wp_step; [reflexivity|].
      eapply wp_step; [apply emit_trace_run|].
      eapply wp_step; [apply emit_run|].
      eapply wp_step; [apply end_span_run|].
      apply wp_ret. exists "runtime.request.error".
      cbn [w_state after_emit after_fire set_fired set_state RuntimeState.decrement_active
           RuntimeState.fail active_tasks completed_tasks failed_tasks request_log].
      rewrite Hstate.
      cbn [RuntimeState.increment_active active_tasks completed_tasks failed_tasks
           request_log].
      rewrite Hactive, Hcompleted, Hfailed, Hlog.
      split; [lia|]. split; [done|]. split; [|split].
      * rewrite runtime_events_set_state, runtime_events_after_telemetry by done.
        rewrite runtime_events_after_runtime_event by done.
        rewrite runtime_events_after_telemetry by done.
        rewrite runtime_events_set_state, Hev7, Hevents.
        by rewrite <- app_assoc.
      * cbn [w_hooks after_emit after_fire set_fired set_state]. by rewrite Hhooks7.
      * right. right. split; [done|]. split; [done|]. split; [done|].
        exists e. split; [done|]. split.
        -- destruct Hout as [->|Hrun]; [by left|right; by eexists _, _].
        -- cbn [w_fired after_emit after_fire set_fired set_state]. by rewrite Hfired7, Hfired.
Qed.

(** *** A backend that always fails *)

Lemma never_returns_raise {A} (e : Exn) : never_returns (raise e : M A).
Proof. by intros dl w a. Qed.

Lemma never_returns_bind {A B} (m : M A) (k : A -> M B) :
  never_returns m -> never_returns (bind m k).
Proof.
  intros Hm dl w b. specialize (Hm dl w). unfold bind.
  destruct (m dl w) as [[a|e|] w1]; cbn [fst] in *; [by destruct (Hm a)|done|done].
Qed.

Lemma never_returns_bind_r {A B} (m : M A) (k : A -> M B) :
  (forall a, never_returns (k a)) -> never_returns (bind m k).
Proof.
  intros Hk dl w b. unfold bind.
  destruct (m dl w) as [[a|e|] w1]; cbn [fst]; [apply Hk|done|done].
Qed.

Lemma never_returns_try_except {A} (m : M A) hs :
  never_returns m -> Forall (fun ch => forall e, never_returns (ch.2 e)) hs ->
  never_returns (try_except m hs).
Proof.
  intros Hm Hhs dl w a. specialize (Hm dl w). unfold try_except.
  destruct (m dl w) as [[a'|e|] w1]; cbn [fst] in *; [by destruct (Hm a')| |done].
  destruct (find_handler e hs) as [h|] eqn:Hf; [|done].
  clear Hm. induction Hhs as [|[c h'] hs Hh _ IH]; [done|].
  cbn [find_handler] in Hf. destruct (isinstance e c).
  - injection Hf as <-. apply Hh.
  - by apply IH.
Qed.

Lemma never_returns_wait_for {A} t (m : M A) :
  never_returns m -> never_returns (wait_for t m).
Proof.
  intros Hm dl w a. unfold wait_for. case_bool_decide; [done|].
  match goal with
  | |- context [m ?d w] => specialize (Hm d w); destruct (m d w) as [[a'|e|] w1]
  end; cbn [fst] in *; [by destruct (Hm a')|done|].
  by destruct (match dl with Some d => bool_decide (w_now w + t <= d) | None => true end).
Qed.

Lemma never_returns_invoke_runner runner model_name request :
  always_fails runner -> never_returns (Router.invoke_runner runner model_name request).
Proof.
  intros Hf dl w a. unfold Router.invoke_runner, await, await_from.
  destruct (Hf model_name request (length (w_calls w))) as [e He].
  destruct dl as [d|]; [case_bool_decide|]; rewrite ?He; done.
Qed.

Lemma never_returns_run_backend_loop n cfg runner request last :
  always_fails runner -> never_returns (Router.run_backend_loop n cfg runner request last).
Proof.
  intros Hf. revert last. induction n as [|n IH]; intros last;
    cbn [Router.run_backend_loop]; [apply never_returns_raise|].
  apply never_returns_try_except.
  - by apply never_returns_wait_for, never_returns_invoke_runner.
  - apply Forall_cons; [|apply Forall_nil]. intros e. cbn [snd].
    apply never_returns_bind_r. intros _. apply IH.
Qed.

Lemma never_returns_execute py_repr config request runner context :
  always_fails runner ->
  never_returns (Router.execute py_repr config request runner context).
Proof.
  intros Hf. unfold Router.execute. apply never_returns_bind_r. intros span.
  apply never_returns_try_except.
  - cbv zeta. apply never_returns_bind_r. intros cfg.
    apply never_returns_bind_r. intros _.
    by apply never_returns_bind, never_returns_run_backend_loop.
  - repeat (apply Forall_cons;
            [intros e; cbn [snd]; do 2 (apply never_returns_bind_r; intros _);
             apply never_returns_raise|]).
    apply Forall_nil.
Qed.

Lemma deliberate_failing_wp py_repr self request dl w :
  always_fails (backend_runner self) ->
  wp (HybridCore.deliberate py_repr self request) dl w
     (fun r _ => match r with
                 | Ok _ => False
                 | Raise e => exn_class e = HybridCoreError
                 | Cancelled => dl <> None
                 end).
Proof.
  intros Hf. unfold HybridCore.deliberate. eapply wp_step; [apply start_span_run|].
  apply wp_try_except, wp_bind, wp_intro. intros r w1 E.
  pose proof (execute_wp py_repr (router self) request (backend_runner self)
                (Some (map_to_list request)) dl
                (after_start_span "hybrid.deliberate" None w)) as Hex.
  pose proof (never_returns_execute py_repr (router self) request (backend_runner self)
                (Some (map_to_list request)) Hf dl
                (after_start_span "hybrid.deliberate" None w)) as Hnever.
  unfold wp in Hex. rewrite E in Hex, Hnever. cbn [fst] in Hex, Hnever.
  destruct r as [a|e|]; [by destruct (Hnever a)| |done].
  cbn [find_handler]. rewrite (isinstance_RouterError_not_escalation e Hex).
  change (isinstance e Exception) with true. cbv iota.
  eapply wp_step; [apply emit_trace_run|].
  eapply wp_step; [apply end_span_run|].
  by apply wp_raise.
Qed.

Lemma decide_with_permit py_repr self request w :
  (0 < semaphore self)%Z ->
  exists r w',
    EleanorRuntime.decide py_repr self request None w = Returns r w' /\
    accounted py_repr self request w r w'.
Proof.
  intros Hpermit. pose proof (runtime_decide_run py_repr self request w) as H.
  destruct (EleanorRuntime.decide py_repr self request None w) as [r w'|w'].
  - exists r, w'. by destruct H.
  - destruct H as [H _]. lia.
Qed.

Lemma decide_without_permit py_repr self request w :
  (semaphore self <= 0)%Z ->
  exists w', EleanorRuntime.decide py_repr self request None w = Blocks w' /\
             waiting request w w'.
Proof.
  intros Hpermit. pose proof (runtime_decide_run py_repr self request w) as H.
  destruct (EleanorRuntime.decide py_repr self request None w) as [r w'|w'].
  - destruct H as [H _]. lia.
  - exists w'. by destruct H.
Qed.

Lemma decide_failing_run py_repr self request w :
  always_fails (backend_runner (hybrid self)) ->
  (0 < semaphore self)%Z ->
  exists message w',
    EleanorRuntime.decide py_repr self request None w
    = Returns (Ok [("action", VStr "error");
                   ("error", VStr message);
                   ("id", VStr (w_uuids w (w_drawn w)))]) w' /\
    failed_tasks (w_state w') = (failed_tasks (w_state w) + 1)%Z /\
    completed_tasks (w_state w') = completed_tasks (w_state w) /\
    map ev_name (runtime_events w')
    = map ev_name (runtime_events w)
      ++ ["runtime.request.received"; "runtime.request.error"].
Proof.
  intros Hf Hpermit.
  assert (Hdel : forall dl0 w0,
             match (HybridCore.deliberate py_repr (hybrid self) request dl0 w0).1 with
             | Ok _ => False
             | Raise e => exn_class e = HybridCoreError
             | Cancelled => dl0 <> None
             end).
  { intros dl0 w0. exact (deliberate_failing_wp py_repr (hybrid self) request dl0 w0 Hf). }
  destruct (decide_with_permit py_repr self request w Hpermit) as (r & w' & E & H).
  rewrite E. destruct r as [decision|e|]; [|done|done].
  destruct H as (terminal & _ & _ & Hev & _ & [H|[H|H]]).
  - destruct H as (_ & _ & _ & (dl0 & w0 & Hrun) & _).
    specialize (Hdel dl0 w0). by rewrite Hrun in Hdel.
  - destruct H as (_ & _ & _ & (dl0 & w0 & Hrun) & _).
    specialize (Hdel dl0 w0). rewrite Hrun in Hdel. discriminate Hdel.
  - destruct H as (-> & Hc & Hfl & e & -> & _).
    exists (exn_msg e), w'. split; [reflexivity|]. split; [exact Hfl|].
    split; [exact Hc|exact Hev].
Qed.

Lemma timeout_over_60 (t : Qc) : Q2Qc 60 < t -> 1 < t / Q2Qc 60.
Proof.
  intros Ht. replace 1 with (Q2Qc 60 / Q2Qc 60) by (apply Qc_is_canon; reflexivity).
  unfold Qcdiv. apply Qcmult_lt_compat_r; [reflexivity|exact Ht].
Qed.

(** *** The fan-out without a deadline *)

Lemma evaluate_critics_no_deadline self request backend_response w :
  exists w1,
    HybridCore._evaluate_critics self request backend_response None w
    = (Ok ((fun critic : Critic => recorded (critic request backend_response))
           <$> critics self), w1).
Proof.
  pose proof (evaluate_critics_wp self request backend_response None w) as H.
  unfold wp in H.
  destruct (HybridCore._evaluate_critics self request backend_response None w)
    as [[res|e|] w1]; cbn [fst] in H; [|done|done].
  exists w1. by rewrite H.
Qed.

Lemma elem_of_confidences_of (critics : gmap string Judgment) name out :
  critics !! name = Some out ->
  float (default (NFloat 0) (confidence out)) ∈ confidences_of critics.
Proof.
  intros Hl. unfold confidences_of. apply list_elem_of_In, in_map_iff. exists out.
  split; [done|]. apply in_map_iff. exists (name, out). split; [done|].
  by apply list_elem_of_In, elem_of_map_to_list.
Qed.

(** *** How long the fan-out takes *)

Lemma set_now_same w : set_now (w_now w) w = w.
Proof. by destruct w. Qed.

Lemma later_le_l (a b : Qc) : a <= later a b.
Proof.
  unfold later. case_bool_decide as H; [by apply Qclt_le_weak|apply Qcle_refl].
Qed.

Lemma later_le_r (a b : Qc) : b <= later a b.
Proof.
  unfold later. case_bool_decide as H; [apply Qcle_refl|by apply Qcnot_lt_le].
Qed.

Lemma later_cases (a b : Qc) : later a b = a \/ later a b = b.
Proof. unfold later. case_bool_decide; auto. Qed.

Lemma await_tasks_no_deadline start tasks results w :
  HybridCore.await_tasks start tasks results None w
  = (Ok (record_all tasks results), set_now (finish_time start tasks (w_now w)) w).
Proof.
  revert results w. induction tasks as [|[name task] tasks IH]; intros results w.
  - cbn. by rewrite set_now_same.
  - cbn [HybridCore.await_tasks record_all finish_time fold_left].
    unfold bind at 1. unfold try_except. rewrite await_from_no_deadline.
    fold (recorded task).
    assert (Hstep : forall out,
      HybridCore.await_tasks start tasks (<[name := out]> results) None
        (set_now (later (w_now w) (start + att_secs task)) w)
      = (Ok (record_all tasks (<[name := out]> results)),
         set_now (finish_time start tasks (later (w_now w) (start + att_secs task))) w)).
    { intros out. by rewrite IH. }
    unfold recorded. destruct (att_result task) as [exc|out]; cbn; apply Hstep.
Qed.

Lemma finish_time_bounds start tasks now :
  now <= finish_time start tasks now /\
  (forall name task, (name, task) ∈ tasks ->
                     start + att_secs task <= finish_time start tasks now) /\
  (finish_time start tasks now = now \/
   exists name task, (name, task) ∈ tasks /\
                     finish_time start tasks now = start + att_secs task).
Proof.
  revert now. induction tasks as [|[name task] tasks IH]; intros now.
  - split; [apply Qcle_refl|]. split; [|by left].
    intros n t Hin. by apply not_elem_of_nil in Hin.
  - cbn [finish_time fold_left].
    destruct (IH (later now (start + att_secs task))) as (Hle & Hall & Hone).
    fold (finish_time start tasks (later now (start + att_secs task))) in *.
    split; [|split].
    + eapply Qcle_trans; [apply later_le_l|exact Hle].
    + intros n t Hin. apply elem_of_cons in Hin as [[= -> ->]|Hin].
      * eapply Qcle_trans; [apply later_le_r|exact Hle].
      * by apply (Hall n t).
    + destruct Hone as [Heq|(n & t & Hin & Heq)].
      * destruct (later_cases now (start + att_secs task)) as [Hl|Hl].
        -- left. by rewrite Heq, Hl.
        -- right. exists name, task. split; [apply list_elem_of_here|].
           by rewrite Heq, Hl.
      * right. exists n, t. split; [by apply list_elem_of_further|done].
Qed.

(** *** The uncertainty engine over doubles *)













(** On the wary critics [Double.compute] returns 0.49999999999999994,
    the double below one half. *)
Lemma wary_critics_uncertainty :
  UncertaintyEngine.py_min (double_confidences_of wary_critics)
  = Some (Double.round64 (Q2Qc (1 # 10))) /\
  double_raw_uncertainty (double_dispersion_of wary_critics)
    (Double.round64 (Q2Qc (1 # 10)))
  = Q2Qc (9007199254740991 # 18014398509481984).
Proof.
  split; [vm_compute; reflexivity|].
  apply Qc_is_canon. vm_compute. reflexivity.
Qed.


(* ===================================================================== *)
(** ** Properties stated by the specification *)
(* ===================================================================== *)

(** C9. Event-bus listener isolation: [broadcast] invokes every listener
    registered for the event exactly once, in registration order and
    whatever any of them raises, and returns only after all invocations;
    [emit] never raises and returns the event it constructed, with the
    given name, payload and metadata. *)
Theorem emit_isolates_listeners :
  (forall event dl w,
     exists w',
       EventBus.broadcast event dl w = (Ok tt, w') /\
       w_delivered w' =
         w_delivered w ++ map (fun l => (l, event)) (listeners_of w (ev_name event))) /\
  (forall event_name payload metadata dl w,
     exists event w',
       EventBus.emit event_name payload metadata dl w = (Ok event, w') /\
       ev_name event = event_name /\
       ev_payload event = or_empty payload /\
       ev_metadata event = or_empty metadata /\
       w_emitted w' = w_emitted w ++ [event] /\
       w_delivered w' =
         w_delivered w ++ map (fun l => (l, event)) (listeners_of w event_name)).
Proof.
  split.
  - intros event dl w. rewrite broadcast_run. by eexists.
  - intros event_name payload metadata dl w. rewrite emit_run.
    by eexists _, _.
Qed.

(** C1. Lexicographic precedence: when a critic of the rights-critic set
    reports a violation, [fuse] returns [lex_block = True],
    [aggregate_score = 0.0] and a violations list that names it, whatever
    the other critics say; and under a mode with [enforce_lex] the mode gate
    applied to the consensus decision rejects with reason
    ["rights_violation"]. *)
Theorem lex_precedence py_repr (critics : gmap string Judgment) name out :
  name ∈ CriticFusion.RIGHTS_CRITICS ->
  critics !! name = Some out ->
  violation out = Some true ->
  (forall weights dl w,
     exists result violations w',
       CriticFusion.fuse py_repr weights critics dl w = (Ok result, w') /\
       dict_get "lex_block" result = Some (VBool true) /\
       dict_get "aggregate_score" result = Some (VFloat 0) /\
       dict_get "violations" result = Some (VList (map VStr violations)) /\
       name ∈ violations) /\
  (forall self vector dl w,
     enforce_lex (mode self) = true ->
     exists decision w',
       (fusion_out <- ConsensusFusion.decide py_repr (fusion self) critics vector;;
        HybridCore._apply_mode py_repr self fusion_out) dl w = (Ok decision, w') /\
       dict_get "action" decision = Some (VStr "reject") /\
       dict_get "reason" decision = Some (VStr "rights_violation")).
Proof.
  intros Hr Hl Hv.
  assert (Hin : name ∈ lex_violations critics).
  { apply lex_violations_elem. split; [done|]. exists out. by rewrite Hv. }
  assert (Hne : lex_violations critics <> []).
  { intros E. rewrite E in Hin. by apply not_elem_of_nil in Hin. }
  split.
  - intros weights dl w.
    destruct (fuse_lex_block py_repr weights critics dl w Hne) as (w' & E & _).
    exists (lex_block_result critics), (lex_violations critics), w'.
    by rewrite E.
  - intros self vector dl w Hmode.
    destruct (decide_lex_block py_repr (fusion self) critics vector dl w Hne)
      as (w' & E & _).
    rewrite (bind_run _ _ _ _ _ _ E).
    rewrite apply_mode_enforces_lex; [|done|done].
    by eexists _, _.
Qed.



(** C10. The empty judgments map is outside the domain of the uncertainty
    engine: [compute] raises on it (the minimum of an empty sequence), so
    [ConsensusFusion.decide] on an empty map, which cannot block
    lexicographically, never produces a decision; on every non-empty map
    [compute] returns. *)
Theorem empty_judgments_fail :
  (forall threshold dl w,
     UncertaintyEngine.compute threshold ∅ dl w
     = (Raise (mkExn ValueError "min() arg is an empty sequence"), w)) /\
  (forall py_repr self vector dl w,
     match (ConsensusFusion.decide py_repr self ∅ vector dl w).1 with
     | Ok _ => False
     | Raise e => e = mkExn ValueError "min() arg is an empty sequence"
     | Cancelled => dl <> None
     end) /\
  (forall threshold (critics : gmap string Judgment) dl w,
     critics <> ∅ ->
     exists out w', UncertaintyEngine.compute threshold critics dl w = (Ok out, w')).
Proof.
  split; [|split].
  - apply compute_empty.
  - intros py_repr self vector dl w.
    pose proof (decide_wp py_repr self ∅ vector dl w) as H. unfold wp in H.
    destruct (ConsensusFusion.decide py_repr self ∅ vector dl w).1 as [d|e|]; cbn in H.
    + destruct H as [[Hlex _]|(_ & m & ps & Hm & _)].
      * apply Hlex. unfold lex_violations. by rewrite map_to_list_empty.
      * unfold confidences_of in Hm. by rewrite map_to_list_empty in Hm.
    + by destruct H as (_ & _ & ->).
    + by destruct H.
  - intros threshold critics dl w Hne.
    destruct (compute_nonempty threshold critics dl w Hne) as (m & w' & _ & E & _).
    by eexists _, _.
Qed.

(** C5 (as amended). Scenario S2: when each of the five default critics
    returns [{score: 0.9, confidence: 0.9, violation: false}], the fused
    decision under the default weights and threshold has action ["proceed"],
    confidence 0.9 (the sum [0.0 * 0.9 + 4 * 0.25 * 0.9]), uncertainty 0, and
    the uncertainty engine reports [escalate = False]. *)
Theorem S2_all_agree py_repr storage dl w :
  (exists decision w',
     ConsensusFusion.decide py_repr (default_fusion storage) S2_critics VNone dl w
     = (Ok decision, w') /\
     dict_get "action" decision = Some (VStr "proceed") /\
     dict_get "confidence" decision = Some (VFloat (Q2Qc (9 # 10))) /\
     dict_get "uncertainty" decision = Some (VFloat 0)) /\
  (exists unc w',
     UncertaintyEngine.compute (UncertaintyEngine.init None) S2_critics dl w
     = (Ok unc, w') /\
     dict_get "uncertainty" unc = Some (VFloat 0) /\
     dict_get "escalate" unc = Some (VBool false)).
Proof.
  split.
  - destruct (S2_decide py_repr storage dl w) as (ps & w' & E).
    eexists _, w'. split; [exact E|]. repeat split; reflexivity.
  - destruct (S2_compute dl w) as (w' & E).
    eexists _, w'. split; [exact E|]. split; reflexivity.
Qed.

(** C5 as stated fails: the confidence of the S2 decision is 0.9, which is
    more than 0.2 away from 0.675. *)
Lemma S2_confidence_is_not_0675 :
  exists decision w',
    ConsensusFusion.decide sample_repr (default_fusion None) S2_critics VNone None boot
    = (Ok decision, w') /\
    dict_get "confidence" decision = Some (VFloat (Q2Qc (9 # 10))) /\
    Q2Qc (2 # 10) < Q2Qc (9 # 10) - Q2Qc (675 # 1000).
Proof.
  destruct (S2_decide sample_repr None None boot) as (ps & w' & E).
  eexists _, w'. split; [exact E|]. split; reflexivity.
Qed.

Lemma lex_precedence_witness :
  "rights" ∈ CriticFusion.RIGHTS_CRITICS /\
  S1_critics !! "rights" = Some S1_rights /\
  violation S1_rights = Some true /\
  exists decision w',
    (fusion_out <- ConsensusFusion.decide sample_repr
                     (fusion (sample_core S1_critics)) S1_critics VNone;;
     HybridCore._apply_mode sample_repr (sample_core S1_critics) fusion_out) None boot
    = (Ok decision, w') /\
    dict_get "action" decision = Some (VStr "reject") /\
    dict_get "reason" decision = Some (VStr "rights_violation").
Proof.
  assert (H1 : "rights" ∈ CriticFusion.RIGHTS_CRITICS) by (by apply elem_of_singleton).
  assert (H2 : S1_critics !! "rights" = Some S1_rights) by reflexivity.
  assert (H3 : violation S1_rights = Some true) by reflexivity.
  split; [exact H1|]. split; [exact H2|]. split; [exact H3|].
  apply (lex_precedence sample_repr S1_critics "rights" S1_rights H1 H2 H3).
  reflexivity.
Defined.


Lemma empty_judgments_fail_witness :
  S2_critics <> ∅ /\
  exists out w',
    UncertaintyEngine.compute (UncertaintyEngine.init None) S2_critics None boot
    = (Ok out, w').
Proof.
  assert (H : S2_critics <> ∅).
  { intros E. apply (f_equal (fun m => m !! "rights")) in E. vm_compute in E. discriminate E. }
  split; [exact H|].
  destruct empty_judgments_fail as (_ & _ & Hok).
  apply (Hok (UncertaintyEngine.init None) S2_critics None boot H).
Defined.

(** C7 (as amended). Routing rule selection, for rules whose conditions
    expect no [None]: a rule matches exactly when its condition map is a
    non-empty subset of the request under equality of all its keys; the
    router selects the model of the first such rule in declared order when
    that model is a non-empty name; a rule with an empty or missing condition
    map never matches; and the default model is used when no rule matches or
    when the first matching rule names no model. *)
Theorem routing_rule_selection config request :
  Forall expects_values (routing_rules config) ->
  (forall rule,
     rule ∈ routing_rules config ->
     router_rules.rule_matches rule request = true <-> rule_applies rule request) /\
  (forall before rule after,
     routing_rules config = before ++ rule :: after ->
     (forall r, r ∈ before -> ~ rule_applies r request) ->
     rule_applies rule request ->
     Router.route config request = selected_model config rule) /\
  ((forall r, r ∈ routing_rules config -> ~ rule_applies r request) ->
   Router.route config request = default_model config) /\
  (forall rule,
     rule_if rule = None \/ rule_if rule = Some ∅ ->
     router_rules.rule_matches rule request = false).
Proof.
  intros Hv. rewrite list.Forall_forall in Hv.
  assert (Hno : forall r, r ∈ routing_rules config -> ~ rule_applies r request ->
                          router_rules.rule_matches r request = false).
  { intros r Hr Hn. apply not_true_is_false. intros Hm. apply Hn.
    exact (proj1 (rule_matches_applies r request (Hv r Hr)) Hm). }
  split; [|split; [|split]].
  - intros rule Hr. exact (rule_matches_applies rule request (Hv rule Hr)).
  - intros before rule after E Hb Ha. unfold Router.route, selected_model. rewrite E.
    rewrite evaluate_rules_first.
    + destruct (rule_use_model rule) as [model|]; [|done].
      by rewrite <- decide_bool_decide.
    + intros r Hr. apply Hno; [|by apply Hb].
      rewrite E. apply elem_of_app. by left.
    + assert (Hin : rule ∈ routing_rules config).
      { rewrite E. apply elem_of_app. right. apply list_elem_of_here. }
      exact (proj2 (rule_matches_applies rule request (Hv rule Hin)) Ha).
  - intros Hn. unfold Router.route. rewrite evaluate_rules_none; [done|].
    intros r Hr. apply Hno; [done|]. by apply Hn.
  - intros rule. apply rule_matches_empty.
Qed.

(** C7 as stated fails twice: a first matching rule whose model name is
    empty does not decide (the default is used), and a rule that expects
    [None] matches a request that lacks the key, so that its condition map is
    not a subset of the request. *)
Lemma routing_counterexample :
  (router_rules.rule_matches rule_without_model {["task" := VStr "summarize"]} = true /\
   rule_use_model rule_without_model = Some "" /\
   Router.route (mkRouterConfig "local" ∅ [rule_without_model])
                {["task" := VStr "summarize"]} = "local") /\
  ((∅ : Request) !! "lang" = None /\
   router_rules.rule_matches rule_expecting_none ∅ = true /\
   Router.route (mkRouterConfig "local" ∅ [rule_expecting_none]) ∅ = "special").
Proof. repeat split; reflexivity. Qed.

Lemma routing_rule_selection_witness :
  Forall expects_values
    (routing_rules (mkRouterConfig "local" ∅ [rule_without_model])) /\
  Router.route (mkRouterConfig "local" ∅ [rule_without_model])
               {["task" := VStr "summarize"]}
  = selected_model (mkRouterConfig "local" ∅ [rule_without_model]) rule_without_model.
Proof.
  assert (H : Forall expects_values
                (routing_rules (mkRouterConfig "local" ∅ [rule_without_model]))).
  { constructor; [|constructor].
    intros cond key value [= <-] Hl.
    apply lookup_singleton_Some in Hl as [_ <-]. discriminate. }
  split; [exact H|].
  destruct (routing_rule_selection (mkRouterConfig "local" ∅ [rule_without_model])
              {["task" := VStr "summarize"]} H) as (_ & Hfirst & _).
  apply (Hfirst [] rule_without_model []); [reflexivity| |].
  - intros r Hr. by apply not_elem_of_nil in Hr.
  - exists {["task" := VStr "summarize"]}. split; [reflexivity|]. split.
    + apply insert_non_empty.
    + intros key value Hl. apply lookup_singleton_Some in Hl as [<- <-].
      exists (VStr "summarize"). split; reflexivity.
Defined.

(* ===================================================================== *)
(** ** Further properties of the code *)
(* ===================================================================== *)

(** X1. Retry until success (router.py, [Router.execute] and
    [_run_backend]): when the routed backend is enabled and the runner fails
    [k <= max_retries] times and then answers within the timeout, [execute]
    returns that answer; the runner was invoked [k + 1] times, each time with
    the backend's name and the unchanged request and for at most the timeout;
    ["router.backend_retry"] was traced [k] times, ["router.error"] and
    ["router.no_model_available"] never. *)
Theorem retry_until_success py_repr config request runner context cfg k response w :
  models config !! Router.route config request = Some cfg ->
  mb_enabled cfg = true ->
  0 < mb_timeout cfg ->
  (Z.of_nat k <= mb_max_retries cfg)%Z ->
  (forall i, (i < k)%nat ->
     exists e,
       attempt_result cfg (runner (mb_name cfg) request (length (w_calls w) + i)%nat)
       = inl e) ->
  attempt_result cfg (runner (mb_name cfg) request (length (w_calls w) + k)%nat)
  = inr response ->
  exists w',
    Router.execute py_repr config request runner context None w = (Ok response, w') /\
    router_calls cfg request (S k) w w' /\
    router_traces k 0 0 w w'.
Proof.
  intros Hcfg Hen Ht Hk Hfail Hok.
  destruct (execute_succeeds py_repr config request runner context cfg k response w
              Hcfg Hen Ht Hk Hfail Hok) as (w' & E & Hcalls & Htraces & _).
  by exists w'.
Qed.

Lemma retry_until_success_witness :
  exists w',
    Router.execute sample_repr S5_router ∅ S5_runner None None boot
    = (Ok S5_response, w') /\
    router_calls S5_backend ∅ 3 boot w' /\
    router_traces 2 0 0 boot w'.
Proof.
  apply (retry_until_success sample_repr S5_router ∅ S5_runner None S5_backend 2
           S5_response boot).
  - reflexivity.
  - reflexivity.
  - reflexivity.
  - cbn. lia.
  - intros i Hi. exists (mkExn Exception "connection reset").
    destruct i as [|[|i]]; [reflexivity|reflexivity|lia].
  - reflexivity.
Defined.

(** X2. Retries exhausted (router.py, [Router.execute] and [_run_backend]):
    when every one of the [max_retries + 1] attempts fails, [execute] raises
    a [RouterError] whose text names the backend, [max_retries] and the last
    failure; the runner was invoked [max_retries + 1] times;
    ["router.backend_retry"] was traced after every failed attempt, the last
    one included, and ["router.error"] once. *)
Theorem retries_exhausted py_repr config request runner context cfg (errs : nat -> Exn) w :
  models config !! Router.route config request = Some cfg ->
  mb_enabled cfg = true ->
  0 < mb_timeout cfg ->
  (0 <= mb_max_retries cfg)%Z ->
  (forall i, (Z.of_nat i <= mb_max_retries cfg)%Z ->
     attempt_result cfg (runner (mb_name cfg) request (length (w_calls w) + i)%nat)
     = inl (errs i)) ->
  exists w',
    Router.execute py_repr config request runner context None w
    = (Raise (mkExn RouterError
                ("Backend '" +:+ mb_name cfg +:+ "' failed after " +:+
                 pretty (mb_max_retries cfg) +:+ " retries: " +:+
                 exn_msg (errs (Z.to_nat (mb_max_retries cfg))))), w') /\
    router_calls cfg request (Z.to_nat (mb_max_retries cfg + 1)) w w' /\
    router_traces (Z.to_nat (mb_max_retries cfg + 1)) 1 0 w w'.
Proof.
  intros Hcfg Hen Ht Hr Hfail.
  destruct (execute_exhausted py_repr config request runner context cfg errs w
              Hcfg Hen Ht Hr Hfail) as (w' & E & Hcalls & Htraces & _).
  by exists w'.
Qed.

Lemma retries_exhausted_witness :
  exists w',
    Router.execute sample_repr sample_router ∅ HybridCore._backend_runner None None boot
    = (Raise (mkExn RouterError
                "Backend 'local' failed after 1 retries: Attach your backend LLM driver here."),
       w') /\
    router_calls sample_backend ∅ 2 boot w' /\
    router_traces 2 1 0 boot w'.
Proof.
  apply (retries_exhausted sample_repr sample_router ∅ HybridCore._backend_runner None
           sample_backend
           (fun _ => mkExn NotImplementedError "Attach your backend LLM driver here.") boot).
  - reflexivity.
  - reflexivity.
  - reflexivity.
  - cbn. lia.
  - intros i Hi. reflexivity.
Defined.

(** X3. A negative retry count (router.py, [Router._run_backend]): the loop
    over [range(max_retries + 1)] is then empty, so the runner is never
    invoked and nothing is traced, and the [RouterError] reports the cause
    ["None"]. *)
Theorem negative_retries_never_invoke cfg runner request dl w :
  (mb_max_retries cfg < 0)%Z ->
  Router._run_backend cfg runner request dl w
  = (Raise (mkExn RouterError
              ("Backend '" +:+ mb_name cfg +:+ "' failed after " +:+
               pretty (mb_max_retries cfg) +:+ " retries: None")), w).
Proof.
  intros Hneg. unfold Router._run_backend.
  by replace (Z.to_nat (mb_max_retries cfg + 1)) with 0%nat by lia.
Qed.

Lemma negative_retries_never_invoke_witness :
  Router._run_backend negative_backend S5_runner ∅ None boot
  = (Raise (mkExn RouterError "Backend 'local' failed after -1 retries: None"), boot).
Proof.
  apply (negative_retries_never_invoke negative_backend S5_runner ∅ None boot).
  cbn. lia.
Defined.

(** X4. A disabled backend is not retried (router.py, [Router.execute]):
    when the routed backend is disabled, [execute] raises [NoModelAvailable]
    naming the model, under every deadline; the runner is never invoked,
    ["router.no_model_available"] is traced once and neither
    ["router.error"] nor ["router.backend_retry"] is traced. *)
Theorem disabled_backend_not_retried py_repr config request runner context cfg dl w :
  models config !! Router.route config request = Some cfg ->
  mb_enabled cfg = false ->
  exists w',
    Router.execute py_repr config request runner context dl w
    = (Raise (mkExn NoModelAvailable
                ("Model '" +:+ Router.route config request +:+ "' is disabled")), w') /\
    w_calls w' = w_calls w /\
    router_traces 0 0 1 w w'.
Proof.
  intros Hcfg Hen. unfold Router.execute. run_step.
  erewrite try_except_raise;
    [|cbv zeta; unfold Router.get_backend; rewrite Hcfg, bind_ret, Hen;
      apply bind_raise; reflexivity
     |reflexivity].
  cbv beta. do 2 run_step. eexists. split; [reflexivity|]. split; [reflexivity|].
  unfold router_traces.
  rewrite !trace_count_after_end_span, !trace_count_after_trace,
    !trace_count_after_start_span.
  rewrite !bool_decide_eq_false_2 by done. rewrite bool_decide_eq_true_2 by done. lia.
Qed.

Lemma disabled_backend_not_retried_witness :
  exists w',
    Router.execute sample_repr disabled_router ∅ S5_runner None None boot
    = (Raise (mkExn NoModelAvailable "Model 'local' is disabled"), w') /\
    w_calls w' = w_calls boot /\
    router_traces 0 0 1 boot w'.
Proof.
  apply (disabled_backend_not_retried sample_repr disabled_router ∅ S5_runner None
           disabled_backend None boot); reflexivity.
Defined.

(** X5. An unknown backend (router.py, [Router.execute];
    router_config.py, [RouterConfig.get_backend]): when the routed model has
    no backend configuration, the [KeyError] of [get_backend] leaves
    [execute] as a [RouterError] with the same text, under every deadline;
    the runner is never invoked and ["router.error"] is traced once. *)
Theorem unknown_backend_is_router_error py_repr config request runner context dl w :
  models config !! Router.route config request = None ->
  exists w',
    Router.execute py_repr config request runner context dl w
    = (Raise (mkExn RouterError
                (py_repr (VStr ("Unknown model backend: "
                                +:+ Router.route config request)))), w') /\
    w_calls w' = w_calls w /\
    router_traces 0 1 0 w w'.
Proof.
  intros Hcfg. unfold Router.execute. run_step.
  erewrite try_except_raise;
    [|cbv zeta; unfold Router.get_backend; rewrite Hcfg; apply bind_raise; reflexivity
     |reflexivity].
  cbv beta. do 2 run_step. eexists. split; [reflexivity|]. split; [reflexivity|].
  unfold router_traces.
  rewrite !trace_count_after_end_span, !trace_count_after_trace,
    !trace_count_after_start_span.
  rewrite bool_decide_eq_false_2 by done. rewrite bool_decide_eq_true_2 by done.
  rewrite bool_decide_eq_false_2 by done. lia.
Qed.

Lemma unknown_backend_is_router_error_witness :
  exists w',
    Router.execute sample_repr dangling_router ∅ S5_runner None None boot
    = (Raise (mkExn RouterError "'Unknown model backend: remote'"), w') /\
    w_calls w' = w_calls boot /\
    router_traces 0 1 0 boot w'.
Proof.
  apply (unknown_backend_is_router_error sample_repr dangling_router ∅ S5_runner None
           None boot).
  reflexivity.
Defined.

(** X6. What [execute] can raise (router.py, [Router.execute]): whatever
    the configuration, the runner and the deadline, an exception that leaves
    [execute] is an instance of [RouterError], and [execute] is cancelled
    only under a deadline. *)
Theorem execute_raises_router_errors_only py_repr config request runner context dl w :
  match (Router.execute py_repr config request runner context dl w).1 with
  | Ok _ => True
  | Raise e => isinstance e RouterError = true
  | Cancelled => dl <> None
  end.
Proof. exact (execute_wp py_repr config request runner context dl w). Qed.

(** X7. How a rule reads the request (router_rules.py, [rule_matches]):
    a rule matches exactly when its condition map is present and not empty
    and [request.get(key) == value] for each of its items; a key that the
    request lacks reads as [None], so a condition that expects [None] is
    satisfied by a request without the key. *)
Theorem rule_matches_reads_missing_as_none :
  (forall rule request,
     router_rules.rule_matches rule request = true <->
     exists cond,
       rule_if rule = Some cond /\ cond <> ∅ /\
       forall key value,
         cond !! key = Some value -> py_eq (request_get request key) value = true) /\
  (forall key model (request : Request),
     request !! key = None ->
     router_rules.rule_matches (mkRule (Some {[key := VNone]}) model) request = true).
Proof.
  split; [apply rule_matches_spec|].
  intros key model request Hmiss. apply rule_matches_spec.
  exists {[key := VNone]}. split; [done|]. split; [apply insert_non_empty|].
  intros k v Hl. apply lookup_singleton_Some in Hl as [<- <-].
  unfold request_get. by rewrite Hmiss.
Qed.

(** X8. The first matching rule shadows the later ones (router.py,
    [Router.route]; router_rules.py, [evaluate_rules]): [route] stops at the
    first rule that matches, whatever follows it; when that rule names no
    model, or the empty name, the default model is used and no later rule
    is consulted.  In every case [route] returns the default model or the
    model of a matching rule. *)
Theorem first_match_shadows_later_rules config request before rule after :
  routing_rules config = before ++ rule :: after ->
  (forall r, r ∈ before -> router_rules.rule_matches r request = false) ->
  router_rules.rule_matches rule request = true ->
  Router.route config request
  = match rule_use_model rule with
    | Some model => if decide (model = "") then default_model config else model
    | None => default_model config
    end /\
  (Router.route config request = default_model config \/
   exists r, r ∈ routing_rules config /\
             router_rules.rule_matches r request = true /\
             rule_use_model r = Some (Router.route config request)).
Proof.
  intros E Hbefore Hrule.
  assert (Hroute : Router.route config request
                   = match rule_use_model rule with
                     | Some model => if decide (model = "") then default_model config else model
                     | None => default_model config
                     end).
  { unfold Router.route. rewrite E, (evaluate_rules_first before rule after request) by done.
    destruct (rule_use_model rule) as [model|]; [|done].
    by rewrite <- decide_bool_decide. }
  split; [exact Hroute|].
  destruct (rule_use_model rule) as [model|] eqn:Hm; [|by left].
  destruct (decide (model = "")) as [->|Hne]; [by left|].
  right. exists rule. split; [|split; [done|by rewrite Hroute]].
  rewrite E. apply elem_of_app. right. apply list_elem_of_here.
Qed.

Lemma first_match_shadows_later_rules_witness :
  Router.route (mkRouterConfig "local" ∅ [rule_without_model; rule_expecting_none])
               {["task" := VStr "summarize"]} = "local" /\
  router_rules.rule_matches rule_expecting_none {["task" := VStr "summarize"]} = true.
Proof.
  split; [|reflexivity].
  apply (first_match_shadows_later_rules
           (mkRouterConfig "local" ∅ [rule_without_model; rule_expecting_none])
           {["task" := VStr "summarize"]} [] rule_without_model [rule_expecting_none]).
  - reflexivity.
  - intros r Hr. by apply not_elem_of_nil in Hr.
  - reflexivity.
Defined.

(** X9. Registering a hook (hooks.py, [HookManager.register]): under a
    name that is not a hook point the call raises [ValueError] and changes
    nothing; under a hook point it appends the hook after those already
    registered and leaves the other hook points alone; in both cases the set
    of hook points stays the same. *)
Theorem register_appends_or_fails hook_name fn dl w :
  (w_hooks w !! hook_name = None ->
   HookManager.register hook_name fn dl w
   = (Raise (mkExn ValueError ("Unknown hook: " +:+ hook_name)), w)) /\
  (forall hooks,
     w_hooks w !! hook_name = Some hooks ->
     exists w',
       HookManager.register hook_name fn dl w = (Ok tt, w') /\
       w_hooks w' !! hook_name = Some (hooks ++ [fn]) /\
       (forall other, other <> hook_name -> w_hooks w' !! other = w_hooks w !! other)) /\
  dom (w_hooks (HookManager.register hook_name fn dl w).2) = dom (w_hooks w).
Proof.
  unfold HookManager.register, bind, get_world.
  destruct (w_hooks w !! hook_name) as [hooks|] eqn:E.
  - split; [done|]. split.
    + intros hooks' [= <-]. eexists. split; [reflexivity|].
      cbn [modify set_hooks w_hooks]. split; [apply lookup_insert_eq|].
      intros other Hne. by apply lookup_insert_ne.
    + cbn [modify set_hooks w_hooks snd]. apply dom_insert_lookup_L. by rewrite E.
  - split; [done|]. split; [done|]. done.
Qed.

Lemma register_appends_or_fails_witness :
  HookManager.register "on_startup" quiet_hook None boot
  = (Raise (mkExn ValueError "Unknown hook: on_startup"), boot) /\
  exists w',
    HookManager.register "before_router" quiet_hook None boot = (Ok tt, w') /\
    w_hooks w' !! "before_router" = Some ([] ++ [quiet_hook]).
Proof.
  split.
  - apply (register_appends_or_fails "on_startup" quiet_hook None boot). reflexivity.
  - destruct (register_appends_or_fails "before_router" quiet_hook None boot)
      as (_ & Hknown & _).
    destruct (Hknown [] eq_refl) as (w' & E & Hl & _).
    by exists w'.
Defined.

(** X10. Firing hooks (hooks.py, [HookManager.fire] and [_safe]): [fire]
    never raises; it invokes every hook registered under the name exactly
    once, in registration order and on the given context, whatever any of
    them raises; nothing else changes, and a name without hooks, known or
    not, is a no-op. *)
Theorem fire_isolates_hooks hook_name context dl w :
  exists w',
    HookManager.fire hook_name context dl w = (Ok tt, w') /\
    w_fired w' = w_fired w ++ map (fun fn => (fn, context))
                                  (default [] (w_hooks w !! hook_name)) /\
    set_fired (w_fired w) w' = w /\
    (default [] (w_hooks w !! hook_name) = [] -> w' = w).
Proof.
  rewrite fire_run. eexists. split; [reflexivity|]. split; [reflexivity|].
  unfold after_fire. split.
  - by destruct w.
  - intros ->. cbn [map]. rewrite app_nil_r. by destruct w.
Qed.

(** X11. Subscribing (events.py, [EventBus.subscribe] and [emit]): a
    listener subscribed to an event name receives the next event of that
    name after the listeners subscribed before it, and the listeners of the
    other names are not affected. *)
Theorem subscribe_then_emit event_name listener payload metadata dl w :
  exists event w',
    (EventBus.subscribe event_name listener;;;
     EventBus.emit event_name payload metadata) dl w = (Ok event, w') /\
    ev_name event = event_name /\
    w_delivered w' =
      w_delivered w
      ++ map (fun l => (l, event)) (listeners_of w event_name ++ [listener]) /\
    (forall other, other <> event_name -> listeners_of w' other = listeners_of w other).
Proof.
  unfold bind at 1. unfold EventBus.subscribe at 1, modify. rewrite emit_run.
  eexists _, _. split; [reflexivity|]. split; [reflexivity|]. split.
  - cbn [after_emit w_delivered set_listeners emitted_event ev_name].
    unfold listeners_of at 1. cbn [w_listeners set_listeners].
    by rewrite lookup_insert_eq.
  - intros other Hne. unfold listeners_of. cbn [after_emit w_listeners set_listeners].
    by rewrite lookup_insert_ne.
Qed.

(** X12. Closing a span (telemetry.py, [end_span]): [end_span] emits one
    ["telemetry.span.end"] event whose duration is the time since the span
    started and whose [result_summary] is [None] for a falsy result and
    otherwise the first 500 characters at most of [str(result)]. *)
Theorem end_span_summary py_repr span result dl w :
  exists event,
    telemetry.end_span py_repr span result dl w = (Ok tt, after_emit event w) /\
    ev_name event = "telemetry.span.end" /\
    dict_get "span_id" (ev_payload event) = Some (VStr (span_id span)) /\
    dict_get "duration" (ev_payload event) = Some (VFloat (w_now w - span_start span)) /\
    match dict_get "result_summary" (ev_payload event) with
    | Some VNone => truthy result = false
    | Some (VStr summary) =>
        truthy result = true /\
        (String.length summary <= 500)%nat /\
        String.prefix summary (telemetry.py_str py_repr result) = true
    | _ => False
    end.
Proof.
  rewrite end_span_run. eexists. split; [reflexivity|].
  split; [reflexivity|]. split; [reflexivity|]. split; [reflexivity|].
  cbn [span_end_event emitted_event ev_payload or_empty default].
  change (dict_get "result_summary" _) with
    (Some (if truthy result
           then VStr (String.substring 0 500 (telemetry.py_str py_repr result))
           else VNone)).
  destruct (truthy result); [|done].
  split; [done|]. split; [apply substring_0_length|apply substring_0_prefix].
Qed.

(** X13. Only the rights critics block (critic_fusion.py,
    [CriticFusion.fuse]): when no critic of the rights set reports a
    violation, [fuse] returns [lex_block = False], an empty violations list
    and the weighted sum of the scores as [aggregate_score], whatever
    violations the other critics report. *)
Theorem other_violations_do_not_block py_repr weights (critics : gmap string Judgment) dl w :
  (forall name out,
     name ∈ CriticFusion.RIGHTS_CRITICS -> critics !! name = Some out ->
     default false (violation out) = false) ->
  exists result w',
    CriticFusion.fuse py_repr weights critics dl w = (Ok result, w') /\
    dict_get "lex_block" result = Some (VBool false) /\
    dict_get "violations" result = Some (VList []) /\
    dict_get "aggregate_score" result
    = Some (VFloat (sumQ (map (contribution weights) (map_to_list critics)))) /\
    dict_get "details" result = Some (VDict [("critic_outputs", critics_value critics)]).
Proof.
  intros Hnone. apply lex_violations_nil in Hnone.
  destruct (fuse_weighted py_repr weights critics dl w Hnone) as (w' & E & _).
  exists (weighted_result weights critics), w'.
  split; [exact E|]. split; [reflexivity|]. split; [reflexivity|].
  split; [|reflexivity]. unfold weighted_result. cbn [dict_get].
  by rewrite weighted_total_sum.
Qed.

Lemma other_violations_do_not_block_witness :
  exists result w',
    CriticFusion.fuse sample_repr CriticFusion.DEFAULT_WEIGHTS risk_violation_critics
      None boot = (Ok result, w') /\
    dict_get "lex_block" result = Some (VBool false) /\
    dict_get "violations" result = Some (VList []).
Proof.
  destruct (other_violations_do_not_block sample_repr CriticFusion.DEFAULT_WEIGHTS
              risk_violation_critics None boot) as (result & w' & E & H1 & H2 & _).
  - intros name out Hr Hl. apply elem_of_singleton in Hr. subst name.
    vm_compute in Hl. injection Hl as <-. reflexivity.
  - exists result, w'. split; [exact E|]. split; [exact H1|exact H2].
Defined.

(** X14. One term per critic (critic_fusion.py, [CriticFusion.fuse]):
    when nothing blocks, adding a critic adds [weight * score] to the
    aggregate score, where a name without a weight weighs 0 and a judgment
    without a score scores 0; so a critic whose name has no weight, or whose
    judgment has no score, leaves the aggregate unchanged. *)
Theorem unweighted_critic_contributes_nothing py_repr weights
    (critics : gmap string Judgment) name out dl w :
  critics !! name = None ->
  (forall n o,
     n ∈ CriticFusion.RIGHTS_CRITICS -> <[name := out]> critics !! n = Some o ->
     default false (violation o) = false) ->
  exists a result w1 result' w2,
    CriticFusion.fuse py_repr weights critics dl w = (Ok result, w1) /\
    dict_get "aggregate_score" result = Some (VFloat a) /\
    CriticFusion.fuse py_repr weights (<[name := out]> critics) dl w = (Ok result', w2) /\
    dict_get "aggregate_score" result'
    = Some (VFloat (default 0 (weights !! name) * float (default (NFloat 0) (score out))
                    + a)) /\
    (weights !! name = None \/ score out = None ->
     dict_get "aggregate_score" result' = Some (VFloat a)).
Proof.
  intros Hfresh Hnone.
  assert (Hnone0 : lex_violations critics = []).
  { apply lex_violations_nil. intros n o Hr Hl. apply (Hnone n o Hr).
    rewrite lookup_insert_ne; [done|]. intros <-.
    pose proof (eq_trans (eq_sym Hl) Hfresh) as Hx. discriminate Hx. }
  apply lex_violations_nil in Hnone.
  destruct (fuse_weighted py_repr weights critics dl w Hnone0) as (w1 & E1 & _).
  destruct (fuse_weighted py_repr weights (<[name := out]> critics) dl w Hnone)
    as (w2 & E2 & _).
  exists (weighted_total weights critics), (weighted_result weights critics), w1,
    (weighted_result weights (<[name := out]> critics)), w2.
  split; [exact E1|]. split; [reflexivity|]. split; [exact E2|].
  unfold weighted_result. cbn [dict_get].
  change (dict_get "aggregate_score" _) with
    (Some (VFloat (weighted_total weights (<[name := out]> critics)))).
  rewrite (weighted_total_insert weights critics name out Hfresh).
  unfold contribution. cbn [fst snd]. split; [reflexivity|].
  intros [-> | ->]; do 2 f_equal; cbn [default float]; ring.
Qed.

Lemma unweighted_critic_contributes_nothing_witness :
  exists a result w1 result' w2,
    CriticFusion.fuse sample_repr CriticFusion.DEFAULT_WEIGHTS
      {["risk" := S2_judgment]} None boot = (Ok result, w1) /\
    dict_get "aggregate_score" result = Some (VFloat a) /\
    CriticFusion.fuse sample_repr CriticFusion.DEFAULT_WEIGHTS
      (<["novelty" := S2_judgment]> {["risk" := S2_judgment]}) None boot
    = (Ok result', w2) /\
    dict_get "aggregate_score" result' = Some (VFloat a).
Proof.
  destruct (unweighted_critic_contributes_nothing sample_repr CriticFusion.DEFAULT_WEIGHTS
              {["risk" := S2_judgment]} "novelty" S2_judgment None boot)
    as (a & result & w1 & result' & w2 & E1 & Ha & E2 & _ & Hsame).
  - reflexivity.
  - intros n o Hr Hl. apply elem_of_singleton in Hr. subst n.
    vm_compute in Hl. discriminate Hl.
  - exists a, result, w1, result', w2.
    split; [exact E1|]. split; [exact Ha|]. split; [exact E2|].
    apply Hsame. left. reflexivity.
Defined.

(** X15. Linearity of the aggregate (critic_fusion.py,
    [CriticFusion.fuse]): when nothing blocks, multiplying every score by
    [k] multiplies the aggregate score by [k]; nothing is clipped or
    normalised, so the aggregate is not confined to any range. *)
Theorem aggregate_scales_with_scores py_repr weights (critics : gmap string Judgment)
    (k : Qc) dl w :
  (forall name out,
     name ∈ CriticFusion.RIGHTS_CRITICS -> critics !! name = Some out ->
     default false (violation out) = false) ->
  exists a result w1 result' w2,
    CriticFusion.fuse py_repr weights critics dl w = (Ok result, w1) /\
    dict_get "aggregate_score" result = Some (VFloat a) /\
    CriticFusion.fuse py_repr weights (scale_score k <$> critics) dl w
    = (Ok result', w2) /\
    dict_get "aggregate_score" result' = Some (VFloat (k * a)).
Proof.
  intros Hnone.
  assert (Hscaled : lex_violations (scale_score k <$> critics) = []).
  { apply lex_violations_nil. intros name out' Hr Hl.
    apply lookup_fmap_Some in Hl as (out & <- & Hl). by apply (Hnone name out Hr). }
  apply lex_violations_nil in Hnone.
  destruct (fuse_weighted py_repr weights critics dl w Hnone) as (w1 & E1 & _).
  destruct (fuse_weighted py_repr weights (scale_score k <$> critics) dl w Hscaled)
    as (w2 & E2 & _).
  exists (weighted_total weights critics), (weighted_result weights critics), w1,
    (weighted_result weights (scale_score k <$> critics)), w2.
  split; [exact E1|]. split; [reflexivity|]. split; [exact E2|].
  change (dict_get "aggregate_score" _) with
    (Some (VFloat (weighted_total weights (scale_score k <$> critics)))).
  do 2 f_equal. rewrite !weighted_total_sum.
  rewrite (map_to_list_fmap (scale_score k) critics).
  rewrite <- sumQ_scale. f_equal.
  rewrite <- list_fmap_compose. rewrite map_map.
  apply map_ext. intros [name out]. unfold contribution. cbn. ring.
Qed.

Lemma aggregate_scales_with_scores_witness :
  exists a result w1 result' w2,
    CriticFusion.fuse sample_repr CriticFusion.DEFAULT_WEIGHTS
      {["risk" := S2_judgment]} None boot = (Ok result, w1) /\
    dict_get "aggregate_score" result = Some (VFloat a) /\
    CriticFusion.fuse sample_repr CriticFusion.DEFAULT_WEIGHTS
      (scale_score (Q2Qc 8) <$> {["risk" := S2_judgment]}) None boot
    = (Ok result', w2) /\
    dict_get "aggregate_score" result' = Some (VFloat (Q2Qc 8 * a)).
Proof.
  apply (aggregate_scales_with_scores sample_repr CriticFusion.DEFAULT_WEIGHTS
           {["risk" := S2_judgment]} (Q2Qc 8) None boot).
  intros name out Hr Hl. apply elem_of_singleton in Hr. subst name.
  vm_compute in Hl. discriminate Hl.
Defined.

(** X16. Precedent retrieval degrades to no precedents
    (precedent_fusion.py, [PrecedentEngine.fetch_relevant]): whatever the
    storage backend raises, [fetch_relevant] raises nothing; without a
    deadline it returns the empty list and traces [precedent.error] once when
    the backend failed, and returns the backend's results without such a
    trace otherwise. *)
Theorem precedent_failure_gives_no_precedents py_repr storage vector top_k w :
  (forall dl e w',
     PrecedentEngine.fetch_relevant py_repr storage vector top_k dl w <> (Raise e, w')) /\
  exists w',
    PrecedentEngine.fetch_relevant py_repr storage vector top_k None w
    = (Ok (match att_result (storage vector top_k) with
           | inl _ => []
           | inr results => results
           end), w') /\
    forall message,
      trace_count message w'
      = (trace_count message w
         + match att_result (storage vector top_k) with
           | inl _ => if bool_decide ("precedent.error" = message) then 1 else 0
           | inr _ => 0
           end)%nat.
Proof.
  split.
  { intros dl e w' E.
    pose proof (fetch_relevant_wp py_repr storage vector top_k dl w) as H.
    unfold wp in H. by rewrite E in H. }
  unfold PrecedentEngine.fetch_relevant.
  rewrite (bind_run _ _ _ _ _ _ (start_span_run _ _ _ _)).
  set (w0 := after_start_span "precedent.fetch" (Some [("top_k", VInt top_k)]) w).
  pose proof (await_from_no_deadline (w_now w0) (storage vector top_k) w0) as Ha.
  fold (await (storage vector top_k) None w0) in Ha.
  destruct (att_result (storage vector top_k)) as [e|results]; cbn [of_result] in Ha.
  - erewrite try_except_raise; [|by apply bind_raise|reflexivity].
    cbv beta. do 2 run_step. eexists. split; [reflexivity|].
    intros message.
    rewrite trace_count_after_end_span, trace_count_after_trace.
    cbn [w_emitted]. unfold w0.
    by rewrite <- (trace_count_after_start_span message "precedent.fetch"
                     (Some [("top_k", VInt top_k)]) w).
  - erewrite try_except_ok.
    2:{ rewrite (bind_run _ _ _ _ _ _ Ha). run_step. reflexivity. }
    eexists. split; [reflexivity|].
    intros message. rewrite trace_count_after_end_span. unfold w0.
    rewrite <- (trace_count_after_start_span message "precedent.fetch"
                  (Some [("top_k", VInt top_k)]) w). 
    unfold trace_count. cbn [w_emitted set_now]. lia.
Qed.





(** X19. A rights violation under a mode without [enforce_lex]
    (hybrid_core.py, [HybridCore._apply_mode]; consensus_fusion.py,
    [ConsensusFusion.decide]): the mode gate never lets it proceed and never
    raises; it passes the reject decision of the consensus fusion on
    unchanged, or wraps it as advice in an advisory mode. *)
Theorem rights_violation_without_enforce_lex py_repr self
    (critics : gmap string Judgment) name out vector dl w :
  name ∈ CriticFusion.RIGHTS_CRITICS ->
  critics !! name = Some out ->
  violation out = Some true ->
  enforce_lex (mode self) = false ->
  exists fusion_out decision w',
    (fusion_out <- ConsensusFusion.decide py_repr (fusion self) critics vector;;
     HybridCore._apply_mode py_repr self fusion_out) dl w = (Ok decision, w') /\
    fusion_out = [("action", VStr "reject");
                  ("confidence", VFloat 1);
                  ("uncertainty", VFloat 0);
                  ("lex_block", VBool true);
                  ("rationale", VStr "Rights-critical violation detected.");
                  ("precedent", VList [])] /\
    decision = if advisory_only (mode self)
               then [("action", VStr "advice"); ("fusion", VDict fusion_out)]
               else fusion_out.
Proof.
  intros Hr Hl Hv Hmode.
  assert (Hin : name ∈ lex_violations critics).
  { apply lex_violations_elem. split; [done|]. exists out. by rewrite Hv. }
  assert (Hne : lex_violations critics <> []).
  { intros E. rewrite E in Hin. by apply not_elem_of_nil in Hin. }
  destruct (decide_lex_block py_repr (fusion self) critics vector dl w Hne) as (w' & E & _).
  exists reject_decision. rewrite (bind_run _ _ _ _ _ _ E).
  unfold HybridCore._apply_mode. rewrite Hmode.
  change (truthy (default (VBool false) (dict_get "lex_block" reject_decision))) with true.
  cbn [andb]. destruct (advisory_only (mode self)).
  - eexists _, w'. split; [reflexivity|]. split; reflexivity.
  - eexists _, w'. split; [reflexivity|]. split; reflexivity.
Qed.

Lemma rights_violation_without_enforce_lex_witness :
  exists decision w',
    (fusion_out <- ConsensusFusion.decide sample_repr
                     (fusion (with_mode HybridMode.PERMISSIVE (sample_core S1_critics)))
                     S1_critics VNone;;
     HybridCore._apply_mode sample_repr
       (with_mode HybridMode.PERMISSIVE (sample_core S1_critics)) fusion_out) None boot
    = (Ok decision, w') /\
    dict_get "action" decision = Some (VStr "reject").
Proof.
  assert (H1 : "rights" ∈ CriticFusion.RIGHTS_CRITICS) by (by apply elem_of_singleton).
  destruct (rights_violation_without_enforce_lex sample_repr
              (with_mode HybridMode.PERMISSIVE (sample_core S1_critics))
              S1_critics "rights" S1_rights VNone None boot H1 eq_refl eq_refl eq_refl)
    as (fusion_out & decision & w' & E & -> & ->).
  exists reject_decision, w'. split; [exact E|reflexivity].
Defined.

(** X20. The thresholds of a mode are not consulted (hybrid_core.py,
    [HybridCore.deliberate] and [_apply_mode]; hybrid_modes.py): the
    deliberation reads only [enforce_lex], [advisory_only] and
    [auto_escalate] of its mode, so two modes that agree on these three
    deliberate alike, whatever their [uncertainty_threshold],
    [allow_override], [block_on_violation] and name. *)
Theorem mode_thresholds_are_not_consulted py_repr self m1 m2 request dl w :
  enforce_lex m1 = enforce_lex m2 ->
  advisory_only m1 = advisory_only m2 ->
  auto_escalate m1 = auto_escalate m2 ->
  HybridCore.deliberate py_repr (with_mode m1 self) request dl w
  = HybridCore.deliberate py_repr (with_mode m2 self) request dl w.
Proof.
  intros H1 H2 H3.
  unfold HybridCore.deliberate, HybridCore._apply_mode, HybridCore._evaluate_critics,
    with_mode.
  cbn [router critics fusion mode backend_runner].
  by rewrite H1, H2, H3.
Qed.

Lemma mode_thresholds_are_not_consulted_witness :
  uncertainty_threshold HybridMode.STRICT <> uncertainty_threshold HybridMode.BALANCED /\
  forall request dl w,
    HybridCore.deliberate sample_repr
      (with_mode HybridMode.STRICT (sample_core S2_critics)) request dl w
    = HybridCore.deliberate sample_repr
        (with_mode HybridMode.BALANCED (sample_core S2_critics)) request dl w.
Proof.
  split; [discriminate|].
  intros request dl w.
  apply (mode_thresholds_are_not_consulted sample_repr (sample_core S2_critics)
           HybridMode.STRICT HybridMode.BALANCED request dl w); reflexivity.
Defined.

(** X21. What [deliberate] can end with (hybrid_core.py,
    [HybridCore.deliberate]): a decision it returns carries an action, which
    is reject, advice, proceed, or escalate under a mode without
    [auto_escalate]; the only exceptions that leave it are
    [EscalationRequired], raised by the mode gate under [auto_escalate]
    outside advisory modes, and [HybridCoreError], which wraps every other
    failure; it is cancelled only under a deadline. *)
Theorem deliberate_outcomes py_repr self request dl w :
  match (HybridCore.deliberate py_repr self request dl w).1 with
  | Ok decision =>
      exists action,
        dict_get "action" decision = Some (VStr action) /\
        (action = "reject" \/ action = "advice" \/ action = "proceed" \/
         (action = "escalate" /\ auto_escalate (mode self) = false))
  | Raise e =>
      (e = mkExn EscalationRequired "Uncertainty threshold exceeded." /\
       auto_escalate (mode self) = true /\ advisory_only (mode self) = false) \/
      exn_class e = HybridCoreError
  | Cancelled => dl <> None
  end.
Proof. exact (deliberate_wp py_repr self request dl w). Qed.

(** X22. Every request is accounted for (runtime.py,
    [EleanorRuntime.decide]; runtime_state.py): called without a deadline
    while the semaphore has a permit left, [decide] returns an envelope and
    raises nothing.  It logs the
    request under a fresh id, emits [runtime.request.received] and exactly
    one terminal event, counts the request as completed when the
    deliberation returned (the envelope is then the decision of the
    deliberation) and as failed otherwise, and leaves [active_tasks] where
    it was. *)
Theorem decide_accounts_for_every_request py_repr self request w :
  (0 < semaphore self)%Z ->
  exists decision w' terminal,
    EleanorRuntime.decide py_repr self request None w = Returns (Ok decision) w' /\
    active_tasks (w_state w') = Z.max 0 (active_tasks (w_state w)) /\
    request_log (w_state w')
    = <[w_uuids w (w_drawn w) :=
          [("payload", request_value request); ("timestamp", VFloat (w_now w))]]>
        (request_log (w_state w)) /\
    map ev_name (runtime_events w')
    = map ev_name (runtime_events w) ++ ["runtime.request.received"; terminal] /\
    ((terminal = "runtime.request.completed" /\
      completed_tasks (w_state w') = (completed_tasks (w_state w) + 1)%Z /\
      failed_tasks (w_state w') = failed_tasks (w_state w) /\
      (exists dl0 w0,
         (HybridCore.deliberate py_repr (hybrid self) request dl0 w0).1 = Ok decision) /\
      exists action, dict_get "action" decision = Some (VStr action)) \/
     (terminal = "runtime.request.escalation" /\
      completed_tasks (w_state w') = completed_tasks (w_state w) /\
      failed_tasks (w_state w') = (failed_tasks (w_state w) + 1)%Z /\
      (exists dl0 w0,
         (HybridCore.deliberate py_repr (hybrid self) request dl0 w0).1
         = Raise (mkExn EscalationRequired "Uncertainty threshold exceeded.")) /\
      decision = [("action", VStr "escalate");
                  ("reason", VStr "Uncertainty threshold exceeded.");
                  ("id", VStr (w_uuids w (w_drawn w)))]) \/
     (terminal = "runtime.request.error" /\
      completed_tasks (w_state w') = completed_tasks (w_state w) /\
      failed_tasks (w_state w') = (failed_tasks (w_state w) + 1)%Z /\
      exists e,
        decision = [("action", VStr "error");
                    ("error", VStr (exn_msg e));
                    ("id", VStr (w_uuids w (w_drawn w)))] /\
        (e = mkExn TimeoutError "" \/
         exists dl0 w0,
           (HybridCore.deliberate py_repr (hybrid self) request dl0 w0).1 = Raise e))).
Proof.
  intros Hpermit.
  destruct (decide_with_permit py_repr self request w Hpermit) as (r & w' & E & H).
  destruct r as [decision|e|]; [|done|done].
  destruct H as (terminal & Ha & Hl & Hev & _ & H).
  exists decision, w', terminal. split; [exact E|].
  split; [exact Ha|]. split; [exact Hl|]. split; [exact Hev|].
  destruct H as [H|[H|H]].
  - left. destruct H as (H1 & H2 & H3 & H4 & H5 & _). by repeat split.
  - right. left. destruct H as (H1 & H2 & H3 & H4 & H5 & _). by repeat split.
  - right. right. destruct H as (H1 & H2 & H3 & e & H4 & H5 & _).
    split; [done|]. split; [done|]. split; [done|]. by exists e.
Qed.

Lemma decide_accounts_for_every_request_witness :
  (0 < semaphore (mkRuntime (sample_core S2_critics) default_config 10))%Z /\
  exists decision w',
    EleanorRuntime.decide sample_repr
      (mkRuntime (sample_core S2_critics) default_config 10) ∅ None boot
    = Returns (Ok decision) w' /\
    active_tasks (w_state w') = Z.max 0 (active_tasks (w_state boot)).
Proof.
  assert (Hpermit : (0 < semaphore (mkRuntime (sample_core S2_critics) default_config 10))%Z)
    by (cbn; lia).
  split; [exact Hpermit|].
  destruct (decide_accounts_for_every_request sample_repr
              (mkRuntime (sample_core S2_critics) default_config 10) ∅ boot Hpermit)
    as (decision & w' & terminal & E & Ha & _).
  exists decision, w'. split; [exact E|exact Ha].
Defined.



(** X24. The escalation threshold of a bootstrapped runtime
    (runtime_bootstrap.py, [bootstrap_runtime]; consensus_fusion.py,
    [ConsensusFusion.decide]): the threshold of the uncertainty engine is
    [decision_timeout / 60], whatever the mode and its
    [uncertainty_threshold]; so with a decision timeout above 60 seconds the
    consensus fusion never decides to escalate. *)
Theorem long_timeout_never_escalates py_lower py_repr router_config critic_map storage
    config rt :
  runtime_bootstrap.bootstrap_runtime py_lower router_config critic_map storage
    (Some config) = inr rt ->
  uncertainty (fusion (hybrid rt)) = decision_timeout config / Q2Qc 60 /\
  (Q2Qc 60 < decision_timeout config ->
   forall critics_out vector dl w decision w',
     ConsensusFusion.decide py_repr (fusion (hybrid rt)) critics_out vector dl w
     = (Ok decision, w') ->
     dict_get "action" decision = Some (VStr "reject") \/
     dict_get "action" decision = Some (VStr "proceed")).
Proof.
  unfold runtime_bootstrap.bootstrap_runtime. cbv zeta.
  change (default default_config (Some config)) with config.
  destruct (HybridMode.get py_lower (rc_mode config)) as [exc|m];
    [intros H; discriminate H|].
  unfold EleanorRuntime.init.
  destruct (bool_decide (max_concurrent_tasks config < 0)%Z); [intros H; discriminate H|].
  intros [= <-]. cbn [hybrid fusion uncertainty UncertaintyEngine.init default].
  split; [reflexivity|].
  intros Hlong critics_out vector dl w decision w' E.
  pose proof (wp_run _ _ _ _ _ _ E (decide_wp _ _ _ _ _ _)) as H.
  cbn [decide_post] in H.
  destruct H as [[_ ->]|(_ & mc & precedents & _ & ->)]; [by left|right].
  unfold fused_decision. cbn [uncertainty].
  rewrite bool_decide_eq_false_2; [reflexivity|].
  apply Qclt_not_le.
  destruct (raw_uncertainty_bounds (dispersion_of critics_out) mc
              (dispersion_nonneg critics_out)) as (_ & Hle & _).
  eapply Qcle_lt_trans; [exact Hle|]. by apply timeout_over_60.
Qed.

Lemma long_timeout_never_escalates_witness :
  exists rt,
    runtime_bootstrap.bootstrap_runtime (fun s => s) sample_router ∅ None
      (Some default_config) = inr rt /\
    uncertainty (fusion (hybrid rt)) = Q2Qc (1 # 3) /\
    uncertainty_threshold (mode (hybrid rt)) = Q2Qc (35 # 100).
Proof.
  eexists. split; [reflexivity|].
  split; [|reflexivity].
  destruct (long_timeout_never_escalates (fun s => s) sample_repr sample_router ∅ None
              default_config _ eq_refl) as [-> _].
  apply Qc_is_canon. reflexivity.
Defined.

(** X25. A bootstrapped runtime has no backend (runtime_bootstrap.py,
    [bootstrap_runtime]; hybrid_core.py, [HybridCore._backend_runner];
    runtime.py, [EleanorRuntime.__init__] and [decide]): [bootstrap_runtime]
    returns a runtime only for a [max_concurrent_tasks] that is not
    negative, and its semaphore holds that many permits; the core it builds
    runs the placeholder backend runner, so, until that method is replaced,
    the runtime answers a request with an error envelope when
    [max_concurrent_tasks] is positive, and with nothing at all, waiting for
    a permit for ever, when it is 0. *)
Theorem bootstrapped_runtime_answers_error py_lower py_repr router_config critic_map
    storage config rt request w :
  runtime_bootstrap.bootstrap_runtime py_lower router_config critic_map storage config
  = inr rt ->
  semaphore rt = max_concurrent_tasks (default default_config config) /\
  (0 <= semaphore rt)%Z /\
  ((0 < semaphore rt)%Z ->
   exists message w',
     EleanorRuntime.decide py_repr rt request None w
     = Returns (Ok [("action", VStr "error");
                    ("error", VStr message);
                    ("id", VStr (w_uuids w (w_drawn w)))]) w' /\
     failed_tasks (w_state w') = (failed_tasks (w_state w) + 1)%Z) /\
  (semaphore rt = 0%Z ->
   exists w', EleanorRuntime.decide py_repr rt request None w = Blocks w').
Proof.
  unfold runtime_bootstrap.bootstrap_runtime. cbv zeta.
  destruct (HybridMode.get py_lower (rc_mode (default default_config config)))
    as [exc|m]; [intros H; discriminate H|].
  unfold EleanorRuntime.init. case_bool_decide as Hneg; [intros H; discriminate H|].
  intros [= <-]. cbn [semaphore].
  split; [reflexivity|]. split; [lia|]. split.
  - intros Hpermit.
    destruct (decide_failing_run py_repr
                (mkRuntime
                   (mkHybridCore router_config critic_map
                      (mkConsensus (CriticFusion.init None)
                         (UncertaintyEngine.init
                            (Some (decision_timeout (default default_config config)
                                   / Q2Qc 60)))
                         storage) m HybridCore._backend_runner)
                   (default default_config config)
                   (max_concurrent_tasks (default default_config config))) request w)
      as (message & w' & E & Hfl & _).
    { intros model_name req i. by eexists. }
    { exact Hpermit. }
    exists message, w'. split; [exact E|exact Hfl].
  - intros Hzero.
    destruct (decide_without_permit py_repr
                (mkRuntime
                   (mkHybridCore router_config critic_map
                      (mkConsensus (CriticFusion.init None)
                         (UncertaintyEngine.init
                            (Some (decision_timeout (default default_config config)
                                   / Q2Qc 60)))
                         storage) m HybridCore._backend_runner)
                   (default default_config config)
                   (max_concurrent_tasks (default default_config config))) request w)
      as (w' & E & _).
    { cbn [semaphore]. lia. }
    by exists w'.
Qed.

Lemma bootstrapped_runtime_answers_error_witness :
  exists rt message w',
    runtime_bootstrap.bootstrap_runtime (fun s => s) sample_router ∅ None None = inr rt /\
    EleanorRuntime.decide sample_repr rt ∅ None boot
    = Returns (Ok [("action", VStr "error");
                   ("error", VStr message);
                   ("id", VStr (w_uuids boot (w_drawn boot)))]) w'.
Proof.
  eexists.
  destruct (bootstrapped_runtime_answers_error (fun s => s) sample_repr sample_router ∅
              None None _ ∅ boot eq_refl) as (_ & _ & Hpos & _).
  destruct Hpos as (message & w' & E & _); [cbn; lia|].
  exists message, w'. split; [reflexivity|exact E].
Defined.

(** X26. Hooks around the runtime step (runtime.py,
    [EleanorRuntime.decide]; hooks.py, [HookManager.fire]): for every
    request the [before_runtime_step] hooks are each called once, with the
    request and its id, before the semaphore is taken.  With a permit left,
    the [after_runtime_step] hooks are called, after them and with the
    decision, exactly when the deliberation returned one.  With no permit
    at all ([max_concurrent_tasks = 0]) the call waits for ever after the
    [before_runtime_step] hooks.  No other
    hook is called and the registered hooks are left as they were. *)
Theorem hooks_fire_around_the_step py_repr self request w :
  ((0 < semaphore self)%Z ->
   exists decision w',
     EleanorRuntime.decide py_repr self request None w = Returns (Ok decision) w' /\
     w_hooks w' = w_hooks w /\
     ((completed_tasks (w_state w') = (completed_tasks (w_state w) + 1)%Z /\
       w_fired w'
       = w_fired w
         ++ map (fun fn => (fn, [("id", VStr (w_uuids w (w_drawn w)));
                                 ("request", request_value request)]))
                (default [] (w_hooks w !! "before_runtime_step"))
         ++ map (fun fn => (fn, [("id", VStr (w_uuids w (w_drawn w)));
                                 ("result", VDict decision)]))
                (default [] (w_hooks w !! "after_runtime_step"))) \/
      (completed_tasks (w_state w') = completed_tasks (w_state w) /\
       w_fired w'
       = w_fired w
         ++ map (fun fn => (fn, [("id", VStr (w_uuids w (w_drawn w)));
                                 ("request", request_value request)]))
                (default [] (w_hooks w !! "before_runtime_step"))))) /\
  (semaphore self = 0%Z ->
   exists w',
     EleanorRuntime.decide py_repr self request None w = Blocks w' /\
     w_hooks w' = w_hooks w /\
     w_fired w'
     = w_fired w
       ++ map (fun fn => (fn, [("id", VStr (w_uuids w (w_drawn w)));
                               ("request", request_value request)]))
              (default [] (w_hooks w !! "before_runtime_step"))).
Proof.
  split.
  - intros Hpermit.
    destruct (decide_with_permit py_repr self request w Hpermit) as (r & w' & E & H).
    destruct r as [decision|e|]; [|done|done].
    destruct H as (terminal & _ & _ & _ & Hhooks & H).
    exists decision, w'. split; [exact E|]. split; [exact Hhooks|].
    destruct H as [H|[H|H]].
    + left. destruct H as (_ & Hc & _ & _ & _ & Hf). split; [exact Hc|exact Hf].
    + right. destruct H as (_ & Hc & _ & _ & _ & Hf). split; [exact Hc|exact Hf].
    + right. destruct H as (_ & Hc & _ & e & _ & _ & Hf). split; [exact Hc|exact Hf].
  - intros Hzero.
    destruct (decide_without_permit py_repr self request w) as (w' & E & H); [lia|].
    exists w'. split; [exact E|]. destruct H. by split.
Qed.

(** X27. A rights critic that fails does not block (hybrid_core.py,
    [HybridCore._evaluate_critics]; critic_fusion.py, [CriticFusion.fuse]):
    when the evaluation of the rights critic raises, the fan-out records a
    judgment without a violation for it, so the fusion of the recorded
    judgments reports no lexicographic block, whatever that critic would
    have found. *)
Theorem failed_rights_critic_fails_open py_repr self request backend_response critic exc
    weights w :
  critics self !! "rights" = Some critic ->
  att_result (critic request backend_response) = inl exc ->
  exists judgments w1 result w2,
    HybridCore._evaluate_critics self request backend_response None w
    = (Ok judgments, w1) /\
    judgments !! "rights"
    = Some (mkJudgment (Some (NInt 0)) (Some (NInt 0)) (Some false)
              (Some ("Critic error: " +:+ exn_msg exc))) /\
    CriticFusion.fuse py_repr weights judgments None w1 = (Ok result, w2) /\
    dict_get "lex_block" result = Some (VBool false) /\
    dict_get "violations" result = Some (VList []).
Proof.
  intros Hl Hfail.
  destruct (evaluate_critics_no_deadline self request backend_response w) as [w1 E].
  set (judgments := (fun critic : Critic => recorded (critic request backend_response))
                    <$> critics self) in *.
  assert (Hrights : judgments !! "rights" = Some (HybridCore.critic_error exc)).
  { unfold judgments. apply lookup_fmap_Some. exists critic.
    split; [unfold recorded; by rewrite Hfail|exact Hl]. }
  assert (Hnone : lex_violations judgments = []).
  { apply lex_violations_nil. intros name out Hr Hout.
    apply elem_of_singleton in Hr. subst name.
    pose proof (eq_trans (eq_sym Hout) Hrights) as Heq. by injection Heq as ->. }
  destruct (fuse_weighted py_repr weights judgments None w1 Hnone) as (w2 & E2 & _).
  exists judgments, w1, (weighted_result weights judgments), w2.
  split; [exact E|]. split; [exact Hrights|]. split; [exact E2|].
  split; reflexivity.
Qed.

Lemma failed_rights_critic_fails_open_witness :
  exists judgments w1 result w2,
    HybridCore._evaluate_critics
      (mkHybridCore sample_router
         {["rights" := (fun _ _ => mkAttempt 0 (inl (mkExn Exception "down"))) : Critic]}
         (default_fusion None) HybridMode.STRICT HybridCore._backend_runner)
      ∅ [] None boot
    = (Ok judgments, w1) /\
    CriticFusion.fuse sample_repr CriticFusion.DEFAULT_WEIGHTS judgments None w1
    = (Ok result, w2) /\
    dict_get "lex_block" result = Some (VBool false).
Proof.
  destruct (failed_rights_critic_fails_open sample_repr
              (mkHybridCore sample_router
                 {["rights" := (fun _ _ => mkAttempt 0 (inl (mkExn Exception "down")))
                               : Critic]}
                 (default_fusion None) HybridMode.STRICT HybridCore._backend_runner)
              ∅ [] (fun _ _ => mkAttempt 0 (inl (mkExn Exception "down")))
              (mkExn Exception "down") CriticFusion.DEFAULT_WEIGHTS boot
              (lookup_singleton_eq _ _) eq_refl)
    as (judgments & w1 & result & w2 & E1 & _ & E2 & Hlex & _).
  exists judgments, w1, result, w2. split; [exact E1|]. split; [exact E2|exact Hlex].
Defined.

(** X28. A failed critic counts as a vote of no confidence
    (hybrid_core.py, [HybridCore._evaluate_critics]; uncertainty_fusion.py,
    [UncertaintyEngine.compute]): the judgment recorded for a critic whose
    evaluation raises has confidence 0, so on the recorded judgments the
    least confidence is at most 0 and the uncertainty at least 0.3, whatever
    the other critics say. *)
Theorem failed_critic_raises_uncertainty self request backend_response name critic exc
    threshold w :
  critics self !! name = Some critic ->
  att_result (critic request backend_response) = inl exc ->
  exists judgments w1 u d m w2,
    HybridCore._evaluate_critics self request backend_response None w
    = (Ok judgments, w1) /\
    UncertaintyEngine.compute threshold judgments None w1
    = (Ok [("uncertainty", VFloat u);
           ("escalate", VBool (bool_decide (threshold <= u)));
           ("dispersion", VFloat d);
           ("min_confidence", VFloat m)], w2) /\
    m <= 0 /\ Q2Qc (3 # 10) <= u /\ u <= 1.
Proof.
  intros Hl Hfail.
  destruct (evaluate_critics_no_deadline self request backend_response w) as [w1 E].
  set (judgments := (fun critic : Critic => recorded (critic request backend_response))
                    <$> critics self) in *.
  assert (Hrec : judgments !! name = Some (HybridCore.critic_error exc)).
  { unfold judgments. apply lookup_fmap_Some. exists critic.
    split; [unfold recorded; by rewrite Hfail|exact Hl]. }
  assert (Hne : judgments <> ∅).
  { intros Hempty. rewrite Hempty in Hrec. discriminate Hrec. }
  destruct (compute_nonempty threshold judgments None w1 Hne) as (m & w2 & Hm & E2 & _).
  destruct (raw_uncertainty_bounds (dispersion_of judgments) m (dispersion_nonneg judgments))
    as (_ & H1 & Hlow).
  assert (Hm0 : m <= 0).
  { destruct (py_min_is_minimum _ _ Hm) as [_ Hleast].
    apply (Hleast _ (elem_of_confidences_of judgments name _ Hrec)). }
  exists judgments, w1, (raw_uncertainty (dispersion_of judgments) m),
    (dispersion_of judgments), m, w2.
  split; [exact E|]. split; [exact E2|]. split; [exact Hm0|]. split; [|exact H1].
  apply Hlow. eapply Qcle_lt_trans; [exact Hm0|]. reflexivity.
Qed.

Lemma failed_critic_raises_uncertainty_witness :
  exists judgments w1 u d m w2,
    HybridCore._evaluate_critics
      (mkHybridCore sample_router
         {["truth" := (fun _ _ => mkAttempt 0 (inl (mkExn Exception "down"))) : Critic]}
         (default_fusion None) HybridMode.STRICT HybridCore._backend_runner)
      ∅ [] None boot
    = (Ok judgments, w1) /\
    UncertaintyEngine.compute (UncertaintyEngine.init None) judgments None w1
    = (Ok [("uncertainty", VFloat u);
           ("escalate", VBool (bool_decide (UncertaintyEngine.init None <= u)));
           ("dispersion", VFloat d);
           ("min_confidence", VFloat m)], w2) /\
    Q2Qc (3 # 10) <= u.
Proof.
  destruct (failed_critic_raises_uncertainty
              (mkHybridCore sample_router
                 {["truth" := (fun _ _ => mkAttempt 0 (inl (mkExn Exception "down")))
                              : Critic]}
                 (default_fusion None) HybridMode.STRICT HybridCore._backend_runner)
              ∅ [] "truth" (fun _ _ => mkAttempt 0 (inl (mkExn Exception "down")))
              (mkExn Exception "down") (UncertaintyEngine.init None) boot
              (lookup_singleton_eq _ _) eq_refl)
    as (judgments & w1 & u & d & m & w2 & E1 & E2 & _ & Hu & _).
  exists judgments, w1, u, d, m, w2. split; [exact E1|]. split; [exact E2|exact Hu].
Defined.

(** X29. A backend failure reaches the caller of [deliberate] with its
    text (hybrid_core.py, [HybridCore.deliberate]; router.py,
    [Router.execute]): when every attempt of the backend fails,
    [deliberate] raises a [HybridCoreError] whose text is that of the
    router's error, naming the backend, [max_retries] and the last failure;
    the backend runner was invoked [max_retries + 1] times. *)
Theorem backend_failure_reaches_the_caller py_repr self request cfg (errs : nat -> Exn) w :
  models (router self) !! Router.route (router self) request = Some cfg ->
  mb_enabled cfg = true ->
  0 < mb_timeout cfg ->
  (0 <= mb_max_retries cfg)%Z ->
  (forall i, (Z.of_nat i <= mb_max_retries cfg)%Z ->
     attempt_result cfg
       (backend_runner self (mb_name cfg) request (length (w_calls w) + i)%nat)
     = inl (errs i)) ->
  exists w',
    HybridCore.deliberate py_repr self request None w
    = (Raise (mkExn HybridCoreError
                ("Backend '" +:+ mb_name cfg +:+ "' failed after " +:+
                 pretty (mb_max_retries cfg) +:+ " retries: " +:+
                 exn_msg (errs (Z.to_nat (mb_max_retries cfg))))), w') /\
    router_calls cfg request (Z.to_nat (mb_max_retries cfg + 1)) w w'.
Proof.
  intros Hcfg Hen Ht Hr Hfail. unfold HybridCore.deliberate. run_step.
  destruct (execute_exhausted py_repr (router self) request (backend_runner self)
              (Some (map_to_list request)) cfg errs
              (after_start_span "hybrid.deliberate" None w) Hcfg Hen Ht Hr Hfail)
    as (w2 & E & Hcalls & _).
  erewrite try_except_raise; [|by apply bind_raise|reflexivity].
  cbv beta. do 2 run_step. eexists. split; [reflexivity|].
  destruct Hcalls as (new & Hnew & Hlen & Hok).
  exists new. split; [|by split]. exact Hnew.
Qed.

Lemma backend_failure_reaches_the_caller_witness :
  exists w',
    HybridCore.deliberate sample_repr (sample_core S2_critics) ∅ None boot
    = (Raise (mkExn HybridCoreError
                "Backend 'local' failed after 1 retries: Attach your backend LLM driver here."),
       w') /\
    router_calls sample_backend ∅ 2 boot w'.
Proof.
  apply (backend_failure_reaches_the_caller sample_repr (sample_core S2_critics) ∅
           sample_backend
           (fun _ => mkExn NotImplementedError "Attach your backend LLM driver here.") boot).
  - reflexivity.
  - reflexivity.
  - reflexivity.
  - cbn. lia.
  - intros i Hi. reflexivity.
Defined.

(** X30. The fan-out takes as long as its slowest critic (hybrid_core.py,
    [HybridCore._evaluate_critics]): the critics are started together and
    awaited in turn, so without a deadline the fan-out ends when the last
    of them is through: no critic ends after it, and it ends at once or
    with one of the critics, not after the sum of their durations. *)
Theorem fan_out_takes_the_slowest_critic self request backend_response w :
  exists judgments w',
    HybridCore._evaluate_critics self request backend_response None w
    = (Ok judgments, w') /\
    w_now w <= w_now w' /\
    (forall name critic,
       critics self !! name = Some critic ->
       w_now w + att_secs (critic request backend_response) <= w_now w') /\
    (w_now w' = w_now w \/
     exists name critic,
       critics self !! name = Some critic /\
       w_now w' = w_now w + att_secs (critic request backend_response)).
Proof.
  unfold HybridCore._evaluate_critics.
  rewrite (bind_run _ _ _ _ _ _ (eq_refl : time_time None w = (Ok (w_now w), w))).
  rewrite await_tasks_no_deadline.
  set (tasks := map (fun '(name, critic) => (name, critic request backend_response))
                    (map_to_list (critics self))).
  destruct (finish_time_bounds (w_now w) tasks (w_now w)) as (Hle & Hall & Hone).
  assert (Hin : forall name task,
             (name, task) ∈ tasks <->
             exists critic, critics self !! name = Some critic /\
                            task = critic request backend_response).
  { intros name task. unfold tasks. rewrite list_elem_of_In, in_map_iff. split.
    - intros ([n critic] & [= <- <-] & Hin).
      apply list_elem_of_In, elem_of_map_to_list in Hin. by exists critic.
    - intros (critic & Hl & ->). exists (name, critic). split; [done|].
      by apply list_elem_of_In, elem_of_map_to_list. }
  eexists _, _. split; [reflexivity|]. cbn [w_now set_now].
  split; [exact Hle|]. split.
  - intros name critic Hl. apply (Hall name). apply Hin. by exists critic.
  - destruct Hone as [Heq|(name & task & Ht & Heq)]; [by left|right].
    apply Hin in Ht as (critic & Hl & ->). by exists name, critic.
Qed.
